(** * Volvo supplier scorecard tools: extractor (ttm/gethtmls4.py) and
      collector (ver2/getweb.py)

    A shallow embedding of the two scripts.  Exceptions are an explicit
    [result] type; a [dict] with string keys is a [gmap string _]; the
    regular expressions of the scripts are run by a small backtracking
    matcher that lists the successes of a pattern in the order Python's
    [re] tries them.

    A Python [str] is a Rocq string whose characters stand for code points
    below 128.  The classes [\d] and [\s], [str.lower], [str.isdigit],
    [str.strip] and IGNORECASE are given on these code points; what the
    Unicode tables say above 127 is outside the embedding (a character
    above 127 is neither digit nor space nor letter here).  [int] of a
    digit string is total: the interpreter's limit on the number of digits
    is not part of it. *)

From Stdlib Require Import Ascii ZArith NArith List Bool Lia DecimalString.
From Stdlib Require String.
From stdpp Require Import gmap strings list fin_maps sorting.
From Equations Require Import Equations.

Local Open Scope Z_scope.

(* ===================================================================== *)
(** ** Python strings *)
(* ===================================================================== *)

Module Py.

Definition chars (s : string) : list ascii := String.list_ascii_of_string s.
Definition text (l : list ascii) : string := String.string_of_list_ascii l.

Definition code (a : ascii) : N := N_of_ascii a.

(** [str.lower] on one code point below 128. *)
Definition lower (a : ascii) : ascii :=
  if (65 <=? code a)%N && (code a <=? 90)%N then ascii_of_N (code a + 32) else a.

(** [str.upper] on one code point below 128. *)
Definition upper (a : ascii) : ascii :=
  if (97 <=? code a)%N && (code a <=? 122)%N then ascii_of_N (code a - 32) else a.

(** Decimal digits, the class [\d] and [str.isdigit] below 128. *)
Definition is_digit (a : ascii) : bool :=
  (48 <=? code a)%N && (code a <=? 57)%N.

(** White space, the class [\s] and [str.strip] below 128:
    TAB, LF, VT, FF, CR, the separators 28..31 and the blank. *)
Definition is_space (a : ascii) : bool :=
  ((9 <=? code a)%N && (code a <=? 13)%N)
  || ((28 <=? code a)%N && (code a <=? 32)%N).

Definition newline : ascii := ascii_of_N 10.

Fixpoint map_str (f : ascii -> ascii) (s : string) : string :=
  match s with
  | EmptyString => EmptyString
  | String a s' => String (f a) (map_str f s')
  end.

Definition str_lower : string -> string := map_str lower.
Definition str_upper : string -> string := map_str upper.

(** [needle in hay] *)
Fixpoint contains (needle hay : string) : bool :=
  String.prefix needle hay
  || match hay with
     | EmptyString => false
     | String _ hay' => contains needle hay'
     end.

(** [s.replace(c, '')] for a one-character [c]. *)
Fixpoint remove_char (c : ascii) (s : string) : string :=
  match s with
  | EmptyString => EmptyString
  | String a s' =>
      if Ascii.eqb a c then remove_char c s' else String a (remove_char c s')
  end.

Fixpoint all_chars (p : ascii -> bool) (s : string) : bool :=
  match s with
  | EmptyString => true
  | String a s' => p a && all_chars p s'
  end.

(** [s.isdigit()]: non-empty and made of digits. *)
Definition isdigit (s : string) : bool :=
  match s with
  | EmptyString => false
  | _ => all_chars is_digit s
  end.

(** [s.strip()] *)
Fixpoint lstrip_chars (l : list ascii) : list ascii :=
  match l with
  | a :: l' => if is_space a then lstrip_chars l' else l
  | [] => []
  end.

Definition strip (s : string) : string :=
  text (rev (lstrip_chars (rev (lstrip_chars (chars s))))).

(** [s.split(',', 1)] when [',' in s]: the text before the first comma
    and the text after it. *)
Fixpoint split_comma (s : string) : option (string * string) :=
  match s with
  | EmptyString => None
  | String a s' =>
      if Ascii.eqb a ","%char then Some (EmptyString, s')
      else match split_comma s' with
           | Some (l, r) => Some (String a l, r)
           | None => None
           end
  end.

(** [s[:2]] *)
Definition first_two (s : string) : string := String.substring 0 2 s.

(** [int(s)] for a string of decimal digits. *)
Definition digit_value (a : ascii) : N := (code a - 48)%N.

Definition int_of_digits (s : string) : N :=
  fold_left (fun n a => (10 * n + digit_value a)%N) (chars s) 0%N.

(** [str(n)] for a natural number. *)
Definition str_of_N (n : N) : string := NilZero.string_of_uint (N.to_uint n).
End Py.

(* ===================================================================== *)
(** ** Exceptions *)
(* ===================================================================== *)

Inductive exn : Type :=
| KeyError (key : string)
| ValueError (what : string).

Inductive result (A : Type) : Type :=
| Ok (a : A)
| Raise (e : exn).
Arguments Ok {A} a.
Arguments Raise {A} e.

Global Instance result_ret : MRet result := fun A a => Ok a.
Global Instance result_bind : MBind result := fun A B f r =>
  match r with
  | Ok a => f a
  | Raise e => Raise e
  end.

(** What a call returned, or what it raised. *)
Definition returned {A B : Type} (f : A -> B) (r : result A) : option B :=
  match r with
  | Ok a => Some (f a)
  | Raise _ => None
  end.

Definition raised {A : Type} (r : result A) : option exn :=
  match r with
  | Ok _ => None
  | Raise e => Some e
  end.

(** [d[k]] as an expression: a missing key raises [KeyError]. *)
Definition getitem (d : gmap string string) (k : string) : result string :=
  match d !! k with
  | Some v => Ok v
  | None => Raise (KeyError k)
  end.

(* ===================================================================== *)
(** ** Regular expressions *)
(* ===================================================================== *)

Module Re.
Import Py.

Inductive cclass : Type :=
| CLit (c : ascii)           (* a literal character *)
| CDigit                     (* \d *)
| CSpace                     (* \s *)
| CAny                       (* .  : anything but a line feed *)
| CSet (cs : list ascii).    (* [...] *)

Inductive regex : Type :=
| REps
| RChar (c : cclass)
| RSeq (r1 r2 : regex)
| RAlt (r1 r2 : regex)
| RStar (c : cclass) (greedy : bool)   (* c* and c*? *)
| RGroup (i : nat) (r : regex)
| REnd.                                (* $ *)

(** Whether [a] belongs to the class; [ic] is the IGNORECASE flag. *)
Definition same_char (ic : bool) (x a : ascii) : bool :=
  if ic then Ascii.eqb (lower x) (lower a) else Ascii.eqb x a.

Definition cls_ok (ic : bool) (c : cclass) (a : ascii) : bool :=
  match c with
  | CLit x => same_char ic x a
  | CDigit => is_digit a
  | CSpace => is_space a
  | CAny => negb (Ascii.eqb a newline)
  | CSet cs => existsb (fun x => same_char ic x a) cs
  end.

(** Remainders after a greedy star, longest repetition first. *)
Fixpoint star_greedy (ok : ascii -> bool) (s : list ascii) : list (list ascii) :=
  match s with
  | a :: s' => if ok a then star_greedy ok s' ++ [s] else [s]
  | [] => [[]]
  end.

(** Remainders after a lazy star, shortest repetition first. *)
Fixpoint star_lazy (ok : ascii -> bool) (s : list ascii) : list (list ascii) :=
  s :: match s with
       | a :: s' => if ok a then star_lazy ok s' else []
       | [] => []
       end.

(** [$] without MULTILINE: the end of the text, or just before a line
    feed that ends the text. *)
Definition at_end (s : list ascii) : bool :=
  match s with
  | [] => true
  | [a] => Ascii.eqb a newline
  | _ => false
  end.

Definition caps : Type := list (nat * list ascii).

(** The text between the start [s] of a match and its remainder [s']. *)
Definition consumed (s s' : list ascii) : list ascii :=
  take (length s - length s') s.

(** All the ways [r] matches a prefix of [s], in the order a backtracking
    matcher tries them: each is the remainder of the text and the groups
    captured on the way. *)
Fixpoint rmatch (ic : bool) (r : regex) (s : list ascii)
  : list (list ascii * caps) :=
  match r with
  | REps => [(s, [])]
  | RChar c =>
      match s with
      | a :: s' => if cls_ok ic c a then [(s', [])] else []
      | [] => []
      end
  | RSeq r1 r2 =>
      p1 ← rmatch ic r1 s;
      p2 ← rmatch ic r2 (fst p1);
      [(fst p2, snd p1 ++ snd p2)]
  | RAlt r1 r2 => rmatch ic r1 s ++ rmatch ic r2 s
  | RStar c g =>
      (fun s' => (s', [])) <$>
        (if g then star_greedy (cls_ok ic c) s else star_lazy (cls_ok ic c) s)
  | RGroup i r =>
      (fun p => (fst p, snd p ++ [(i, consumed s (fst p))])) <$> rmatch ic r s
  | REnd => if at_end s then [(s, [])] else []
  end.

(** [re.search]: the first success at the leftmost position that has one. *)
Fixpoint search_from (ic : bool) (r : regex) (s : list ascii) : option caps :=
  match rmatch ic r s with
  | p :: _ => Some (snd p)
  | [] =>
      match s with
      | _ :: s' => search_from ic r s'
      | [] => None
      end
  end.

Definition search (ic : bool) (r : regex) (s : string) : option caps :=
  search_from ic r (chars s).

(** [m.group(i)] for a group that took part in the match. *)
Definition group (i : nat) (c : caps) : string :=
  match List.find (fun p => Nat.eqb (fst p) i) c with
  | Some p => text (snd p)
  | None => EmptyString
  end.

(** Pattern builders. *)
Fixpoint lit_chars (l : list ascii) : regex :=
  match l with
  | [] => REps
  | a :: l' => RSeq (RChar (CLit a)) (lit_chars l')
  end.
Definition lit (s : string) : regex := lit_chars (chars s).

Definition star (c : cclass) : regex := RStar c true.
Definition plus (c : cclass) : regex := RSeq (RChar c) (RStar c true).
Definition lazy_plus (c : cclass) : regex := RSeq (RChar c) (RStar c false).

Fixpoint times (n : nat) (c : cclass) : regex :=
  match n with
  | O => REps
  | S n' => RSeq (RChar c) (times n' c)
  end.

Fixpoint cat (rs : list regex) : regex :=
  match rs with
  | [] => REps
  | [r] => r
  | r :: rs' => RSeq r (cat rs')
  end.

(** The text starts with the literal, up to case when [ic] is set. *)
Fixpoint starts (ic : bool) (l s : list ascii) : bool :=
  match l, s with
  | [], _ => true
  | x :: l', a :: s' => same_char ic x a && starts ic l' s'
  | _ :: _, [] => false
  end.

(** No line feed in the text: [.] accepts each of its characters. *)
Definition one_line (s : list ascii) : Prop :=
  Forall (fun a => cls_ok true CAny a = true) s.

(** \d{4}-\d{2}-\d{2} *)
Definition iso_date : regex :=
  cat [times 4 CDigit; lit "-"; times 2 CDigit; lit "-"; times 2 CDigit].
End Re.

(* ===================================================================== *)
(** ** Dates: [datetime.strptime(_, '%Y-%m-%d')] and [datetime.now()] *)
(* ===================================================================== *)

Module Datetime.
Import Py.

(** A naive [datetime]: a calendar date and the time of day in
    microseconds since midnight. *)
Record datetime : Type := {
  year : Z;
  month : Z;
  day : Z;
  micros : Z
}.

Definition is_leap (y : Z) : bool :=
  (y mod 4 =? 0) && (negb (y mod 100 =? 0) || (y mod 400 =? 0)).

Definition days_in_month (y m : Z) : Z :=
  if m =? 2 then (if is_leap y then 29 else 28)
  else if (m =? 4) || (m =? 6) || (m =? 9) || (m =? 11) then 30
  else 31.

Definition valid_date (y m d : Z) : bool :=
  (1 <=? y) && (y <=? 9999) && (1 <=? m) && (m <=? 12)
  && (1 <=? d) && (d <=? days_in_month y m).

(** The text shape the pattern \d{4}-\d{2}-\d{2} accepts. *)
Definition iso_shape (s : string) : bool :=
  match chars s with
  | [y1; y2; y3; y4; h1; m1; m2; h2; d1; d2] =>
      forallb is_digit [y1; y2; y3; y4; m1; m2; d1; d2]
      && Ascii.eqb h1 "-"%char && Ascii.eqb h2 "-"%char
  | _ => false
  end.

(** [datetime.strptime(s, '%Y-%m-%d')] on a text of that shape: midnight
    of the day, or [ValueError] when it is not a calendar date. *)
Definition strptime (s : string) : result datetime :=
  if iso_shape s then
    let y := Z.of_N (int_of_digits (String.substring 0 4 s)) in
    let m := Z.of_N (int_of_digits (String.substring 5 2 s)) in
    let d := Z.of_N (int_of_digits (String.substring 8 2 s)) in
    if valid_date y m d
    then Ok {| year := y; month := m; day := d; micros := 0 |}
    else Raise (ValueError s)
  else Raise (ValueError s).

(** [a < b] on naive datetimes. *)
Definition dt_ltb (a b : datetime) : bool :=
  (year a <? year b)
  || ((year a =? year b)
      && ((month a <? month b)
          || ((month a =? month b)
              && ((day a <? day b)
                  || ((day a =? day b) && (micros a <? micros b)))))).

(** The calendar date of [a] is strictly earlier than that of [b]. *)
Definition date_earlier (a b : datetime) : Prop :=
  year a < year b
  \/ (year a = year b
      /\ (month a < month b \/ (month a = month b /\ day a < day b))).
End Datetime.

(* ===================================================================== *)
(** ** The numbers and the random generator of the performance series *)
(* ===================================================================== *)

(** Python's floats, [round], [max] and the [random] module are library
    code: the embedding takes them as an interface. *)
Class Runtime : Type := {
  float : Type;
  float_of_str : string -> option float;   (* float(s); None is ValueError *)
  zero : float;                            (* the literal 0 *)
  gt0 : float -> bool;                     (* x > 0 *)
  trunc : float -> Z;                      (* int(x) *)
  fadd : float -> float -> float;          (* x + y *)
  round1 : float -> float;                 (* round(x, 1) *)
  max0 : float -> float;                   (* max(0, x) *)
  rng : Type;                              (* state of the global generator *)
  seed : Z -> rng;                         (* random.seed(n) *)
  uniform : Z -> Z -> rng -> float * rng   (* random.uniform(a, b) *)
}.

(** An instance to run the embedding on concrete pages: numbers are exact
    decimals [mant / 10^expo], the generator is a linear congruential one
    that draws tenths. *)
Module DecimalRuntime.
Import Py.

Record dec : Type := {
  mant : Z;
  expo : nat
}.

Definition is_dot (a : ascii) : bool := Ascii.eqb a "."%char.

(** The digits before the first dot and the text after it. *)
Fixpoint split_dot (l : list ascii) : list ascii * option (list ascii) :=
  match l with
  | [] => ([], None)
  | a :: l' =>
      if is_dot a then ([], Some l')
      else let '(i, f) := split_dot l' in (a :: i, f)
  end.

(** [float(s)] for a text of digits and dots: a second dot, or no digit,
    is a [ValueError]. *)
Definition dec_of_str (s : string) : option dec :=
  let '(i, f) := split_dot (chars s) in
  let f := default [] f in
  if forallb is_digit (i ++ f) && negb (Nat.eqb (length (i ++ f)) 0)
  then Some {| mant := Z.of_N (int_of_digits (text (i ++ f))); expo := length f |}
  else None.

Definition pow10 (n : nat) : Z := 10 ^ Z.of_nat n.

Definition dec_add (x y : dec) : dec :=
  let e := Nat.max (expo x) (expo y) in
  {| mant := mant x * pow10 (e - expo x) + mant y * pow10 (e - expo y);
     expo := e |}.

(** Rounding to one decimal place, ties to even. *)
Definition dec_round1 (x : dec) : dec :=
  match expo x with
  | O | S O => x
  | S (S k) =>
      let unit := pow10 (S k) in
      let q := mant x / unit in
      let r := mant x mod unit in
      let up := (unit <? 2 * r) || ((unit =? 2 * r) && Z.odd q) in
      {| mant := if up then q + 1 else q; expo := 1 |}
  end.

Definition dec_uniform (a b : Z) (g : Z) : dec * Z :=
  let g' := (g * 1103515245 + 12345) mod 2147483648 in
  ({| mant := 10 * a + g' mod (10 * (b - a) + 1); expo := 1 |}, g').

Definition decimal : Runtime := {|
  float := dec;
  float_of_str := dec_of_str;
  zero := {| mant := 0; expo := 0 |};
  gt0 := fun x => 0 <? mant x;
  trunc := fun x => Z.quot (mant x) (pow10 (expo x));
  fadd := dec_add;
  round1 := dec_round1;
  max0 := fun x => if 0 <? mant x then x else {| mant := 0; expo := 0 |};
  rng := Z;
  seed := fun n => n;
  uniform := dec_uniform
|}.
End DecimalRuntime.

(* ===================================================================== *)
(** ** The extractor: ttm/gethtmls4.py *)
(* ===================================================================== *)

Module Extractor.
Import Py Re Datetime.

(** *** What the script reads from the parsed page

    BeautifulSoup is library code.  A page is given by the answers to the
    queries the script makes; every text is the [get_text(strip=True)] of
    the element found. *)

(** A row of the table [tblSales2]: [row.get('id', '')] and the texts of
    [row.find_all('td')]. *)
Record Row : Type := {
  row_id : string;
  cells : list string
}.

Record Soup : Type := {
  (** the first [a] whose [href] contains SupplierInformation.aspx *)
  supplier_link : option string;
  (** [div] with id SEMPanelFollowup *)
  sem_panel : option string;
  (** the SSColorRating cells of the row that holds the label; no cell
      when the label or its row is missing *)
  quality_cert_cells : list string;     (* 'Quality Certification:' *)
  env_cert_cells : list string;         (* 'Environmental Certification:' *)
  logistic_cells : list string;         (* 'Logistic Audit:' *)
  reach_cells : list string;            (* 'REACH EU Compliance:' *)
  csr_cells : list string;              (* 'Sustainability Self-Assessment:' *)
  (** [div] with id IndexAuditPanel *)
  audit_panel : option string;
  (** the [tr] rows of the table with id tblSales2; none without table *)
  performance_rows : list Row
}.

Definition NA : string := "N/A".

Definition extract_text (element : option string) : string :=
  match element with
  | Some t => t
  | None => NA
  end.

(** *** The patterns *)

(** (\d+)% *)
Definition re_percent : regex := cat [RGroup 1 (plus CDigit); lit "%"].
(** (\d{4}-\d{2}-\d{2}) *)
Definition re_date : regex := RGroup 1 iso_date.
(** Expire:\s*(\d{4}-\d{2}-\d{2}) *)
Definition re_expire : regex := cat [lit "Expire:"; star CSpace; RGroup 1 iso_date].
(** Evaluated:\s*(\d{4}-\d{2}-\d{2}) *)
Definition re_evaluated : regex :=
  cat [lit "Evaluated:"; star CSpace; RGroup 1 iso_date].
(** ([ABC])\s+(\d+)% *)
Definition re_grade : regex :=
  cat [RGroup 1 (RChar (CSet ["A"; "B"; "C"]%char)); plus CSpace;
       RGroup 2 (plus CDigit); lit "%"].
(** \((\d{4}-\d{2}-\d{2})\) *)
Definition re_paren_date : regex := cat [lit "("; RGroup 1 iso_date; lit ")"].

(** SMA\s*/\s*Criticality\s+1\s+Index *)
Definition hdr_sma : regex :=
  cat [lit "SMA"; star CSpace; lit "/"; star CSpace; lit "Criticality";
       plus CSpace; lit "1"; plus CSpace; lit "Index"].
(** Software\s+Index *)
Definition hdr_sw : regex := cat [lit "Software"; plus CSpace; lit "Index"].
(** EE\s+Index *)
Definition hdr_ee : regex := cat [lit "EE"; plus CSpace; lit "Index"].

(** (?:Software Index|EE Index|$) *)
Definition end_sma : regex :=
  RAlt (lit "Software Index") (RAlt (lit "EE Index") REnd).
(** (?:EE Index|$) *)
Definition end_sw : regex := RAlt (lit "EE Index") REnd.

(** (.+?) *)
Definition segment : regex := RGroup 1 (lazy_plus CAny).

Definition re_sma : regex := RSeq hdr_sma (RSeq segment end_sma).
Definition re_sw : regex := RSeq hdr_sw (RSeq segment end_sw).
Definition re_ee : regex := RSeq hdr_ee (RSeq segment REnd).

(** *** A panel text with its three segments *)

Definition H_SMA : string := "SMA / Criticality 1 Index".
Definition H_SW : string := "Software Index".
Definition H_EE : string := "EE Index".

(** The three segments [s1], [s2], [s3] after their headings, in reading
    order, after some text [pre]. *)
Definition panel (pre s1 s2 s3 : string) : string :=
  pre +:+ H_SMA +:+ s1 +:+ H_SW +:+ s2 +:+ H_EE +:+ s3.

(** The characters of such a text. *)
Definition panel_list (P S1 S2 S3 : list ascii) : list ascii :=
  P ++ chars H_SMA ++ S1 ++ chars H_SW ++ S2 ++ chars H_EE ++ S3.

(** The heading pattern [r] matches at no offset below [n] of [t]. *)
Definition absent_before (r : regex) (n : nat) (t : string) : bool :=
  forallb (fun k => match rmatch true r (drop k (chars t)) with
                    | [] => true
                    | _ => false
                    end) (seq 0 n).

Definition one_line_text (s : string) : bool :=
  all_chars (fun a => negb (Ascii.eqb a newline)) s.

(** The segments are not empty and hold no line feed, and no heading
    pattern matches before its own heading. *)
Record well_formed_panel (pre s1 s2 s3 : string) : Prop := {
  wf_s1 : s1 <> "";
  wf_s2 : s2 <> "";
  wf_s3 : s3 <> "";
  wf_line1 : one_line_text s1 = true;
  wf_line2 : one_line_text s2 = true;
  wf_line3 : one_line_text s3 = true;
  wf_sma : absent_before hdr_sma (String.length pre) (panel pre s1 s2 s3) = true;
  wf_sw : absent_before hdr_sw (String.length (pre +:+ H_SMA +:+ s1))
            (panel pre s1 s2 s3) = true;
  wf_ee : absent_before hdr_ee
            (String.length (pre +:+ H_SMA +:+ s1 +:+ H_SW +:+ s2))
            (panel pre s1 s2 s3) = true
}.

(** What a segment holds: its first percentage, its first ISO date. *)
Definition percent_of (seg : string) : string :=
  match search false re_percent seg with
  | Some m => group 1 m +:+ "%"
  | None => NA
  end.

Definition date_of (seg : string) : string :=
  match search false re_date seg with
  | Some m => group 1 m
  | None => NA
  end.

(** The approval status as the specification words it: a negation gives
    Not Approved, Approved without negation gives Approved. *)
Definition negated (seg : string) : bool :=
  contains "Not approved" seg || contains "Not Approved" seg.

Definition claimed_status (seg : string) : string :=
  if negated seg then "Not Approved"
  else if contains "Approved" seg then "Approved"
  else NA.

(** The status of the EE segment: the conditions come first, a
    restriction is appended. *)
Definition ee_status (seg : string) : string :=
  (if contains "Approved with conditions" seg then "Approved with conditions"
   else claimed_status seg)
  +:+ (if contains "Restriction" seg then " (Restriction)" else "").

(** The status the SMA and Software branches write: Approved is tested
    first; [None] leaves the entry as it was. *)
Definition written_status (seg : string) : option string :=
  if contains "Approved" seg then Some "Approved"
  else if negated seg then Some "Not Approved"
  else None.

(** The status the EE branch leaves in the entry, from the default. *)
Definition written_ee_status (seg : string) : string :=
  (if contains "Approved with conditions" seg then "Approved with conditions"
   else default NA (written_status seg))
  +:+ (if contains "Restriction" seg then " (Restriction)" else "").

(** *** parse_quality_audits *)

Definition default_quality_metrics : gmap string string :=
  <["swIndex" := NA]> (<["swStatus" := NA]> (<["sw Date" := NA]> (
  <["eeIndex" := NA]> (<["eeStatus" := NA]> (<["eeDate" := NA]> (
  <["sma" := NA]> (<["smaStatus" := NA]> (<["smaDate" := NA]> ∅)))))))).

(** The [print] of a found segment reads three entries of [metrics]. *)
Definition print3 (metrics : gmap string string) (k1 k2 k3 : string)
  : result unit :=
  _ ← getitem metrics k1; _ ← getitem metrics k2; _ ← getitem metrics k3;
  Ok tt.

Definition sma_segment (audit_text : string) (metrics : gmap string string)
  : result (gmap string string) :=
  match search true re_sma audit_text with
  | Some sma_match =>
      let sma_text := group 1 sma_match in
      let metrics :=
        match search false re_percent sma_text with
        | Some perc_match => <["sma" := group 1 perc_match +:+ "%"]> metrics
        | None => metrics
        end in
      let metrics :=
        if contains "Approved" sma_text
        then <["smaStatus" := "Approved"]> metrics
        else if contains "Not approved" sma_text || contains "Not Approved" sma_text
        then <["smaStatus" := "Not Approved"]> metrics
        else metrics in
      let metrics :=
        match search false re_date sma_text with
        | Some date_match => <["smaDate" := group 1 date_match]> metrics
        | None => metrics
        end in
      _ ← print3 metrics "sma" "smaStatus" "smaDate";
      Ok metrics
  | None => Ok metrics
  end.

Definition sw_segment (audit_text : string) (metrics : gmap string string)
  : result (gmap string string) :=
  match search true re_sw audit_text with
  | Some sw_match =>
      let sw_text := group 1 sw_match in
      let metrics :=
        match search false re_percent sw_text with
        | Some perc_match => <["swIndex" := group 1 perc_match +:+ "%"]> metrics
        | None => metrics
        end in
      let metrics :=
        if contains "Approved" sw_text
        then <["swStatus" := "Approved"]> metrics
        else if contains "Not approved" sw_text || contains "Not Approved" sw_text
        then <["swStatus" := "Not Approved"]> metrics
        else metrics in
      let metrics :=
        match search false re_date sw_text with
        | Some date_match => <["swDate" := group 1 date_match]> metrics
        | None => metrics
        end in
      _ ← print3 metrics "swIndex" "swStatus" "swDate";
      Ok metrics
  | None => Ok metrics
  end.

Definition ee_segment (audit_text : string) (metrics : gmap string string)
  : result (gmap string string) :=
  match search true re_ee audit_text with
  | Some ee_match =>
      let ee_text := group 1 ee_match in
      let metrics :=
        match search false re_percent ee_text with
        | Some perc_match => <["eeIndex" := group 1 perc_match +:+ "%"]> metrics
        | None => metrics
        end in
      let metrics :=
        if contains "Approved with conditions" ee_text
        then <["eeStatus" := "Approved with conditions"]> metrics
        else if contains "Approved" ee_text
        then <["eeStatus" := "Approved"]> metrics
        else if contains "Not approved" ee_text || contains "Not Approved" ee_text
        then <["eeStatus" := "Not Approved"]> metrics
        else metrics in
      metrics ←
        (if contains "Restriction" ee_text
         then old ← getitem metrics "eeStatus";
              Ok (<["eeStatus" := old +:+ " (Restriction)"]> metrics)
         else Ok metrics);
      let metrics :=
        match search false re_date ee_text with
        | Some date_match => <["eeDate" := group 1 date_match]> metrics
        | None => metrics
        end in
      _ ← print3 metrics "eeIndex" "eeStatus" "eeDate";
      Ok metrics
  | None => Ok metrics
  end.

Definition parse_quality_audits (soup : Soup) : result (gmap string string) :=
  let metrics := default_quality_metrics in
  match audit_panel soup with
  | None => Ok metrics
  | Some audit_text =>
      metrics ← sma_segment audit_text metrics;
      metrics ← sw_segment audit_text metrics;
      ee_segment audit_text metrics
  end.

(** *** The record under construction *)

Record AuditEntry : Type := {
  title : string;
  status : string;
  statusClass : string;
  date : string
}.

Section WithRuntime.
Context {RT : Runtime}.

Record Series : Type := {
  months : list string;
  values : list float
}.

Record SupplierRecord : Type := {
  rec_id : string;             (* 'id' *)
  parmaId : string;
  name : string;
  logo : string;
  address : string;
  projectLink : string;
  timeplanLink : string;
  apqp : string;
  ppap : string;
  audits : list AuditEntry;
  metrics : gmap string string;
  qpm : Series;
  ppm : Series
}.

Definition set_audits (d : SupplierRecord) (a : list AuditEntry) : SupplierRecord :=
  {| rec_id := rec_id d; parmaId := parmaId d; name := name d; logo := logo d;
     address := address d; projectLink := projectLink d;
     timeplanLink := timeplanLink d; apqp := apqp d; ppap := ppap d;
     audits := a; metrics := metrics d; qpm := qpm d; ppm := ppm d |}.

Definition set_metrics (d : SupplierRecord) (m : gmap string string) : SupplierRecord :=
  {| rec_id := rec_id d; parmaId := parmaId d; name := name d; logo := logo d;
     address := address d; projectLink := projectLink d;
     timeplanLink := timeplanLink d; apqp := apqp d; ppap := ppap d;
     audits := audits d; metrics := m; qpm := qpm d; ppm := ppm d |}.

Definition set_series (d : SupplierRecord) (q p : Series) : SupplierRecord :=
  {| rec_id := rec_id d; parmaId := parmaId d; name := name d; logo := logo d;
     address := address d; projectLink := projectLink d;
     timeplanLink := timeplanLink d; apqp := apqp d; ppap := ppap d;
     audits := audits d; metrics := metrics d; qpm := q; ppm := p |}.

(** [data['audits'].append(e)] *)
Definition append_audit (d : SupplierRecord) (e : AuditEntry) : SupplierRecord :=
  set_audits d (audits d ++ [e]).

(** A [for] loop whose body may raise. *)
Fixpoint for_each {A S : Type} (body : S -> A -> result S) (l : list A) (s : S)
  : result S :=
  match l with
  | [] => Ok s
  | x :: l' => s' ← body s x; for_each body l' s'
  end.

Definition default_metrics : gmap string string :=
  <["swIndex" := NA]> (<["swStatus" := NA]> (<["swDate" := NA]> (
  <["eeIndex" := NA]> (<["eeStatus" := NA]> (<["eeDate" := NA]> (
  <["sma" := NA]> (<["smaStatus" := NA]> (<["smaDate" := NA]> (
  <["csr" := NA]> (<["csrStatus" := NA]> (<["csrDate" := NA]> (
  <["saq" := NA]> (<["saqStatus" := NA]> ∅))))))))))))).

(** Supplier id and name, and the initial [data]. *)
Definition initial_data (soup : Soup) : SupplierRecord :=
  let supplier_info :=
    match supplier_link soup with
    | Some t => t
    | None => "Unknown Supplier"
    end in
  let '(supplier_id, supplier_name) :=
    match split_comma supplier_info with
    | Some (l, r) => (strip l, strip r)
    | None => (NA, "Unknown")
    end in
  {| rec_id := supplier_id;
     parmaId := supplier_id;
     name := supplier_name;
     logo := if String.eqb supplier_name "Unknown" then "??"
             else str_upper (first_two supplier_name);
     address := NA;
     projectLink := "#";
     timeplanLink := "#";
     apqp := NA;
     ppap := NA;
     audits := [];
     metrics := default_metrics;
     qpm := {| months := []; values := [] |};
     ppm := {| months := []; values := [] |} |}.

(** *** SEM audit *)
Definition sem_audit (soup : Soup) (data : SupplierRecord) : SupplierRecord :=
  match sem_panel soup with
  | Some sem_text =>
      let '(status, status_class) :=
        if contains "Not approved" sem_text || contains "Not Approved" sem_text
        then ("Not Approved", "status-not-approved")
        else if contains "Approved" sem_text
        then ("Approved", "status-approved")
        else ("Unknown", "status-na") in
      let percentage :=
        match search false re_percent sem_text with
        | Some m => group 1 m +:+ "%"
        | None => NA
        end in
      let date :=
        match search false re_date sem_text with
        | Some m => group 1 m
        | None => NA
        end in
      let status :=
        if contains "StoppingParameter" sem_text
        then status +:+ " (Stopping)" else status in
      append_audit data
        {| title := "SEM"; status := status +:+ " " +:+ percentage;
           statusClass := status_class; date := date |}
  | None => data
  end.

(** *** Certifications: status from the expiry date *)

(** The status and its class for a cell whose 'Expire:' search gave
    [expire_match], at the time [now]. *)
Definition expiry_status (now : datetime) (expire_match : option caps)
  : result (string * string) :=
  match expire_match with
  | Some m =>
      expire_date ← strptime (group 1 m);
      if dt_ltb expire_date now
      then Ok ("Expired", "status-expired")
      else Ok ("Approved", "status-approved")
  | None => Ok ("Approved", "status-approved")
  end.

Definition quality_cert_cell (now : datetime) (data : SupplierRecord)
  (cert_text : string) : result SupplierRecord :=
  if contains "IATF" cert_text || contains "ISO" cert_text then
    let expire_match := search false re_expire cert_text in
    '(status, status_class) ← expiry_status now expire_match;
    let date_str :=
      match expire_match with
      | Some m => group 1 m
      | None => NA
      end in
    Ok (append_audit data
          {| title := "Quality Cert"; status := status;
             statusClass := status_class; date := "Exp: " +:+ date_str |})
  else Ok data.

Definition env_cert_cell (now : datetime) (data : SupplierRecord)
  (cert_text : string) : result SupplierRecord :=
  if contains "ISO 14001" cert_text then
    let expire_match := search false re_expire cert_text in
    '(status, status_class) ← expiry_status now expire_match;
    let date_str :=
      match expire_match with
      | Some m => group 1 m
      | None => NA
      end in
    Ok (append_audit data
          {| title := "ISO 14001"; status := status;
             statusClass := status_class; date := "Exp: " +:+ date_str |})
  else Ok data.

(** *** Logistic audit *)
Definition logistic_cell (data : SupplierRecord) (audit_text : string)
  : SupplierRecord :=
  if negb (String.eqb audit_text "") && negb (String.eqb audit_text NA) then
    match search false re_grade audit_text with
    | Some grade_match =>
        let grade := group 1 grade_match in
        let percentage := group 2 grade_match in
        let status := grade +:+ " " +:+ percentage +:+ "%" in
        let status_class :=
          if String.eqb grade "A" then "status-excellent"
          else if String.eqb grade "B" then "status-approved"
          else "status-not-approved" in
        let date_str :=
          match search false re_paren_date audit_text with
          | Some m => group 1 m
          | None => NA
          end in
        append_audit data
          {| title := "Logistic"; status := status;
             statusClass := status_class; date := date_str |}
    | None => data
    end
  else data.

(** *** REACH compliance *)
Definition reach_cell (data : SupplierRecord) (reach_text : string)
  : SupplierRecord :=
  if contains "Compliant" reach_text then
    let date_str :=
      match search false re_evaluated reach_text with
      | Some m => group 1 m
      | None => NA
      end in
    append_audit data
      {| title := "REACH"; status := "Compliant";
         statusClass := "status-approved"; date := "Eval: " +:+ date_str |}
  else data.

(** *** CSR (Sustainability Self-Assessment) *)
Definition csr_class (percentage : N) : string * string :=
  if (80 <=? percentage)%N then ("status-approved", "Approved")
  else if (60 <=? percentage)%N then ("status-pending", "Pending")
  else ("status-not-approved", "Not Approved").

Definition csr_cell (data : SupplierRecord) (csr_text : string)
  : SupplierRecord :=
  match search false re_percent csr_text with
  | Some percentage_match =>
      let percentage := int_of_digits (group 1 percentage_match) in
      let status := str_of_N percentage +:+ "%" in
      let '(status_class, csr_status) := csr_class percentage in
      let date_str :=
        match search false re_evaluated csr_text with
        | Some m => group 1 m
        | None => NA
        end in
      let data :=
        append_audit data
          {| title := "CSR"; status := status;
             statusClass := status_class; date := "Eval: " +:+ date_str |} in
      set_metrics data
        (<["csrDate" := date_str]> (<["csrStatus" := csr_status]> (
         <["csr" := status]> (metrics data))))
  | None => data
  end.

(** The nine quality-audit fields of the record. *)
Definition quality_fields : list string :=
  ["swIndex"; "swStatus"; "swDate"; "eeIndex"; "eeStatus"; "eeDate";
   "sma"; "smaStatus"; "smaDate"].

(** Every date found after 'Expire:' in a certification cell is a calendar
    date. *)
Definition expiry_dates_valid (soup : Soup) : Prop :=
  forall t m, t ∈ quality_cert_cells soup ++ env_cert_cells soup ->
    search false re_expire t = Some m ->
    exists d, strptime (group 1 m) = Ok d.

(** *** What a section leaves alone *)

(** The part of [data] a section may touch besides the audits. *)
Definition same_rest (d d' : SupplierRecord) : Prop :=
  metrics d' = metrics d /\ qpm d' = qpm d /\ ppm d' = ppm d.

(** The CSR cells write the three csr entries of the metrics only. *)
Definition csr_key (k : string) : Prop :=
  k = "csr" \/ k = "csrStatus" \/ k = "csrDate".

Definition same_but_csr (d d' : SupplierRecord) : Prop :=
  (forall k, ~ csr_key k -> metrics d' !! k = metrics d !! k)
  /\ qpm d' = qpm d /\ ppm d' = ppm d.

(** *** Performance series (QPM, PPM) *)

Definition MONTHS : list string :=
  ["Jan"; "Feb"; "Mar"; "Apr"; "May"; "Jun";
   "Jul"; "Aug"; "Sep"; "Oct"; "Nov"; "Dec"].

(** [float(s) if s.replace('.', '').isdigit() else 0]; [None] is the
    [ValueError] of [float]. *)
Definition to_float (s : string) : option float :=
  if isdigit (remove_char "."%char s) then float_of_str s else Some zero.

(** The [for i in range(n)] loop of the draws. *)
Fixpoint jitter (n : nat) (qpm_val ppm_val : float) (g : rng)
  (qpm_values ppm_values : list float) : list float * list float * rng :=
  match n with
  | O => (qpm_values, ppm_values, g)
  | S n' =>
      let '(dq, g) := uniform (-10) 10 g in
      let qpm_var := fadd qpm_val dq in
      let '(dp, g) := uniform (-5) 5 g in
      let ppm_var := fadd ppm_val dp in
      jitter n' qpm_val ppm_val g
        (qpm_values ++ [max0 (round1 qpm_var)])
        (ppm_values ++ [max0 (round1 ppm_var)])
  end.

(** [l[-1] = v]; [None] is the [IndexError] of an empty list. *)
Definition set_last (l : list float) (v : float) : option (list float) :=
  match l with
  | [] => None
  | _ => Some (<[(length l - 1)%nat := v]> l)
  end.

(** The body of the inner [try]: the two series, or [None] when an
    exception was raised (and caught by its [except]); the state of the
    global generator is threaded through. *)
Definition generate_series (g : rng) (qpm_actual ppm_actual : string)
  : option (Series * Series) * rng :=
  match to_float qpm_actual with
  | None => (None, g)
  | Some qpm_val =>
    match to_float ppm_actual with
    | None => (None, g)
    | Some ppm_val =>
        let g := seed (if gt0 qpm_val then trunc qpm_val else 42) in
        let '(qpm_values, ppm_values, g) := jitter 12 qpm_val ppm_val g [] [] in
        match (if gt0 qpm_val then set_last qpm_values qpm_val
               else Some qpm_values) with
        | None => (None, g)
        | Some qpm_values =>
          match (if gt0 ppm_val then set_last ppm_values ppm_val
                 else Some ppm_values) with
          | None => (None, g)
          | Some ppm_values =>
              (Some ({| months := MONTHS; values := qpm_values |},
                     {| months := MONTHS; values := ppm_values |}), g)
          end
        end
    end
  end.

(** The draws of [generate_series] once both texts converted. *)
Definition drawn (qv pv : float) : list float * list float * rng :=
  jitter 12 qv pv (seed (if gt0 qv then trunc qv else 42)) [] [].

(** One row of the performance table. *)
Definition performance_row (st : SupplierRecord * rng) (row : Row)
  : SupplierRecord * rng :=
  if (15 <=? length (cells row))%nat then
    let brand_text := nth 0 (cells row) "" in
    if String.eqb brand_text "" || contains "Brand/Consignee" brand_text
       || String.eqb "&nbsp;" brand_text
    then st
    else
      let ppm_actual := nth 3 (cells row) "" in
      let qpm_actual := nth 7 (cells row) "" in
      if contains "Supplier Total" brand_text
         || contains "ShowHeading" (row_id row)
      then
        match generate_series (snd st) qpm_actual ppm_actual with
        | (Some (q, p), g) => (set_series (fst st) q p, g)
        | (None, g) => (fst st, g)
        end
      else st
  else st.

(** The rows the loop uses: at least 15 cells, a brand text that is not
    skipped, and the label or row id of the supplier total. *)
Definition supplier_total_row (row : Row) : bool :=
  (15 <=? length (cells row))%nat
  && negb (String.eqb (nth 0 (cells row) "") ""
           || contains "Brand/Consignee" (nth 0 (cells row) "")
           || String.eqb "&nbsp;" (nth 0 (cells row) ""))
  && (contains "Supplier Total" (nth 0 (cells row) "")
      || contains "ShowHeading" (row_id row)).

(** Such a row whose two actual values convert. *)
Definition usable_row (row : Row) : bool :=
  supplier_total_row row
  && bool_decide (is_Some (to_float (nth 7 (cells row) "")))
  && bool_decide (is_Some (to_float (nth 3 (cells row) ""))).

(** Both series hold the twelve month labels and twelve values. *)
Definition series_filled (r : SupplierRecord) : Prop :=
  months (qpm r) = MONTHS /\ length (values (qpm r)) = 12%nat
  /\ months (ppm r) = MONTHS /\ length (values (ppm r)) = 12%nat.

(** Both series are as [data] is created: no label and no value. *)
Definition series_empty (r : SupplierRecord) : Prop :=
  months (qpm r) = [] /\ values (qpm r) = []
  /\ months (ppm r) = [] /\ values (ppm r) = [].

(** *** Padding of the audits *)

Definition placeholder : AuditEntry :=
  {| title := NA; status := NA; statusClass := "status-na"; date := NA |}.

(** [while len(audits) < 6: audits.append(placeholder)] *)
Equations? fill_audits (a : list AuditEntry) : list AuditEntry
  by wf (6 - length a)%nat lt :=
  fill_audits a with decide (length a < 6)%nat => {
    | left _ := fill_audits (a ++ [placeholder]);
    | right _ := a }.
Proof. rewrite length_app. simpl. lia. Qed.

(** *** parse_supplier_html *)

(** Everything before the padding loop.  [now] is what
    [datetime.now()] returns during the call and [g] the state of the
    global random generator at its start. *)
Definition parse_sections (now : datetime) (g : rng) (soup : Soup)
  : result SupplierRecord :=
  let data := initial_data soup in
  let data := sem_audit soup data in
  data ← for_each (quality_cert_cell now) (quality_cert_cells soup) data;
  data ← for_each (env_cert_cell now) (env_cert_cells soup) data;
  let data := fold_left logistic_cell (logistic_cells soup) data in
  let data := fold_left reach_cell (reach_cells soup) data in
  let data := fold_left csr_cell (csr_cells soup) data in
  quality_metrics ← parse_quality_audits soup;
  (* data['metrics'].update(quality_metrics) *)
  let data := set_metrics data (quality_metrics ∪ metrics data) in
  let data := fst (fold_left performance_row (performance_rows soup) (data, g)) in
  Ok data.

Definition parse_supplier_html (now : datetime) (g : rng) (soup : Soup)
  : result SupplierRecord :=
  data ← parse_sections now g soup;
  Ok (set_audits data (fill_audits (audits data))).

(** One turn of the loop of [main]: an exception of the parse is
    caught, the file is skipped. *)
Definition main_step (now : datetime) (g : rng) (soup : Soup)
  (suppliers_data : list SupplierRecord) : list SupplierRecord :=
  match parse_supplier_html now g soup with
  | Ok supplier_data => suppliers_data ++ [supplier_data]
  | Raise _ => suppliers_data
  end.
End WithRuntime.

Arguments Series : clear implicits.
Arguments SupplierRecord : clear implicits.
End Extractor.

(* ===================================================================== *)
(** ** The collector: ver2/getweb.py *)
(* ===================================================================== *)

Module Collector.
Import Py.

(** *** scrape_volvo_scorecard *)

(** What the browser session returns for the page of a supplier:
  [driver.current_url], [driver.title] and [driver.page_source]. *)
Record Page : Type := {
current_url : string;
page_title : string;
html_content : string
}.

(** The outcome of [driver.get(url)] and of the reads that follow it:
  a page, or an exception with its text [str(e)]. *)
Inductive Fetch : Type :=
| Fetched (page : Page)
| Failed (e : string).

(** The dict returned for a page that passed the checks. *)
Record Scraped : Type := {
res_html_content : string;
res_page_title : string;
res_current_url : string;
res_supplier_id : string;
res_timestamp : string;
res_content_length : nat;
res_key_elements_found : nat
}.

Definition login_terms : list string :=
["login"; "sign in"; "authenticate"; "logon"].

Definition denied_terms : list string :=
["access denied"; "permission denied"; "not authorized"; "forbidden"].

Definition key_elements : list string :=
["supplier spend"; "dependency"; "ppm"; "qpm"; "dispatch precision"].

Definition login_message (supplier_id : string) : string :=
"Login page detected for supplier " +:+ supplier_id
+:+ " - authentication required".

Definition denied_message (supplier_id : string) : string :=
"Access denied for supplier " +:+ supplier_id.

Definition not_found_message (supplier_id : string) : string :=
"Supplier " +:+ supplier_id +:+ " not found".

(** [driver] is [None] when no browser could be started; [timestamp] is
  [datetime.now().isoformat()].  The result is the pair the function
  returns: the dict or [None], and the error message or [None]. *)
Definition scrape_volvo_scorecard (supplier_id : string) (driver : option Fetch)
(timestamp : string) : option Scraped * option string :=
match driver with
| None =>
    (None, Some ("Failed to initialize Chrome driver for supplier " +:+ supplier_id))
| Some (Failed e) =>
    (None, Some ("Error scraping supplier " +:+ supplier_id +:+ ": " +:+ e))
| Some (Fetched page) =>
    let page_source_lower := str_lower (html_content page) in
    if existsb (fun term => contains term (str_lower (page_title page))
                            || contains term page_source_lower) login_terms
    then (None, Some (login_message supplier_id))
    else if existsb (fun term => contains term page_source_lower) denied_terms
    then (None, Some (denied_message supplier_id))
    else if contains "supplier not found" page_source_lower
            || contains "no supplier" page_source_lower
    then (None, Some (not_found_message supplier_id))
    else
      (* the check for 'supplier scorecard' and '__viewstate' only prints *)
      let found_elements :=
        length (List.filter (fun elem => contains elem page_source_lower)
                            key_elements) in
      (Some {| res_html_content := html_content page;
               res_page_title := page_title page;
               res_current_url := current_url page;
               res_supplier_id := supplier_id;
               res_timestamp := timestamp;
               res_content_length := String.length (html_content page);
               res_key_elements_found := found_elements |}, None)
end.

(** Some term of the list occurs in the text. *)
Definition has_term (terms : list string) (text : string) : Prop :=
  exists term, In term terms /\ contains term text = true.

(** *** load_supplier_ids_from_toml *)

(** A person of the configuration: the value of its key [parma_codes],
  if it has the key. *)
Record Person : Type := {
parma_codes : option (list Z)
}.

(** The parsed configuration: the value of its key [people], if any. *)
Record Config : Type := {
people : option (list Person)
}.

(** [open] and [tomli.load]: the configuration, or an exception. *)
Inductive Loaded : Type :=
| Unreadable
| Parsed (data : Config).

(** [sorted(set(l))] *)
Definition sorted_set (l : list Z) : list Z :=
merge_sort Z.le (elements (list_to_set l : gset Z)).

(** The list [all_codes] once the loop over the people is over. *)
Definition all_codes (data : Config) : list Z :=
fold_left (fun acc person => acc ++ default [] (parma_codes person))
          (default [] (people data)) [].

(** The code [c] is listed for some person of the configuration. *)
Definition listed (data : Config) (c : Z) : Prop :=
  exists person cs,
    person ∈ default [] (people data)
    /\ parma_codes person = Some cs /\ c ∈ cs.

Definition load_supplier_ids_from_toml (file : Loaded) : option (list Z) :=
match file with
| Unreadable => None
| Parsed data =>
    let unique_codes := sorted_set (all_codes data) in
    match unique_codes with
    | [] => None
    | _ => Some unique_codes
    end
end.
End Collector.

(* ===================================================================== *)
(** ** Sample pages *)
(* ===================================================================== *)

Module Samples.
Import Extractor Datetime.

(** Noon of 2026-11-03. *)
Definition now : datetime :=
  {| year := 2026; month := 11; day := 3; micros := 43200000000 |}.

(** A page on which no query finds anything. *)
Definition blank : Soup :=
  {| supplier_link := None; sem_panel := None; quality_cert_cells := [];
     env_cert_cells := []; logistic_cells := []; reach_cells := [];
     csr_cells := []; audit_panel := None; performance_rows := [] |}.

(** The audit panel text of the comments of parse_quality_audits, by
    segment. *)
Definition seg_sma : string :=
  " Approved 74% Normal (Toshiaki Hatakeyama , 2017-03-17)".
Definition seg_sw : string :=
  " Approved 81% Normal (Yuji Miura , 2016-12-01)".
Definition seg_ee : string :=
  " Approved with conditions 69% Restriction Normal (Toshiaki Hatakeyama , 2017-03-29)".

Definition panel_text : string := panel "" seg_sma seg_sw seg_ee.

Definition total_row : Row :=
  {| row_id := "ShowHeading1";
     cells := ["Supplier Total"; ""; "3"; "4.5"; ""; ""; "11"; "12";
               ""; ""; ""; ""; ""; ""; ""] |}.

(** A page with a SEM panel, an expired quality certificate, the audit
    panel and a supplier-total row. *)
Definition scorecard : Soup :=
  {| supplier_link := Some "12345, ACME Corp";
     sem_panel := Some "Approved 80% (2020-01-02)";
     quality_cert_cells := ["IATF 16949 Approved Expire: 2020-01-01"];
     env_cert_cells := []; logistic_cells := []; reach_cells := [];
     csr_cells := []; audit_panel := Some panel_text;
     performance_rows := [total_row] |}.

(** A panel whose SMA segment holds the negation with a capital A. *)
Definition negated_panel : Soup :=
  {| supplier_link := None; sem_panel := None; quality_cert_cells := [];
     env_cert_cells := []; logistic_cells := []; reach_cells := [];
     csr_cells := [];
     audit_panel := Some "SMA / Criticality 1 Index Not Approved 35% (2017-03-17)";
     performance_rows := [] |}.

(** A panel whose Software segment holds no date. *)
Definition undated_panel : Soup :=
  {| supplier_link := None; sem_panel := None; quality_cert_cells := [];
     env_cert_cells := []; logistic_cells := []; reach_cells := [];
     csr_cells := []; audit_panel := Some "Software Index Approved 81%";
     performance_rows := [] |}.

(** No audit panel, and an expiry date that is not a calendar date. *)
Definition bad_expiry : Soup :=
  {| supplier_link := None; sem_panel := None;
     quality_cert_cells := ["ISO 9001 Expire: 2020-02-30"];
     env_cert_cells := []; logistic_cells := []; reach_cells := [];
     csr_cells := []; audit_panel := None; performance_rows := [] |}.
End Samples.


(* ===================================================================== *)
(** ** What a parse writes and when it raises *)
(* ===================================================================== *)

Module Outcome.
Import Py Re Datetime Extractor.

(** N/A, or a run of digits and a percent sign. *)
Definition percent_or_na (v : string) : Prop :=
  v = NA \/ exists ds, isdigit ds = true /\ v = ds +:+ "%".

(** N/A, or a text of the shape YYYY-MM-DD. *)
Definition date_or_na (v : string) : Prop :=
  v = NA \/ iso_shape v = true.

Definition status_values : list string :=
  ["N/A"; "Approved"; "Not Approved"].

Definition ee_status_values : list string :=
  ["N/A"; "Approved"; "Not Approved"; "Approved with conditions";
   "N/A (Restriction)"; "Approved (Restriction)";
   "Not Approved (Restriction)"; "Approved with conditions (Restriction)"].

(** What the value [v] of the quality field [k] may be. *)
Definition field_ok (k v : string) : Prop :=
  (k ∈ ["sma"; "swIndex"; "eeIndex"] -> percent_or_na v)
  /\ (k ∈ ["smaDate"; "swDate"; "eeDate"] -> date_or_na v)
  /\ (k ∈ ["smaStatus"; "swStatus"] -> v ∈ status_values)
  /\ (k = "eeStatus" -> v ∈ ee_status_values).

(** The panel has a Software segment without date. *)
Definition undated_software (soup : Soup) : Prop :=
  exists t c, audit_panel soup = Some t
              /\ search true re_sw t = Some c
              /\ search false re_date (group 1 c) = None.

(** The certification cells whose expiry date is read. *)
Definition dated_cells (soup : Soup) : list string :=
  List.filter (fun t => contains "IATF" t || contains "ISO" t)
              (quality_cert_cells soup)
  ++ List.filter (fun t => contains "ISO 14001" t) (env_cert_cells soup).

(** The text, of the shape YYYY-MM-DD, names a day of the calendar. *)
Definition calendar_date (s : string) : bool :=
  valid_date (Z.of_N (int_of_digits (String.substring 0 4 s)))
             (Z.of_N (int_of_digits (String.substring 5 2 s)))
             (Z.of_N (int_of_digits (String.substring 8 2 s))).

(** The date after 'Expire:' in the cell, when it is not a calendar
    date. *)
Definition bad_date (t : string) : option string :=
  match search false re_expire t with
  | Some m => if calendar_date (group 1 m) then None else Some (group 1 m)
  | None => None
  end.

(** The first such date of the page, in the order the cells are read. *)
Definition first_bad_date (soup : Soup) : option string :=
  head (omap bad_date (dated_cells soup)).

(** *** The audit entries of a record *)

(** Whether the pattern is found in the text. *)
Definition found (r : regex) (t : string) : bool :=
  match search false r t with
  | Some _ => true
  | None => false
  end.

(** The titles of the entries the sections append, in the order of the
    sections; within a section, one title for each cell that gives an
    entry. *)
Definition section_titles (soup : Soup) : list string :=
  match sem_panel soup with
  | Some _ => ["SEM"]
  | None => []
  end
  ++ (t ← quality_cert_cells soup;
      if contains "IATF" t || contains "ISO" t then ["Quality Cert"] else [])
  ++ (t ← env_cert_cells soup;
      if contains "ISO 14001" t then ["ISO 14001"] else [])
  ++ (t ← logistic_cells soup; if found re_grade t then ["Logistic"] else [])
  ++ (t ← reach_cells soup; if contains "Compliant" t then ["REACH"] else [])
  ++ (t ← csr_cells soup; if found re_percent t then ["CSR"] else []).

(** What an entry of each title holds. *)
Inductive entry_ok : AuditEntry -> Prop :=
| sem_entry (base cls stop pct d : string) :
    (base, cls) ∈ [("Not Approved", "status-not-approved");
                   ("Approved", "status-approved");
                   ("Unknown", "status-na")] ->
    stop ∈ [""; " (Stopping)"] ->
    percent_or_na pct -> date_or_na d ->
    entry_ok {| title := "SEM"; status := base +:+ stop +:+ " " +:+ pct;
                statusClass := cls; date := d |}
| cert_entry (ttl st cls d : string) :
    ttl ∈ ["Quality Cert"; "ISO 14001"] ->
    (st, cls) ∈ [("Expired", "status-expired"); ("Approved", "status-approved")] ->
    date_or_na d ->
    entry_ok {| title := ttl; status := st; statusClass := cls;
                date := "Exp: " +:+ d |}
| logistic_entry (grade cls pct d : string) :
    (grade, cls) ∈ [("A", "status-excellent"); ("B", "status-approved");
                    ("C", "status-not-approved")] ->
    isdigit pct = true -> date_or_na d ->
    entry_ok {| title := "Logistic"; status := grade +:+ " " +:+ pct +:+ "%";
                statusClass := cls; date := d |}
| reach_entry (d : string) :
    date_or_na d ->
    entry_ok {| title := "REACH"; status := "Compliant";
                statusClass := "status-approved"; date := "Eval: " +:+ d |}
| csr_entry (n : N) (d : string) :
    date_or_na d ->
    entry_ok {| title := "CSR"; status := str_of_N n +:+ "%";
                statusClass := fst (csr_class n); date := "Eval: " +:+ d |}
| placeholder_entry :
    entry_ok {| title := "N/A"; status := "N/A"; statusClass := "status-na";
                date := "N/A" |}.

(** *** The CSR entries of the metrics *)

(** The values a CSR cell with a percentage writes under csr, csrStatus
    and csrDate. *)
Definition csr_written (t : string) : option (string * string * string) :=
  match search false re_percent t with
  | Some m =>
      let p := int_of_digits (group 1 m) in
      Some (str_of_N p +:+ "%", snd (csr_class p),
            match search false re_evaluated t with
            | Some m => group 1 m
            | None => NA
            end)
  | None => None
  end.

(** No white space at either end of the text. *)
Definition trimmed (s : string) : bool :=
  match chars s with
  | [] => true
  | a :: _ => negb (is_space a)
  end
  && match last (chars s) with
     | Some a => negb (is_space a)
     | None => true
     end.

(** The keys of the metrics of a record. *)
Definition metric_keys : list string :=
  ["swIndex"; "swStatus"; "swDate"; "sw Date"; "eeIndex"; "eeStatus"; "eeDate";
   "sma"; "smaStatus"; "smaDate"; "csr"; "csrStatus"; "csrDate";
   "saq"; "saqStatus"].

Section Records.
Context {RT : Runtime}.

(** The record after the cells of the logistic, REACH and CSR sections,
    from the one the certification loops returned. *)
Definition after_cells (soup : Soup) (d2 : SupplierRecord RT) : SupplierRecord RT :=
  fold_left csr_cell (csr_cells soup)
    (fold_left reach_cell (reach_cells soup)
       (fold_left logistic_cell (logistic_cells soup) d2)).

Definition titles (d : SupplierRecord RT) : list string := title <$> audits d.

(** The fields of a record that name the supplier, and the fixed ones. *)
Definition identity (d : SupplierRecord RT) : list string :=
  [rec_id d; parmaId d; name d; logo d; address d; projectLink d;
   timeplanLink d; apqp d; ppap d].
End Records.
End Outcome.

(* ===================================================================== *)
(** ** The extractor: the loop of main and the index *)
(* ===================================================================== *)

Module Report.
Import Py Datetime Extractor.

(** [s.endswith(suffix)] *)
Definition endswith (suffix s : string) : bool :=
  (String.length suffix <=? String.length s)%nat
  && String.eqb (String.substring (String.length s - String.length suffix)
                   (String.length suffix) s) suffix.

(** [os.path.join(a, b)] of posixpath. *)
Definition path_join (a b : string) : string :=
  if String.prefix "/" b then b
  else if String.eqb a "" || endswith "/" a then a +:+ b
  else a +:+ "/" +:+ b.

(** An entry of suppliers_index.json. *)
Record IndexEntry : Type := {
  entry_id : string;
  entry_parmaId : string;
  entry_name : string
}.

Section WithRuntime.
Context {RT : Runtime}.

(** An entry of the input directory: its name and, for the call of
    parse_supplier_html on it, the page read from it ([None] when reading
    the file raises), what [datetime.now()] returns during the call and
    the state of the random generator at its start. *)
Record HtmlFile : Type := {
  file_name : string;
  page : option Soup;
  parse_time : datetime;
  generator : rng
}.

(** The list [index] of generate_suppliers_index. *)
Definition generate_suppliers_index (suppliers_data : list (SupplierRecord RT))
  : list IndexEntry :=
  fold_left (fun index supplier =>
               index ++ [{| entry_id := rec_id supplier;
                            entry_parmaId := parmaId supplier;
                            entry_name := name supplier |}])
            suppliers_data [].

(** The file generate_individual_supplier_json writes. *)
Definition supplier_json_file (output_dir : string)
  (supplier_data : SupplierRecord RT) : string :=
  path_join output_dir ("supplier_" +:+ rec_id supplier_data +:+ ".json").

(** One turn of the loop of main.  The state is [suppliers_data] and the
    files written so far; [can_open] tells whether a file can be opened
    for writing.  An exception of the read, of the parse or of the write
    is caught and the loop goes on; the record is appended before its
    file is written. *)
Definition main_file (output_dir : string) (can_open : string -> bool)
  (st : list (SupplierRecord RT) * list (string * SupplierRecord RT))
  (f : HtmlFile) : list (SupplierRecord RT) * list (string * SupplierRecord RT) :=
  match page f with
  | None => st
  | Some soup =>
      match parse_supplier_html (parse_time f) (generator f) soup with
      | Raise _ => st
      | Ok supplier_data =>
          let suppliers_data := st.1 ++ [supplier_data] in
          let json_file := supplier_json_file output_dir supplier_data in
          if can_open json_file
          then (suppliers_data, st.2 ++ [(json_file, supplier_data)])
          else (suppliers_data, st.2)
      end
  end.

(** What a run leaves: the supplier files written, in the order of the
    writes, and the list dumped to suppliers_index.json when
    generate_suppliers_index is called. *)
Record Run : Type := {
  files_written : list (string * SupplierRecord RT);
  index : option (list IndexEntry)
}.

(** [listing] is what [os.listdir(input_dir)] returns. *)
Definition main (output_dir : string) (can_open : string -> bool)
  (listing : list HtmlFile) : Run :=
  let html_files :=
    List.filter (fun f => endswith ".html" (file_name f)) listing in
  match html_files with
  | [] => {| files_written := []; index := None |}
  | _ =>
      let st := fold_left (main_file output_dir can_open) html_files ([], []) in
      {| files_written := st.2;
         index := match st.1 with
                  | [] => None
                  | _ => Some (generate_suppliers_index st.1)
                  end |}
  end.

(** The records of the files of the listing that end in .html, can be
    read and whose parse returns, in the order of the listing. *)
Definition parsed_records (listing : list HtmlFile) : list (SupplierRecord RT) :=
  omap (fun f =>
          if endswith ".html" (file_name f)
          then soup ← page f;
               returned id (parse_supplier_html (parse_time f) (generator f) soup)
          else None) listing.
End WithRuntime.

Arguments HtmlFile : clear implicits.
Arguments Run : clear implicits.
End Report.

(* ===================================================================== *)
(** ** The collector: process_supplier_batch *)
(* ===================================================================== *)

Module Batch.
Import Py Collector.

(** An entry of [batch_results]. *)
Inductive BatchResult : Type :=
| Success (supplier_id filename page_title : string)
          (content_length key_elements_found : nat) (timestamp : string)
| Failure (supplier_id error timestamp : string).

Definition result_id (r : BatchResult) : string :=
  match r with
  | Success supplier_id _ _ _ _ _ => supplier_id
  | Failure supplier_id _ _ => supplier_id
  end.

Definition is_success (r : BatchResult) : bool :=
  match r with
  | Success _ _ _ _ _ _ => true
  | Failure _ _ _ => false
  end.

(** What happens at the turn of one supplier: whether a browser can be
    started (asked only without manual login, where every turn starts its
    own), what the session returns for the page, the two values of
    [datetime.now().isoformat()] (in the scrape, and in a failed entry),
    and whether the HTML file can be written. *)
Record Visit : Type := {
  browser_starts : bool;
  fetch : Fetch;
  scrape_time : string;
  can_save : bool;
  failure_time : string
}.

(** The truth value of a string. *)
Definition truthy (s : string) : bool := negb (String.eqb s "").

(** [results] is the argument of the call; the file name is returned
    when the file was written.  The directory exists: the batch created
    it before its loop. *)
Definition save_supplier_data (results : option Scraped) (data_dir : string)
  (can_save : bool) : option string :=
  match results with
  | None => None
  | Some results =>
      let supplier_id := res_supplier_id results in
      let html_filename := data_dir +:+ "/" +:+ supplier_id +:+ ".html" in
      if can_save then Some html_filename else None
  end.

(** The variables of the loop, and the lines sent to [logging.error]. *)
Record Loop : Type := {
  successful_scrapes : nat;
  failed_scrapes : nat;
  batch_results : list BatchResult;
  error_log : list string
}.

Definition failed_turn (st : Loop) (supplier_id error_msg timestamp : string)
  (logged : bool) : Loop :=
  {| successful_scrapes := successful_scrapes st;
     failed_scrapes := S (failed_scrapes st);
     batch_results := batch_results st ++ [Failure supplier_id error_msg timestamp];
     error_log := if logged then error_log st ++ [error_msg] else error_log st |}.

(** The body of the loop over the supplier ids. *)
Definition batch_turn (data_dir : string) (use_manual_login : bool)
  (st : Loop) (turn : string * Visit) : Loop :=
  let '(supplier_id, v) := turn in
  let driver :=
    if use_manual_login || browser_starts v then Some (fetch v) else None in
  let '(results, error_msg) :=
    scrape_volvo_scorecard supplier_id driver (scrape_time v) in
  match results with
  | Some res =>
      if truthy (res_html_content res) then
        match save_supplier_data (Some res) data_dir (can_save v) with
        | Some filename =>
            if truthy filename then
              {| successful_scrapes := S (successful_scrapes st);
                 failed_scrapes := failed_scrapes st;
                 batch_results :=
                   batch_results st
                   ++ [Success supplier_id filename (res_page_title res)
                         (res_content_length res) (res_key_elements_found res)
                         (res_timestamp res)];
                 error_log := error_log st |}
            else
              failed_turn st supplier_id
                ("Failed to save file for supplier " +:+ supplier_id)
                (failure_time v) true
        | None =>
            failed_turn st supplier_id
              ("Failed to save file for supplier " +:+ supplier_id)
              (failure_time v) true
        end
      else
        failed_turn st supplier_id
          (match error_msg with
           | Some e => if truthy e then e else "Unknown error"
           | None => "Unknown error"
           end)
          (failure_time v)
          (match error_msg with Some e => truthy e | None => false end)
  | None =>
      failed_turn st supplier_id
        (match error_msg with
         | Some e => if truthy e then e else "Unknown error"
         | None => "Unknown error"
         end)
        (failure_time v)
        (match error_msg with Some e => truthy e | None => false end)
  end.

Definition batch_loop (data_dir : string) (use_manual_login : bool)
  (turns : list (string * Visit)) : Loop :=
  fold_left (batch_turn data_dir use_manual_login) turns
    {| successful_scrapes := 0; failed_scrapes := 0; batch_results := [];
       error_log := [] |}.

(** [turns] pairs each supplier id with what happens at its turn;
    [manual_driver] tells whether the browser for the manual login could
    be created.  The result is the list the function returns. *)
Definition process_supplier_batch (turns : list (string * Visit))
  (data_dir : string) (use_manual_login manual_driver : bool)
  : list BatchResult :=
  if use_manual_login && negb manual_driver then []
  else batch_results (batch_loop data_dir use_manual_login turns).

(** The line a failed entry leaves in the error log. *)
Definition logged_error (r : BatchResult) : list string :=
  match r with
  | Failure _ error _ =>
      if String.eqb error "Unknown error" then [] else [error]
  | Success _ _ _ _ _ _ => []
  end.

(** The page passes every check of scrape_volvo_scorecard. *)
Definition clean_page (page : Page) : bool :=
  negb (existsb (fun term => contains term (str_lower (page_title page))
                             || contains term (str_lower (html_content page)))
                login_terms)
  && negb (existsb (fun term => contains term (str_lower (html_content page)))
                   denied_terms)
  && negb (contains "supplier not found" (str_lower (html_content page))
           || contains "no supplier" (str_lower (html_content page))).

(** The turn ends with a saved file. *)
Definition saved_turn (use_manual_login : bool) (v : Visit) : bool :=
  (use_manual_login || browser_starts v)
  && match fetch v with
     | Fetched page => clean_page page && truthy (html_content page)
     | Failed _ => false
     end
  && can_save v.

(** The page of the turn is fetched, passes every check and has an empty
    source. *)
Definition empty_page_turn (use_manual_login : bool) (v : Visit) : bool :=
  (use_manual_login || browser_starts v)
  && match fetch v with
     | Fetched page => clean_page page && negb (truthy (html_content page))
     | Failed _ => false
     end.

(** What the entry of a turn holds. *)
Definition turn_entry (data_dir : string) (use_manual_login : bool)
  (turn : string * Visit) (res : BatchResult) : Prop :=
  result_id res = turn.1
  /\ is_success res = saved_turn use_manual_login turn.2
  /\ match res with
     | Success _ filename title len keys ts =>
         filename = data_dir +:+ "/" +:+ turn.1 +:+ ".html"
         /\ (0 < len)%nat /\ (keys <= 5)%nat
         /\ exists page, fetch turn.2 = Fetched page
              /\ title = page_title page
              /\ len = String.length (html_content page)
              /\ ts = scrape_time turn.2
     | Failure _ e ts =>
         ts = failure_time turn.2 /\ e <> ""
         /\ (e = "Unknown error" <-> empty_page_turn use_manual_login turn.2 = true)
     end.
End Batch.

(* ===================================================================== *)
(** ** The collector: main *)
(* ===================================================================== *)

Module CollectorMain.
Import Py Collector Batch.

(** [str(z)] for an integer, as the f-strings format a supplier id. *)
Definition str_of_Z (z : Z) : string := NilZero.string_of_int (Z.to_int z).

(** How main ends: with the NameError of [sys.exit(1)] (the module does
    not import sys), or after the batch. *)
Inductive MainOutcome : Type :=
| NameError_sys
| Ran (results : list BatchResult).

(** [world i] is what happens at the turn number [i] of the batch. *)
Definition main (file : Loaded) (world : nat -> Visit) : MainOutcome :=
  match load_supplier_ids_from_toml file with
  | None => NameError_sys
  | Some [] => NameError_sys
  | Some supplier_ids =>
      Ran (process_supplier_batch
             (imap (fun i c => (str_of_Z c, world i)) supplier_ids)
             "data" false false)
  end.
End CollectorMain.

(* ===================================================================== *)
(** ** More sample pages *)
(* ===================================================================== *)

Module Pages.
Import Extractor Datetime Collector Batch.

(** A second supplier-total row, after the first. *)
Definition later_row : Row :=
  {| row_id := "";
     cells := ["Supplier Total"; ""; ""; "7"; ""; ""; ""; "25";
               ""; ""; ""; ""; ""; ""; ""] |}.

(** A row that is not a supplier total. *)
Definition brand_row : Row :=
  {| row_id := "";
     cells := ["Volvo Trucks"; ""; ""; "1"; ""; ""; ""; "2";
               ""; ""; ""; ""; ""; ""; ""] |}.

(** A page on which every section finds something: eight entries. *)
Definition crowded : Soup :=
  {| supplier_link := Some " 4711 ,  Bolt & Nut AB ";
     sem_panel := Some "Not Approved 55% StoppingParameter 2021-05-06";
     quality_cert_cells := ["IATF 16949 Expire: 2030-01-01"; "n/a";
                            "ISO 9001 Expire: 2019-06-30"];
     env_cert_cells := ["ISO 14001 (no date)"];
     logistic_cells := ["B 85% (2022-02-02)"];
     reach_cells := ["Compliant Evaluated: 2023-03-03"];
     csr_cells := ["90% Evaluated: 2020-01-01"; "none"; "075% Evaluated: 2021-02-02"];
     audit_panel := Some Samples.panel_text;
     performance_rows := [Samples.total_row; later_row; brand_row] |}.

(** The same link text without comma. *)
Definition nameless : Soup :=
  {| supplier_link := Some "Bolt & Nut AB"; sem_panel := None;
     quality_cert_cells := []; env_cert_cells := []; logistic_cells := [];
     reach_cells := []; csr_cells := []; audit_panel := None;
     performance_rows := [] |}.

(** A certificate that expires on the day of [Samples.now]. *)
Definition expires_today : string := "ISO 9001 Expire: 2026-11-03".

(** Turns of a batch. *)
Definition good_page : Page :=
  {| current_url := "https://vsib.srv.volvo.com/";
     page_title := "Supplier Scorecard";
     html_content := "<html>Supplier Scorecard PPM QPM</html>" |}.

Definition empty_page : Page :=
  {| current_url := "about:blank"; page_title := ""; html_content := "" |}.

Definition denied_page : Page :=
  {| current_url := "https://vsib.srv.volvo.com/";
     page_title := "Error";
     html_content := "<html>Access Denied</html>" |}.

Definition visit (page : Page) (save : bool) : Visit :=
  {| browser_starts := true; fetch := Fetched page;
     scrape_time := "2026-11-03T12:00:00"; can_save := save;
     failure_time := "2026-11-03T12:00:05" |}.

Definition turns : list (string * Visit) :=
  [("101", visit good_page true); ("102", visit empty_page true);
   ("103", visit denied_page true); ("104", visit good_page false)].
End Pages.

(* ===================================================================== *)
(** ** The matcher *)
(* ===================================================================== *)

Section Matcher.
Import Py Re.

Lemma chars_app (a b : string) : chars (a +:+ b) = chars a ++ chars b.
Proof. induction a as [|c a IH]; simpl; [done|]. by rewrite <- IH. Qed.

Lemma text_chars (s : string) : text (chars s) = s.
Proof. apply String.string_of_list_ascii_of_string. Qed.

Lemma chars_length (s : string) : length (chars s) = String.length s.
Proof. induction s as [|c s IH]; simpl; [done|]. by rewrite <- IH. Qed.

Lemma consumed_app (s rest : list ascii) : consumed (s ++ rest) rest = s.
Proof.
  unfold consumed. rewrite length_app.
  replace (length s + length rest - length rest)%nat with (length s) by lia.
  by rewrite take_app_length.
Qed.

(** [re.search] skips the offsets at which the pattern does not match. *)
Lemma search_from_skip (ic : bool) (r : regex) (n : nat) (t : list ascii) :
  (n <= length t)%nat ->
  (forall k, (k < n)%nat -> rmatch ic r (drop k t) = []) ->
  search_from ic r t = search_from ic r (drop n t).
Proof.
  revert t. induction n as [|n IH]; intros t Hn Hk; [done|].
  destruct t as [|a t]; [simpl in Hn; lia|].
  pose proof (Hk 0%nat ltac:(lia)) as H0. rewrite drop_0 in H0.
  cbn [search_from]. rewrite H0. cbn [drop].
  apply IH; [simpl in Hn; lia|]. intros k Hlt. apply (Hk (S k)). lia.
Qed.

(** A pattern that starts with a part that does not match does not match. *)
Lemma rmatch_seq_nil (ic : bool) (r1 r2 : regex) (s : list ascii) :
  rmatch ic r1 s = [] -> rmatch ic (RSeq r1 r2) s = [].
Proof. simpl. by intros ->. Qed.

Lemma bind_pair_id {A B : Type} (l : list (A * B)) :
  (p ← l; [(p.1, p.2)]) = l.
Proof.
  induction l as [|[a b] l IH]; [done|].
  cbn [mbind list_bind app fst snd] in *. by rewrite IH.
Qed.

(** A part that matches in one way, without group, hands over to the rest. *)
Lemma rmatch_seq_one (ic : bool) (r1 r2 : regex) (s u : list ascii) :
  rmatch ic r1 s = [(u, [])] -> rmatch ic (RSeq r1 r2) s = rmatch ic r2 u.
Proof.
  cbn [rmatch]. intros ->. cbn [mbind list_bind app fst snd].
  rewrite app_nil_r. apply bind_pair_id.
Qed.

(** *** Literals *)

Lemma rmatch_lit (ic : bool) (l s : list ascii) :
  rmatch ic (lit_chars l) s
  = if starts ic l s then [(drop (length l) s, [])] else [].
Proof.
  revert s. induction l as [|x l IH]; intros s; [done|].
  destruct s as [|a s]; [done|]. cbn [lit_chars rmatch starts cls_ok].
  destruct (same_char ic x a); [|done]. simpl. rewrite IH.
  by destruct (starts ic l s).
Qed.

Lemma rmatch_seq_lit (ic : bool) (l : list ascii) (r : regex) (s : list ascii) :
  rmatch ic (RSeq (lit_chars l) r) s
  = if starts ic l s then rmatch ic r (drop (length l) s) else [].
Proof.
  destruct (starts ic l s) eqn:E.
  - apply rmatch_seq_one. by rewrite rmatch_lit, E.
  - apply rmatch_seq_nil. by rewrite rmatch_lit, E.
Qed.

Lemma same_char_refl (ic : bool) (a : ascii) : same_char ic a a = true.
Proof. unfold same_char. destruct ic; apply Ascii.eqb_refl. Qed.

Lemma starts_app (ic : bool) (l s : list ascii) : starts ic l (l ++ s) = true.
Proof. induction l as [|x l IH]; simpl; [done|]. by rewrite same_char_refl. Qed.

Lemma starts_split (ic : bool) (l1 l2 s : list ascii) :
  starts ic (l1 ++ l2) s = starts ic l1 s && starts ic l2 (drop (length l1) s).
Proof.
  revert s. induction l1 as [|x l1 IH]; intros s; simpl; [done|].
  destruct s as [|a s]; simpl.
  - by destruct l2.
  - rewrite IH. by rewrite andb_assoc.
Qed.

(** *** Characters *)

Lemma is_space_lower (a : ascii) : is_space (lower a) = is_space a.
Proof. destruct a as [[] [] [] [] [] [] [] []]; reflexivity. Qed.

Lemma same_char_blank (a : ascii) :
  same_char true " "%char a = true -> a = " "%char.
Proof. destruct a as [[] [] [] [] [] [] [] []]; vm_compute; congruence. Qed.

Lemma same_char_is_space (x a : ascii) :
  same_char true x a = true -> is_space a = is_space x.
Proof.
  unfold same_char. intros H. apply Ascii.eqb_eq in H.
  by rewrite <- (is_space_lower a), <- H, is_space_lower.
Qed.

(** *** A literal with one blank against the pattern with [\s+] *)

Lemma spaced_literal_header (l1 l2 s : list ascii) (x : ascii) :
  is_space x = false ->
  starts true (l1 ++ " "%char :: x :: l2) s = true ->
  rmatch true (RSeq (lit_chars l1) (RSeq (plus CSpace) (lit_chars (x :: l2)))) s
  <> [].
Proof.
  intros Hx H. rewrite starts_split in H. apply andb_prop in H as [H1 H2].
  rewrite rmatch_seq_lit, H1.
  destruct (drop (length l1) s) as [|b [|a u]]; simpl in H2; try done.
  { by rewrite andb_false_r in H2. }
  apply andb_prop in H2 as [Hb H2]. apply andb_prop in H2 as [Ha H2].
  apply same_char_blank in Hb as ->.
  pose proof (same_char_is_space _ _ Ha) as Hsp. rewrite Hx in Hsp.
  cbn [plus rmatch cls_ok]. change (is_space " "%char) with true.
  cbn [mbind list_bind app fst snd star_greedy cls_ok]. rewrite Hsp.
  cbn [fmap list_fmap mbind list_bind app fst snd].
  rewrite rmatch_lit. cbn [starts]. unfold same_char at 1. rewrite Ha, H2.
  done.
Qed.

(** *** The lazy segment *)

Lemma star_lazy_head (ok : ascii -> bool) (s : list ascii) :
  exists l, star_lazy ok s = s :: l.
Proof. destruct s; simpl; eauto. Qed.

(** The matches of [(.+?)] followed by [r]: when [r] matches nowhere
    inside the one-line text [s] and matches right after it, the first
    success captures [s] as a whole. *)
Lemma rmatch_segment_then (r : regex) (s rest : list ascii) (i : nat) :
  s <> [] -> one_line s ->
  (forall j, (1 <= j < length s)%nat -> rmatch true r (drop j s ++ rest) = []) ->
  forall p l, rmatch true r rest = p :: l ->
  exists l',
    rmatch true (RSeq (RGroup i (lazy_plus CAny)) r) (s ++ rest)
    = (fst p, [(i, s)] ++ snd p) :: l'.
Proof.
  intros Hne Hline Hin p l Hr.
  destruct s as [|a s]; [done|]. clear Hne.
  apply Forall_cons in Hline as [Ha Hline].
  cbn [rmatch lazy_plus app]. rewrite Ha.
  cbn [mbind list_bind app fst snd]. rewrite app_nil_r.
  (* the candidates after the first character *)
  assert (G : forall (pre s' : list ascii),
    one_line s' ->
    (forall j, (j < length s')%nat -> rmatch true r (drop j s' ++ rest) = []) ->
    exists l',
      ((fun p0 : list ascii * caps =>
          (fst p0, snd p0 ++ [(i, consumed (pre ++ s' ++ rest) (fst p0))]))
         <$> (p1 ← ((fun s0 => (s0, [])) <$> star_lazy (cls_ok true CAny) (s' ++ rest));
              [(fst p1, [] ++ snd p1)]))
      ≫= (fun p1 => p2 ← rmatch true r (fst p1); [(fst p2, snd p1 ++ snd p2)])
      = (fst p, [(i, pre ++ s')] ++ snd p) :: l').
  { intros pre s'. revert pre.
    induction s' as [|b s' IH]; intros pre Hl Hj.
    - cbn [app]. destruct (star_lazy_head (cls_ok true CAny) rest) as [l0 ->].
      cbn [fmap list_fmap mbind list_bind app fst snd]. rewrite Hr.
      cbn [mbind list_bind app fst snd].
      rewrite app_nil_r, consumed_app. eauto.
    - apply Forall_cons in Hl as [Hb Hl].
      pose proof (Hj 0%nat ltac:(simpl; lia)) as H0. cbn [drop app] in H0.
      cbn [app star_lazy]. rewrite Hb.
      cbn [fmap list_fmap mbind list_bind app fst snd]. rewrite H0.
      cbn [mbind list_bind app].
      specialize (IH (pre ++ [b]) Hl).
      rewrite <- !app_assoc in IH. cbn [app] in IH.
      apply IH. intros j Hlt. apply (Hj (S j)). simpl. lia. }
  destruct (G [a] s Hline) as [l' E].
  { intros j Hlt. apply (Hin (S j)). simpl. lia. }
  cbn [app] in E. eauto.
Qed.
End Matcher.

(* ===================================================================== *)
(** ** Loops and what each section of the parse leaves alone *)
(* ===================================================================== *)

Section Frames.
Import Py Extractor.
Context {RT : Runtime}.

Lemma fold_left_preserves {A S : Type} (P : S -> Prop) (f : S -> A -> S)
  (l : list A) (s : S) :
  (forall s x, P s -> P (f s x)) -> P s -> P (fold_left f l s).
Proof.
  intros Hf. revert s. induction l as [|x l IH]; intros s Hs; simpl; auto.
Qed.

Lemma for_each_preserves {A S : Type} (P : S -> Prop) (body : S -> A -> result S)
  (l : list A) (s s' : S) :
  (forall s x s', P s -> body s x = Ok s' -> P s') ->
  P s -> for_each body l s = Ok s' -> P s'.
Proof.
  intros Hb. revert s. induction l as [|x l IH]; intros s Hs H; simpl in H.
  - by injection H as <-.
  - destruct (body s x) as [s1|e] eqn:E; [|done]. simpl in H. eauto.
Qed.

Lemma for_each_ok {A S : Type} (body : S -> A -> result S) (l : list A) (s : S) :
  (forall s x, x ∈ l -> exists s', body s x = Ok s') ->
  exists s', for_each body l s = Ok s'.
Proof.
  revert s. induction l as [|x l IH]; intros s Hb; simpl; [eauto|].
  destruct (Hb s x) as [s1 ->]; [left|]. simpl.
  apply IH. intros s2 y Hy. apply Hb. by right.
Qed.

Lemma same_rest_trans (a b c : SupplierRecord RT) :
  same_rest a b -> same_rest b c -> same_rest a c.
Proof.
  unfold same_rest. intros (-> & -> & ->) (-> & -> & ->). done.
Qed.

Lemma expiry_status_cases (now : Datetime.datetime) (m : option Re.caps)
  (st : string * string) :
  expiry_status now m = Ok st ->
  st = ("Expired", "status-expired") \/ st = ("Approved", "status-approved").
Proof.
  unfold expiry_status. destruct m as [c|]; [|intros [= <-]; auto].
  destruct (Datetime.strptime _) as [d|]; [|done]. simpl.
  destruct (Datetime.dt_ltb d now); intros [= <-]; auto.
Qed.

Lemma quality_cert_cell_rest now (d d' : SupplierRecord RT) (t : string) :
  quality_cert_cell now d t = Ok d' -> same_rest d d'.
Proof.
  unfold quality_cert_cell. destruct (_ || _); [|by intros [= <-]].
  destruct (expiry_status _ _) as [[s c]|]; [|done]. simpl. by intros [= <-].
Qed.

Lemma env_cert_cell_rest now (d d' : SupplierRecord RT) (t : string) :
  env_cert_cell now d t = Ok d' -> same_rest d d'.
Proof.
  unfold env_cert_cell. destruct (contains _ _); [|by intros [= <-]].
  destruct (expiry_status _ _) as [[s c]|]; [|done]. simpl. by intros [= <-].
Qed.

Lemma sem_audit_rest (soup : Soup) (d : SupplierRecord RT) :
  same_rest d (sem_audit soup d).
Proof.
  unfold sem_audit. destruct (sem_panel soup); [|done].
  destruct (_ || _); [done|]. by destruct (contains _ _).
Qed.

Lemma logistic_cell_rest (d : SupplierRecord RT) (t : string) :
  same_rest d (logistic_cell d t).
Proof.
  unfold logistic_cell. destruct (_ && _); [|done].
  by destruct (Re.search _ _ _).
Qed.

Lemma reach_cell_rest (d : SupplierRecord RT) (t : string) :
  same_rest d (reach_cell d t).
Proof. unfold reach_cell. by destruct (contains _ _). Qed.

Lemma same_rest_but_csr (a b : SupplierRecord RT) :
  same_rest a b -> same_but_csr a b.
Proof. intros (Hm & Hq & Hp). split; [|done]. intros k _. by rewrite Hm. Qed.

Lemma csr_cell_rest (d : SupplierRecord RT) (t : string) :
  same_but_csr d (csr_cell d t).
Proof.
  unfold csr_cell. destruct (Re.search _ _ _); [|done].
  destruct (csr_class _) as [cls cst]. split; [|done]. simpl.
  intros k Hk. unfold csr_key in Hk.
  rewrite !lookup_insert_ne by (intros <-; tauto). done.
Qed.

Lemma performance_row_rest (st : SupplierRecord RT * rng) (row : Row) :
  metrics (performance_row st row).1 = metrics st.1
  /\ audits (performance_row st row).1 = audits st.1.
Proof.
  unfold performance_row. destruct (15 <=? _)%nat; [|done].
  simpl. destruct (_ || _ || _); [done|]. destruct (_ || _); [|done].
  destruct (generate_series _ _ _) as [[[q p]|] g]; done.
Qed.

Lemma performance_rows_rest (rows : list Row) (st : SupplierRecord RT * rng) :
  metrics (fold_left performance_row rows st).1 = metrics st.1
  /\ audits (fold_left performance_row rows st).1 = audits st.1.
Proof.
  apply (fold_left_preserves
    (fun s => metrics s.1 = metrics st.1 /\ audits s.1 = audits st.1)); [|done].
  intros s row [Hm Ha]. destruct (performance_row_rest s row) as [-> ->]. done.
Qed.

Lemma initial_data_fields (soup : Soup) :
  audits (initial_data soup) = []
  /\ metrics (initial_data soup) = default_metrics
  /\ qpm (initial_data soup) = {| months := []; values := [] |}
  /\ ppm (initial_data soup) = {| months := []; values := [] |}.
Proof.
  unfold initial_data.
  destruct (split_comma _) as [[l r]|]; simpl; done.
Qed.

(** The steps of a parse that returned a record. *)
Lemma parse_sections_inv (now : Datetime.datetime) (g : rng) (soup : Soup)
  (data : SupplierRecord RT) :
  parse_sections now g soup = Ok data ->
  exists d qm,
    parse_quality_audits soup = Ok qm
    /\ same_but_csr (initial_data soup) d
    /\ audits data = audits d
    /\ metrics data = qm ∪ metrics d
    /\ data = (fold_left performance_row (performance_rows soup)
                 (set_metrics d (qm ∪ metrics d), g)).1.
Proof.
  unfold parse_sections. intros H.
  destruct (for_each _ (quality_cert_cells soup) _) as [d1|] eqn:E1; [|done].
  simpl in H.
  destruct (for_each _ (env_cert_cells soup) _) as [d2|] eqn:E2; [|done].
  simpl in H.
  destruct (parse_quality_audits soup) as [qm|]; [|done]. simpl in H.
  injection H as <-.
  set (d := fold_left csr_cell _ _).
  exists d, qm. split; [done|].
  destruct (performance_rows_rest (performance_rows soup)
              (set_metrics d (qm ∪ metrics d), g)) as [Hm Ha].
  split; [|by rewrite Hm, Ha].
  assert (R0 : same_rest (initial_data soup) (sem_audit soup (initial_data soup)))
    by apply sem_audit_rest.
  assert (R1 : same_rest (initial_data soup) d1).
  { revert E1. apply for_each_preserves; [|exact R0].
    intros s x s' Hs Hx. eapply same_rest_trans; [exact Hs|].
    eapply quality_cert_cell_rest, Hx. }
  assert (R2 : same_rest (initial_data soup) d2).
  { revert E2. apply for_each_preserves; [|exact R1].
    intros s x s' Hs Hx. eapply same_rest_trans; [exact Hs|].
    eapply env_cert_cell_rest, Hx. }
  subst d. apply fold_left_preserves.
  { intros s x (Hk & Hq & Hp). destruct (csr_cell_rest s x) as (Hk' & Hq' & Hp').
    split; [|by rewrite Hq', Hp']. intros k Hck. rewrite Hk' by done. auto. }
  apply same_rest_but_csr.
  apply (fold_left_preserves (same_rest (initial_data soup))).
  { intros s x Hs. eapply same_rest_trans; [exact Hs|]. apply reach_cell_rest. }
  apply (fold_left_preserves (same_rest (initial_data soup))); [|exact R2].
  intros s x Hs. eapply same_rest_trans; [exact Hs|]. apply logistic_cell_rest.
Qed.

Lemma parse_supplier_html_inv (now : Datetime.datetime) (g : rng) (soup : Soup)
  (r : SupplierRecord RT) :
  parse_supplier_html now g soup = Ok r ->
  exists data,
    parse_sections now g soup = Ok data
    /\ r = set_audits data (fill_audits (audits data)).
Proof.
  unfold parse_supplier_html.
  destruct (parse_sections now g soup) as [data|]; [|done].
  simpl. intros [= <-]. eauto.
Qed.
End Frames.

(* ===================================================================== *)
(** ** Padding of the audits (fill_audits) *)
(* ===================================================================== *)

Section Padding.
Import Extractor.
Context {RT : Runtime}.

Lemma fill_audits_unfold (a : list AuditEntry) :
  fill_audits a =
  if decide (length a < 6)%nat then fill_audits (a ++ [placeholder]) else a.
Proof.
  rewrite fill_audits_equation_1. unfold fill_audits_unfold_clause_1.
  destruct (decide (length a < 6)%nat); reflexivity.
Qed.

Lemma fill_audits_full (a : list AuditEntry) :
  (6 <= length a)%nat -> fill_audits a = a.
Proof.
  intros H. rewrite fill_audits_unfold. destruct (decide _); [lia | reflexivity].
Qed.

Lemma fill_audits_pads (n : nat) (a : list AuditEntry) :
  (n + length a = 6)%nat -> fill_audits a = a ++ replicate n placeholder.
Proof.
  revert a. induction n as [|n IH]; intros a H.
  - rewrite fill_audits_full by lia. simpl. by rewrite app_nil_r.
  - rewrite fill_audits_unfold. destruct (decide _) as [_|]; [|lia].
    rewrite IH by (rewrite length_app; simpl; lia).
    by rewrite <- app_assoc.
Qed.

(** C6 -- When fewer than six audit entries were extracted from a page, the
    record returned by parse_supplier_html holds exactly six entries: the
    extracted ones first, in their order, then placeholders (title, status
    and date N/A, class status-na). *)
Theorem C6_audits_padded_to_six (now : Datetime.datetime) (g : rng) (soup : Soup)
  (data : SupplierRecord RT) :
  parse_sections now g soup = Ok data ->
  (length (audits data) < 6)%nat ->
  exists r,
    parse_supplier_html now g soup = Ok r
    /\ audits r = audits data ++ replicate (6 - length (audits data)) placeholder
    /\ length (audits r) = 6%nat
    /\ placeholder = {| title := "N/A"; status := "N/A";
                        statusClass := "status-na"; date := "N/A" |}.
Proof.
  intros Hsec Hlt. unfold parse_supplier_html. rewrite Hsec. simpl.
  eexists. split; [reflexivity|]. simpl.
  rewrite (fill_audits_pads (6 - length (audits data))) by lia.
  repeat split. rewrite length_app, length_replicate. lia.
Qed.
End Padding.

(* ===================================================================== *)
(** ** The performance series *)
(* ===================================================================== *)

Section Series.
Import Py Extractor.
Context {RT : Runtime}.

Lemma jitter_lengths (n : nat) (qv pv : float) (g : rng) (qs ps : list float) :
  length (jitter n qv pv g qs ps).1.1 = (length qs + n)%nat
  /\ length (jitter n qv pv g qs ps).1.2 = (length ps + n)%nat.
Proof.
  revert g qs ps. induction n as [|n IH]; intros g qs ps; simpl.
  - split; lia.
  - destruct (uniform (-10) 10 g) as [dq g1].
    destruct (uniform (-5) 5 g1) as [dp g2].
    destruct (IH g2 (qs ++ [max0 (round1 (fadd qv dq))])
                    (ps ++ [max0 (round1 (fadd pv dp))])) as [Hq Hp].
    rewrite Hq, Hp, !length_app. simpl. split; lia.
Qed.

(** The draws do not look at the PPM value: the QPM values only depend on
    the QPM value and on the state of the generator. *)
Lemma jitter_qpm_only (n : nat) (qv pv pv' : float) (g : rng)
  (qs ps ps' : list float) :
  (jitter n qv pv g qs ps).1.1 = (jitter n qv pv' g qs ps').1.1
  /\ (jitter n qv pv g qs ps).2 = (jitter n qv pv' g qs ps').2.
Proof.
  revert g qs ps ps'. induction n as [|n IH]; intros g qs ps ps'; simpl.
  - done.
  - destruct (uniform (-10) 10 g) as [dq g1].
    destruct (uniform (-5) 5 g1) as [dp g2]. apply IH.
Qed.

Lemma set_last_spec (l : list float) (v : float) :
  l <> [] ->
  exists l', set_last l v = Some l'
    /\ length l' = length l
    /\ l' !! (length l - 1)%nat = Some v
    /\ last l' = Some v
    /\ forall i, (i < length l - 1)%nat -> l' !! i = l !! i.
Proof.
  intros Hne. unfold set_last. destruct l as [|x l]; [done|].
  eexists. split; [reflexivity|].
  assert (Hlt : (length (x :: l) - 1 < length (x :: l))%nat) by (simpl; lia).
  repeat split.
  - by rewrite length_insert.
  - by rewrite list_lookup_insert_eq.
  - rewrite last_lookup, length_insert.
    replace (Nat.pred (length (x :: l))) with (length (x :: l) - 1)%nat by lia.
    by rewrite list_lookup_insert_eq.
  - intros i Hi. rewrite list_lookup_insert_ne by lia. done.
Qed.

Lemma generate_series_converted (g : rng) (qa pa : string) (qv pv : float) :
  to_float qa = Some qv -> to_float pa = Some pv ->
  exists qs ps,
    generate_series g qa pa
    = (Some ({| months := MONTHS; values := qs |},
             {| months := MONTHS; values := ps |}), (drawn qv pv).2)
    /\ length qs = 12%nat /\ length ps = 12%nat
    /\ (forall i, (i < 11)%nat -> qs !! i = (drawn qv pv).1.1 !! i)
    /\ (forall i, (i < 11)%nat -> ps !! i = (drawn qv pv).1.2 !! i)
    /\ qs !! 11%nat = (if gt0 qv then Some qv else (drawn qv pv).1.1 !! 11%nat)
    /\ ps !! 11%nat = (if gt0 pv then Some pv else (drawn qv pv).1.2 !! 11%nat).
Proof.
  intros Hq Hp. unfold generate_series. rewrite Hq, Hp. fold (drawn qv pv).
  destruct (jitter_lengths 12 qv pv (seed (if gt0 qv then trunc qv else 42)) [] [])
    as [Lq Lp]. fold (drawn qv pv) in Lq, Lp. simpl in Lq, Lp.
  destruct (drawn qv pv) as [[qs ps] g']. simpl in *.
  assert (Hqs : qs <> []) by (intros ->; discriminate).
  assert (Hps : ps <> []) by (intros ->; discriminate).
  destruct (set_last_spec qs qv Hqs) as (qs' & Eq & Lq' & Kq & _ & Oq).
  destruct (set_last_spec ps pv Hps) as (ps' & Ep & Lp' & Kp & _ & Op).
  rewrite Lq in *. rewrite Lp in *. simpl in Kq, Kp, Oq, Op.
  destruct (gt0 qv), (gt0 pv); rewrite ?Eq, ?Ep;
    eexists _, _; (split; [reflexivity|]); repeat split; auto; lia.
Qed.

Lemma generate_series_failed (g : rng) (qa pa : string) :
  to_float qa = None \/ to_float pa = None ->
  generate_series g qa pa = (None, g).
Proof.
  intros H. unfold generate_series.
  destruct (to_float qa); [|done]. destruct (to_float pa); [|done].
  destruct H; discriminate.
Qed.


(** *** The rows of the performance table *)

Lemma performance_row_cases (st : SupplierRecord RT * rng) (row : Row) :
  (usable_row row = true /\ series_filled (performance_row st row).1)
  \/ (usable_row row = false
      /\ qpm (performance_row st row).1 = qpm st.1
      /\ ppm (performance_row st row).1 = ppm st.1).
Proof.
  unfold performance_row, usable_row, supplier_total_row.
  destruct (15 <=? length (cells row))%nat; [|right; done].
  simpl. destruct (_ || _ || _); [right; done|]. simpl.
  destruct (_ || _); [|right; done]. simpl.
  destruct (to_float (nth 7 (cells row) "")) as [qv|] eqn:Hq.
  - destruct (to_float (nth 3 (cells row) "")) as [pv|] eqn:Hp.
    + left. split; [done|].
      destruct (generate_series_converted st.2 _ _ qv pv Hq Hp)
        as (qs & ps & -> & Lq & Lp & _). simpl.
      unfold series_filled. simpl. done.
    + right. rewrite generate_series_failed by auto. done.
  - right. rewrite generate_series_failed by auto. done.
Qed.

Lemma performance_rows_series (rows : list Row) (st : SupplierRecord RT * rng) :
  let st' := fold_left performance_row rows st in
  if existsb usable_row rows
  then series_filled st'.1
  else qpm st'.1 = qpm st.1 /\ ppm st'.1 = ppm st.1.
Proof.
  revert st. induction rows as [|row rows IH]; intros st; simpl; [done|].
  specialize (IH (performance_row st row)). simpl in IH.
  destruct (performance_row_cases st row) as [[-> Hf]|(-> & Eq & Ep)]; simpl.
  - destruct (existsb usable_row rows); [done|].
    destruct IH as [Eq Ep]. unfold series_filled. by rewrite Eq, Ep.
  - destruct (existsb usable_row rows); [done|].
    destruct IH as [Eq' Ep']. by rewrite Eq', Ep'.
Qed.

Lemma parse_supplier_html_series (now : Datetime.datetime) (g : rng)
  (soup : Soup) (r : SupplierRecord RT) :
  parse_supplier_html now g soup = Ok r ->
  if existsb usable_row (performance_rows soup)
  then series_filled r
  else series_empty r.
Proof.
  intros H. destruct (parse_supplier_html_inv _ _ _ _ H) as (data & Hs & ->).
  destruct (parse_sections_inv _ _ _ _ Hs) as (d & qm & _ & (_ & Hq & Hp) & _ & _ & ->).
  pose proof (performance_rows_series (performance_rows soup)
                (set_metrics d (qm ∪ metrics d), g)) as P.
  simpl in P. destruct (existsb usable_row (performance_rows soup)).
  - exact P.
  - destruct P as [Eq Ep]. unfold series_empty. simpl.
    destruct (initial_data_fields soup) as (_ & _ & Iq & Ip).
    rewrite Eq, Ep, Hq, Hp, Iq, Ip. done.
Qed.

End Series.

(* ===================================================================== *)
(** ** The metrics of the record *)
(* ===================================================================== *)

Section Metrics.
Import Py Extractor.
Context {RT : Runtime}.

(** Splits a segment function along its tests, down to the inserts. *)
Ltac split_segment H :=
  repeat match type of H with
         | context [match ?x with _ => _ end] => destruct x eqn:?; simpl in H
         | context [if ?b then _ else _] => destruct b eqn:?; simpl in H
         | context [getitem ?m ?k] =>
             let E := fresh "G" in
             unfold getitem at 1 in H;
             destruct (m !! k) eqn:E; simpl in H
         end;
  try discriminate; try (injection H as <-).

Lemma sma_segment_keeps (t k : string) (m m' : gmap string string) :
  k <> "sma" -> k <> "smaStatus" -> k <> "smaDate" ->
  sma_segment t m = Ok m' -> m' !! k = m !! k.
Proof.
  intros K1 K2 K3 H. unfold sma_segment, print3 in H.
  split_segment H; rewrite ?lookup_insert_ne by done; done.
Qed.

Lemma sw_segment_keeps (t k : string) (m m' : gmap string string) :
  k <> "swIndex" -> k <> "swStatus" -> k <> "swDate" ->
  sw_segment t m = Ok m' -> m' !! k = m !! k.
Proof.
  intros K1 K2 K3 H. unfold sw_segment, print3 in H.
  split_segment H; rewrite ?lookup_insert_ne by done; done.
Qed.

Lemma ee_segment_keeps (t k : string) (m m' : gmap string string) :
  k <> "eeIndex" -> k <> "eeStatus" -> k <> "eeDate" ->
  ee_segment t m = Ok m' -> m' !! k = m !! k.
Proof.
  intros K1 K2 K3 H. unfold ee_segment, print3 in H.
  split_segment H; rewrite ?lookup_insert_ne by done; done.
Qed.

(** The entry written with a blank in its key is never written again. *)
Lemma parse_quality_audits_sw_Date (soup : Soup) (qm : gmap string string) :
  parse_quality_audits soup = Ok qm -> qm !! "sw Date" = Some NA.
Proof.
  unfold parse_quality_audits. destruct (audit_panel soup) as [t|].
  - destruct (sma_segment t _) as [m1|] eqn:E1; [|done]. simpl.
    destruct (sw_segment t m1) as [m2|] eqn:E2; [|done]. simpl.
    intros E3.
    rewrite (ee_segment_keeps t "sw Date" m2 qm
               ltac:(done) ltac:(done) ltac:(done) E3).
    rewrite (sw_segment_keeps t "sw Date" m1 m2
               ltac:(done) ltac:(done) ltac:(done) E2).
    rewrite (sma_segment_keeps t "sw Date" _ m1
               ltac:(done) ltac:(done) ltac:(done) E1).
    reflexivity.
  - by intros [= <-].
Qed.

Lemma parse_supplier_html_metrics (now : Datetime.datetime) (g : rng)
  (soup : Soup) (r : SupplierRecord RT) :
  parse_supplier_html now g soup = Ok r ->
  exists qm base,
    parse_quality_audits soup = Ok qm
    /\ metrics r = qm ∪ base
    /\ forall k, ~ csr_key k -> base !! k = default_metrics !! k.
Proof.
  intros H. destruct (parse_supplier_html_inv _ _ _ _ H) as (data & Hs & ->).
  destruct (parse_sections_inv _ _ _ _ Hs) as (d & qm & Hq & (Hk & _) & _ & Hm & _).
  exists qm, (metrics d). split; [done|]. split; [done|].
  intros k Hck. rewrite Hk by done.
  by destruct (initial_data_fields soup) as (_ & -> & _).
Qed.

(** C9 -- In every record parse_supplier_html returns, the metrics hold the
    key 'sw Date' (with a blank) with the value N/A, next to the key
    'swDate': the quality-audit defaults declare 'sw Date', the extraction
    writes a found software date under 'swDate', so 'sw Date' never
    receives a date. *)
Theorem C9_sw_Date_key_always_NA (now : Datetime.datetime) (g : rng)
  (soup : Soup) (r : SupplierRecord RT) :
  parse_supplier_html now g soup = Ok r ->
  metrics r !! "sw Date" = Some "N/A"
  /\ is_Some (metrics r !! "swDate")
  /\ (forall qm, parse_quality_audits soup = Ok qm ->
        qm !! "sw Date" = Some "N/A"
        /\ metrics r !! "swDate" = Some (default "N/A" (qm !! "swDate"))).
Proof.
  intros H.
  destruct (parse_supplier_html_metrics _ _ _ _ H) as (qm & base & Hq & -> & Hb).
  pose proof (parse_quality_audits_sw_Date _ _ Hq) as Hsw.
  assert (Hbase : base !! "swDate" = Some "N/A").
  { rewrite Hb; [reflexivity|]. unfold csr_key. intros [?|[?|?]]; discriminate. }
  split; [|split].
  - by rewrite (lookup_union_Some_l _ _ _ _ Hsw).
  - rewrite lookup_union. rewrite Hbase. destruct (qm !! "swDate"); eauto.
  - intros qm' Hq'. rewrite Hq in Hq'. injection Hq' as <-. split; [done|].
    rewrite lookup_union, Hbase. by destruct (qm !! "swDate").
Qed.
End Metrics.


Section Raises.
Import Py Extractor.

(** Looks a key up in a chain of inserts over a map that has the key. *)
Ltac kept_key :=
  repeat match goal with
         | G : <[?k := _]> _ !! ?k = None |- _ =>
             rewrite lookup_insert_eq in G; discriminate G
         | G : <[_ := _]> _ !! _ = None |- _ =>
             rewrite lookup_insert_ne in G by done
         | G : ?m !! ?k = None, K : is_Some (?m !! ?k) |- _ =>
             rewrite G in K; by destruct K
         | K : is_Some None |- _ => by destruct K
         end.

Ltac split_raise H :=
  repeat match type of H with
         | context [match ?x with _ => _ end] => destruct x eqn:?; simpl in H
         | context [if ?b then _ else _] => destruct b eqn:?; simpl in H
         | context [getitem ?m ?k] =>
             let E := fresh "G" in
             unfold getitem at 1 in H;
             destruct (m !! k) eqn:E; simpl in H
         end;
  try discriminate; try (injection H as <-).

Lemma sma_segment_returns (t : string) (m : gmap string string) (e : exn) :
  is_Some (m !! "sma") -> is_Some (m !! "smaStatus") -> is_Some (m !! "smaDate") ->
  sma_segment t m <> Raise e.
Proof.
  intros K1 K2 K3 H. unfold sma_segment, print3 in H.
  split_raise H; kept_key.
Qed.

Lemma sw_segment_raises (t : string) (m : gmap string string) (e : exn) :
  is_Some (m !! "swIndex") -> is_Some (m !! "swStatus") ->
  sw_segment t m = Raise e -> e = KeyError "swDate".
Proof.
  intros K1 K2 H. unfold sw_segment, print3 in H.
  split_raise H; kept_key; reflexivity.
Qed.

Lemma ee_segment_returns (t : string) (m : gmap string string) (e : exn) :
  is_Some (m !! "eeIndex") -> is_Some (m !! "eeStatus") -> is_Some (m !! "eeDate") ->
  ee_segment t m <> Raise e.
Proof.
  intros K1 K2 K3 H. unfold ee_segment, print3 in H.
  split_raise H; kept_key.
Qed.

(** The only exception of parse_quality_audits: the print of a found
    Software segment reads the key 'swDate', which the defaults lack. *)
Lemma parse_quality_audits_raises (soup : Soup) (e : exn) :
  parse_quality_audits soup = Raise e -> e = KeyError "swDate".
Proof.
  unfold parse_quality_audits. destruct (audit_panel soup) as [t|]; [|done].
  destruct (sma_segment t _) as [m1|e1] eqn:E1; simpl.
  2:{ intros _. exfalso. revert E1. by apply sma_segment_returns. }
  assert (K1 : forall k, k <> "sma" -> k <> "smaStatus" -> k <> "smaDate" ->
                         m1 !! k = default_quality_metrics !! k)
    by (intros; by eapply sma_segment_keeps).
  destruct (sw_segment t m1) as [m2|e2] eqn:E2; simpl.
  2:{ intros [= <-]. revert E2. apply sw_segment_raises; by rewrite K1. }
  assert (K2 : forall k, k <> "swIndex" -> k <> "swStatus" -> k <> "swDate" ->
                         m2 !! k = m1 !! k)
    by (intros; by eapply sw_segment_keeps).
  intros E3. exfalso. revert E3.
  apply ee_segment_returns; by rewrite K2, K1.
Qed.
End Raises.

(* ===================================================================== *)
(** ** Exceptions, and a page without the audit panel *)
(* ===================================================================== *)

Section NoPanel.
Import Py Extractor.
Context {RT : Runtime}.

Lemma strptime_raises (s : string) (e : exn) :
  Datetime.strptime s = Raise e -> e = ValueError s.
Proof.
  unfold Datetime.strptime. destruct (Datetime.iso_shape s).
  - destruct (Datetime.valid_date _ _ _); [done|]. by intros [= <-].
  - by intros [= <-].
Qed.

Lemma expiry_status_raises now (m : option Re.caps) (e : exn) :
  expiry_status now m = Raise e -> exists s, e = ValueError s.
Proof.
  unfold expiry_status. destruct m as [c|]; [|done].
  destruct (Datetime.strptime _) as [d|e'] eqn:E; simpl.
  - by destruct (Datetime.dt_ltb d now).
  - intros [= <-]. eauto using strptime_raises.
Qed.

Lemma for_each_raises {A S : Type} (body : S -> A -> result S) (l : list A)
  (s : S) (e : exn) :
  for_each body l s = Raise e -> exists s0 x, x ∈ l /\ body s0 x = Raise e.
Proof.
  revert s. induction l as [|x l IH]; intros s; simpl; [done|].
  destruct (body s x) as [s1|e1] eqn:E; simpl.
  - intros H. destruct (IH _ H) as (s0 & y & Hy & Hb).
    exists s0, y. split; [by right|done].
  - intros [= <-]. exists s, x. split; [left|done].
Qed.

Lemma quality_cert_cell_raises now (d : SupplierRecord RT) (t : string) (e : exn) :
  quality_cert_cell now d t = Raise e -> exists s, e = ValueError s.
Proof.
  unfold quality_cert_cell. destruct (_ || _); [|done].
  destruct (expiry_status _ _) as [[st c]|e'] eqn:E; simpl; [done|].
  intros [= <-]. eauto using expiry_status_raises.
Qed.

Lemma env_cert_cell_raises now (d : SupplierRecord RT) (t : string) (e : exn) :
  env_cert_cell now d t = Raise e -> exists s, e = ValueError s.
Proof.
  unfold env_cert_cell. destruct (contains _ _); [|done].
  destruct (expiry_status _ _) as [[st c]|e'] eqn:E; simpl; [done|].
  intros [= <-]. eauto using expiry_status_raises.
Qed.

Lemma expiry_status_ok now (t : string) :
  (forall m, Re.search false re_expire t = Some m ->
     exists d, Datetime.strptime (Re.group 1 m) = Ok d) ->
  exists st, expiry_status now (Re.search false re_expire t) = Ok st.
Proof.
  intros Hv. unfold expiry_status.
  destruct (Re.search false re_expire t) as [m|]; [|eauto].
  destruct (Hv m eq_refl) as [d ->]. simpl.
  destruct (Datetime.dt_ltb d now); eauto.
Qed.

(** The exceptions of a parse: the [KeyError] of the Software print and
    the [ValueError] of an expiry date. *)
Lemma parse_supplier_html_raises now (g : rng) (soup : Soup) (e : exn) :
  parse_supplier_html now g soup = Raise e ->
  e = KeyError "swDate" \/ exists s, e = ValueError s.
Proof.
  unfold parse_supplier_html, parse_sections.
  destruct (for_each _ (quality_cert_cells soup) _) as [d1|e1] eqn:E1; simpl.
  - destruct (for_each _ (env_cert_cells soup) _) as [d2|e2] eqn:E2; simpl.
    + destruct (parse_quality_audits soup) as [qm|e3] eqn:E3; simpl; [done|].
      intros [= <-]. left. by eapply parse_quality_audits_raises.
    + intros [= <-]. destruct (for_each_raises _ _ _ _ E2) as (s0 & x & _ & Hb).
      right. eauto using env_cert_cell_raises.
  - intros [= <-]. destruct (for_each_raises _ _ _ _ E1) as (s0 & x & _ & Hb).
    right. eauto using quality_cert_cell_raises.
Qed.

(** Without the audit panel the only exception of a parse is the
    [ValueError] of an expiry date. *)
Lemma parse_supplier_html_no_panel_raises now (g : rng) (soup : Soup) (e : exn) :
  audit_panel soup = None ->
  parse_supplier_html now g soup = Raise e -> exists s, e = ValueError s.
Proof.
  intros Hp. unfold parse_supplier_html, parse_sections, parse_quality_audits.
  rewrite Hp.
  destruct (for_each _ (quality_cert_cells soup) _) as [d1|e1] eqn:E1; simpl.
  - destruct (for_each _ (env_cert_cells soup) _) as [d2|e2] eqn:E2; simpl; [done|].
    intros [= <-]. destruct (for_each_raises _ _ _ _ E2) as (s0 & x & _ & Hb).
    eauto using env_cert_cell_raises.
  - intros [= <-]. destruct (for_each_raises _ _ _ _ E1) as (s0 & x & _ & Hb).
    eauto using quality_cert_cell_raises.
Qed.

Lemma parse_supplier_html_no_panel_returns now (g : rng) (soup : Soup) :
  audit_panel soup = None -> expiry_dates_valid soup ->
  exists r, parse_supplier_html now g soup = Ok r.
Proof.
  intros Hp Hv. unfold parse_supplier_html, parse_sections, parse_quality_audits.
  rewrite Hp.
  destruct (for_each_ok (quality_cert_cell now) (quality_cert_cells soup)
              (sem_audit soup (initial_data soup))) as [d1 ->].
  { intros s x Hx. unfold quality_cert_cell. destruct (_ || _); [|eauto].
    destruct (expiry_status_ok now x) as [[st c] ->]; [|simpl; eauto].
    intros m. apply Hv. apply elem_of_app. by left. }
  simpl.
  destruct (for_each_ok (env_cert_cell now) (env_cert_cells soup) d1) as [d2 ->].
  { intros s x Hx. unfold env_cert_cell. destruct (contains _ _); [|eauto].
    destruct (expiry_status_ok now x) as [[st c] ->]; [|simpl; eauto].
    intros m. apply Hv. apply elem_of_app. by right. }
  simpl. eauto.
Qed.

End NoPanel.

(* ===================================================================== *)
(** ** Certifications and the CSR score *)
(* ===================================================================== *)

Section Certification.
Import Py Re Datetime Extractor.
Context {RT : Runtime}.

Lemma dt_ltb_date_earlier (a b : datetime) :
  date_earlier a b -> dt_ltb a b = true.
Proof.
  unfold date_earlier, dt_ltb. intros H.
  destruct (Z.ltb_spec (year a) (year b)) as [|Hy]; [done|]. simpl.
  destruct H as [H|[Ey H]]; [lia|].
  rewrite (proj2 (Z.eqb_eq _ _) Ey). simpl.
  destruct (Z.ltb_spec (month a) (month b)) as [|Hm]; [done|]. simpl.
  destruct H as [H|[Em H]]; [lia|].
  rewrite (proj2 (Z.eqb_eq _ _) Em). simpl.
  by rewrite (proj2 (Z.ltb_lt _ _) H).
Qed.

Lemma dt_ltb_date_later (a b : datetime) :
  date_earlier b a -> dt_ltb a b = false.
Proof.
  unfold date_earlier, dt_ltb. intros H.
  apply not_true_is_false. intros T.
  repeat (apply orb_prop in T as [T|T] || apply andb_prop in T as [? T]);
    repeat match goal with
           | X : (_ <? _) = true |- _ => apply Z.ltb_lt in X
           | X : (_ =? _) = true |- _ => apply Z.eqb_eq in X
           end; lia.
Qed.


Lemma csr_class_cases (p : N) :
  csr_class p =
  if (80 <=? p)%N then ("status-approved", "Approved")
  else if (60 <=? p)%N then ("status-pending", "Pending")
  else ("status-not-approved", "Not Approved").
Proof. reflexivity. Qed.

End Certification.

(* ===================================================================== *)
(** ** The three segments of the audit panel *)
(* ===================================================================== *)

Section Segments.
Import Py Re Extractor.

Lemma search_from_head (ic : bool) (r : regex) (t : list ascii)
  (p : list ascii * caps) (l : list (list ascii * caps)) :
  rmatch ic r t = p :: l -> search_from ic r t = Some (snd p).
Proof. intros H. destruct t; simpl; by rewrite H. Qed.

(** The search for a heading, a lazy segment and an end pattern. *)
Lemma search_segment (hdr term : regex) (pre H s rest : list ascii) :
  (forall k, (k < length pre)%nat ->
     rmatch true hdr (drop k (pre ++ H ++ s ++ rest)) = []) ->
  (forall u, rmatch true hdr (H ++ u) = [(u, [])]) ->
  s <> [] -> one_line s ->
  (forall j, (1 <= j < length s)%nat -> rmatch true term (drop j s ++ rest) = []) ->
  (exists u l, rmatch true term rest = (u, []) :: l) ->
  search_from true (RSeq hdr (RSeq segment term)) (pre ++ H ++ s ++ rest)
  = Some [(1%nat, s)].
Proof.
  intros Hpre Hhdr Hne Hline Hin (u & l & Hterm).
  rewrite (search_from_skip true _ (length pre)).
  - rewrite drop_app_length.
    destruct (rmatch_segment_then term s rest 1 Hne Hline Hin _ _ Hterm)
      as [l' E].
    cbn [fst snd app] in E.
    rewrite (search_from_head true _ _ (u, [(1%nat, s)]) l'); [reflexivity|].
    rewrite (rmatch_seq_one true hdr _ _ (s ++ rest) (Hhdr _)).
    exact E.
  - rewrite length_app. lia.
  - intros k Hk. apply rmatch_seq_nil. by apply Hpre.
Qed.

Lemma absent_before_spec (r : regex) (n : nat) (t : string) :
  absent_before r n t = true ->
  forall k, (k < n)%nat -> rmatch true r (drop k (chars t)) = [].
Proof.
  unfold absent_before. rewrite forallb_forall. intros H k Hk.
  specialize (H k). rewrite in_seq in H.
  destruct (rmatch true r (drop k (chars t))); [done|].
  discriminate H. lia.
Qed.

Lemma one_line_text_spec (s : string) :
  one_line_text s = true -> one_line (chars s).
Proof.
  unfold one_line_text, one_line. induction s as [|a s IH]; simpl.
  - constructor.
  - intros H. apply andb_prop in H as [Ha Hs]. constructor; auto.
Qed.

Lemma chars_nonempty (s : string) : s <> "" -> chars s <> [].
Proof. by destruct s. Qed.

(** The headings match their own text in one way. *)
Lemma hdr_sma_exact (u : list ascii) :
  rmatch true hdr_sma (chars H_SMA ++ u) = [(u, [])].
Proof. vm_compute. reflexivity. Qed.

Lemma hdr_sw_exact (u : list ascii) :
  rmatch true hdr_sw (chars H_SW ++ u) = [(u, [])].
Proof. vm_compute. reflexivity. Qed.

Lemma hdr_ee_exact (u : list ascii) :
  rmatch true hdr_ee (chars H_EE ++ u) = [(u, [])].
Proof. vm_compute. reflexivity. Qed.

(** Where the heading pattern does not match, the end literal with one
    blank does not match either. *)
Lemma lit_sw_absent (u : list ascii) :
  rmatch true hdr_sw u = [] -> rmatch true (lit H_SW) u = [].
Proof.
  intros Hh. unfold lit. rewrite rmatch_lit.
  destruct (starts true (chars H_SW) u) eqn:E; [|done].
  exfalso. revert Hh.
  apply (spaced_literal_header (chars "Software") (chars "ndex") u "I"%char);
    [reflexivity|exact E].
Qed.

Lemma lit_ee_absent (u : list ascii) :
  rmatch true hdr_ee u = [] -> rmatch true (lit H_EE) u = [].
Proof.
  intros Hh. unfold lit. rewrite rmatch_lit.
  destruct (starts true (chars H_EE) u) eqn:E; [|done].
  exfalso. revert Hh.
  apply (spaced_literal_header (chars "EE") (chars "ndex") u "I"%char);
    [reflexivity|exact E].
Qed.

Lemma at_end_before (s rest : list ascii) :
  (2 <= length rest)%nat -> at_end (s ++ rest) = false.
Proof.
  intros H. destruct rest as [|a [|b rest]]; simpl in H; try lia.
  destruct s as [|c [|c' s]]; reflexivity.
Qed.

Lemma at_end_inside (s : list ascii) (j : nat) :
  one_line s -> (j < length s)%nat -> at_end (drop j s) = false.
Proof.
  intros Hl Hj.
  assert (Hd : one_line (drop j s)) by by apply Forall_drop.
  assert (Hn : length (drop j s) <> 0%nat) by (rewrite length_drop; lia).
  destruct (drop j s) as [|a [|b l]]; [done| |done].
  apply Forall_cons in Hd as [Ha _]. simpl in Ha. simpl.
  by destruct (Ascii.eqb a newline).
Qed.

Lemma drop_inside (a s r : list ascii) (j : nat) :
  (j <= length s)%nat -> drop (length a + j) (a ++ s ++ r) = drop j s ++ r.
Proof. intros Hj. by rewrite drop_app_add, drop_app_le. Qed.

(** *** The three searches on a well-formed panel *)

Section Panel.
Variables P S1 S2 S3 : list ascii.

Hypothesis S1_ne : S1 <> [].
Hypothesis S2_ne : S2 <> [].
Hypothesis S3_ne : S3 <> [].
Hypothesis S1_line : one_line S1.
Hypothesis S2_line : one_line S2.
Hypothesis S3_line : one_line S3.
Hypothesis no_sma : forall k, (k < length P)%nat ->
  rmatch true hdr_sma (drop k (panel_list P S1 S2 S3)) = [].
Hypothesis no_sw : forall k, (k < length (P ++ chars H_SMA ++ S1))%nat ->
  rmatch true hdr_sw (drop k (panel_list P S1 S2 S3)) = [].
Hypothesis no_ee :
  forall k, (k < length (P ++ chars H_SMA ++ S1 ++ chars H_SW ++ S2))%nat ->
  rmatch true hdr_ee (drop k (panel_list P S1 S2 S3)) = [].

Lemma inside_S1 (j : nat) :
  (j < length S1)%nat ->
  rmatch true hdr_sw (drop j S1 ++ chars H_SW ++ S2 ++ chars H_EE ++ S3) = []
  /\ rmatch true hdr_ee (drop j S1 ++ chars H_SW ++ S2 ++ chars H_EE ++ S3) = [].
Proof.
  intros Hj.
  assert (E : drop (length (P ++ chars H_SMA) + j) (panel_list P S1 S2 S3)
              = drop j S1 ++ chars H_SW ++ S2 ++ chars H_EE ++ S3).
  { unfold panel_list. rewrite (app_assoc P (chars H_SMA)). apply drop_inside. lia. }
  rewrite <- E. split; [apply no_sw|apply no_ee]; rewrite !length_app in *; lia.
Qed.

Lemma inside_S2 (j : nat) :
  (j < length S2)%nat -> rmatch true hdr_ee (drop j S2 ++ chars H_EE ++ S3) = [].
Proof.
  intros Hj.
  assert (E : drop (length (P ++ chars H_SMA ++ S1 ++ chars H_SW) + j)
                   (panel_list P S1 S2 S3)
              = drop j S2 ++ chars H_EE ++ S3).
  { unfold panel_list.
    replace (P ++ chars H_SMA ++ S1 ++ chars H_SW ++ S2 ++ chars H_EE ++ S3)
      with ((P ++ chars H_SMA ++ S1 ++ chars H_SW) ++ S2 ++ chars H_EE ++ S3)
      by by rewrite <- !app_assoc.
    apply drop_inside. lia. }
  rewrite <- E. apply no_ee. rewrite !length_app in *. lia.
Qed.

Lemma search_sma_panel :
  search_from true re_sma (panel_list P S1 S2 S3) = Some [(1%nat, S1)].
Proof.
  unfold re_sma, panel_list. apply search_segment; auto using hdr_sma_exact.
  - intros j [_ Hj]. destruct (inside_S1 j Hj) as [Hsw Hee].
    unfold end_sma. fold H_SW H_EE. cbn [rmatch].
    rewrite (lit_sw_absent _ Hsw), (lit_ee_absent _ Hee).
    by rewrite at_end_before by (simpl; lia).
  - unfold end_sma. fold H_SW H_EE. cbn [rmatch]. unfold lit. rewrite rmatch_lit.
    rewrite starts_app. cbn [app]. eauto.
Qed.

Lemma search_sw_panel :
  search_from true re_sw (panel_list P S1 S2 S3) = Some [(1%nat, S2)].
Proof.
  unfold re_sw, panel_list.
  replace (P ++ chars H_SMA ++ S1 ++ chars H_SW ++ S2 ++ chars H_EE ++ S3)
    with ((P ++ chars H_SMA ++ S1) ++ chars H_SW ++ S2 ++ chars H_EE ++ S3)
    by by rewrite <- !app_assoc.
  apply search_segment; auto using hdr_sw_exact.
  - intros k Hk. rewrite <- !app_assoc. by apply no_sw.
  - intros j [_ Hj]. pose proof (inside_S2 j Hj) as Hee.
    unfold end_sw. fold H_EE. cbn [rmatch]. rewrite (lit_ee_absent _ Hee).
    by rewrite at_end_before by (simpl; lia).
  - unfold end_sw. fold H_EE. cbn [rmatch]. unfold lit. rewrite rmatch_lit.
    rewrite starts_app. cbn [app]. eauto.
Qed.

Lemma search_ee_panel :
  search_from true re_ee (panel_list P S1 S2 S3) = Some [(1%nat, S3)].
Proof.
  unfold re_ee, panel_list.
  replace (P ++ chars H_SMA ++ S1 ++ chars H_SW ++ S2 ++ chars H_EE ++ S3)
    with ((P ++ chars H_SMA ++ S1 ++ chars H_SW ++ S2) ++ chars H_EE ++ S3 ++ []).
  2:{ rewrite <- !app_assoc. by rewrite app_nil_r. }
  apply search_segment; auto using hdr_ee_exact.
  - intros k Hk. rewrite <- !app_assoc, app_nil_r. by apply no_ee.
  - intros j [_ Hj]. rewrite app_nil_r. cbn [rmatch].
    by rewrite at_end_inside.
  - cbn [rmatch at_end]. eauto.
Qed.
End Panel.
End Segments.

(* ===================================================================== *)
(** ** parse_quality_audits on a well-formed panel *)
(* ===================================================================== *)

Section QualityAudits.
Import Py Re Extractor.

Lemma panel_chars (pre s1 s2 s3 : string) :
  chars (panel pre s1 s2 s3)
  = chars pre ++ chars H_SMA ++ chars s1 ++ chars H_SW ++ chars s2
    ++ chars H_EE ++ chars s3.
Proof. unfold panel. by rewrite !chars_app. Qed.

Lemma panel_searches (pre s1 s2 s3 : string) :
  well_formed_panel pre s1 s2 s3 ->
  search true re_sma (panel pre s1 s2 s3) = Some [(1%nat, chars s1)]
  /\ search true re_sw (panel pre s1 s2 s3) = Some [(1%nat, chars s2)]
  /\ search true re_ee (panel pre s1 s2 s3) = Some [(1%nat, chars s3)].
Proof.
  intros [N1 N2 N3 L1 L2 L3 Hsma Hsw Hee].
  pose proof (absent_before_spec _ _ _ Hsma) as A1.
  pose proof (absent_before_spec _ _ _ Hsw) as A2.
  pose proof (absent_before_spec _ _ _ Hee) as A3.
  rewrite <- chars_length in A1, A2, A3.
  rewrite panel_chars in A1, A2, A3.
  rewrite !chars_app in A2. rewrite !chars_app in A3.
  unfold search. rewrite panel_chars.
  fold (panel_list (chars pre) (chars s1) (chars s2) (chars s3)) in *.
  split; [|split].
  - apply search_sma_panel;
      auto using chars_nonempty, one_line_text_spec.
  - apply search_sw_panel;
      auto using chars_nonempty, one_line_text_spec.
  - apply search_ee_panel;
      auto using chars_nonempty, one_line_text_spec.
Qed.

Lemma group_whole (s : string) : group 1 [(1%nat, chars s)] = s.
Proof. unfold group. simpl. apply text_chars. Qed.

Lemma written_claimed (seg : string) :
  contains "Approved" seg && negated seg = false ->
  default NA (written_status seg) = claimed_status seg.
Proof.
  unfold written_status, claimed_status.
  destruct (contains "Approved" seg), (negated seg); simpl; done.
Qed.

Lemma written_ee_claimed (seg : string) :
  contains "Approved" seg && negated seg = false ->
  written_ee_status seg = ee_status seg.
Proof.
  intros H. unfold written_ee_status, ee_status. by rewrite written_claimed.
Qed.

(** Resolves the lookups in a chain of inserts. *)
Ltac lookups :=
  repeat first
    [ rewrite lookup_insert_eq
    | rewrite lookup_insert_ne by done ].

Lemma sma_segment_found (t s : string) (m : gmap string string) :
  search true re_sma t = Some [(1%nat, chars s)] ->
  m !! "sma" = Some NA -> m !! "smaStatus" = Some NA -> m !! "smaDate" = Some NA ->
  exists m',
    sma_segment t m = Ok m'
    /\ m' !! "sma" = Some (percent_of s)
    /\ m' !! "smaDate" = Some (date_of s)
    /\ m' !! "smaStatus" = Some (default NA (written_status s)).
Proof.
  intros Hs K1 K2 K3. unfold sma_segment. rewrite Hs, group_whole.
  unfold percent_of, date_of, written_status, negated, print3, getitem.
  destruct (search false re_percent s), (contains "Approved" s),
    (contains "Not approved" s || contains "Not Approved" s),
    (search false re_date s);
    lookups; rewrite ?K1, ?K2, ?K3; simpl; lookups;
    (eexists; split; [reflexivity|]); lookups; rewrite ?K1, ?K2, ?K3; done.
Qed.

Lemma sw_segment_found (t s : string) (m : gmap string string) :
  search true re_sw t = Some [(1%nat, chars s)] ->
  m !! "swIndex" = Some NA -> m !! "swStatus" = Some NA ->
  is_Some (search false re_date s) ->
  exists m',
    sw_segment t m = Ok m'
    /\ m' !! "swIndex" = Some (percent_of s)
    /\ m' !! "swDate" = Some (date_of s)
    /\ m' !! "swStatus" = Some (default NA (written_status s)).
Proof.
  intros Hs K1 K2 [d Hd]. unfold sw_segment. rewrite Hs, group_whole.
  unfold percent_of, date_of, written_status, negated, print3, getitem.
  rewrite Hd.
  destruct (search false re_percent s), (contains "Approved" s),
    (contains "Not approved" s || contains "Not Approved" s);
    lookups; rewrite ?K1, ?K2; simpl; lookups;
    (eexists; split; [reflexivity|]); lookups; rewrite ?K1, ?K2; done.
Qed.

Lemma ee_segment_found (t s : string) (m : gmap string string) :
  search true re_ee t = Some [(1%nat, chars s)] ->
  m !! "eeIndex" = Some NA -> m !! "eeStatus" = Some NA -> m !! "eeDate" = Some NA ->
  exists m',
    ee_segment t m = Ok m'
    /\ m' !! "eeIndex" = Some (percent_of s)
    /\ m' !! "eeDate" = Some (date_of s)
    /\ m' !! "eeStatus" = Some (written_ee_status s).
Proof.
  intros Hs K1 K2 K3. unfold ee_segment. rewrite Hs, group_whole.
  unfold percent_of, date_of, written_ee_status, written_status, negated,
    print3, getitem.
  destruct (search false re_percent s), (contains "Approved with conditions" s),
    (contains "Approved" s),
    (contains "Not approved" s || contains "Not Approved" s),
    (contains "Restriction" s), (search false re_date s);
    lookups; rewrite ?K1, ?K2, ?K3; simpl; lookups; rewrite ?K1, ?K2, ?K3; simpl;
    lookups;
    (eexists; split; [reflexivity|]); lookups; rewrite ?K1, ?K2, ?K3; done.
Qed.

End QualityAudits.

(* ===================================================================== *)
(** ** The collector *)
(* ===================================================================== *)

Section Classification.
Import Py Collector.

Lemma existsb_has_term (terms : list string) (f : string -> bool) :
  existsb f terms = true <-> exists term, In term terms /\ f term = true.
Proof. apply existsb_exists. Qed.

Lemma has_term_false (terms : list string) (text : string) :
  ~ has_term terms text -> existsb (fun term => contains term text) terms = false.
Proof.
  intros H. apply not_true_is_false. intros T. apply H.
  by apply existsb_has_term in T.
Qed.

(** C8 -- For a fetched page, scrape_volvo_scorecard checks the login
    terms first (in the lowered title or the lowered source), then the
    access-denied terms, then the not-found texts, and only then builds
    the result; the first class that matches gives the error message and
    the result is None.  A page with a login term and an access-denied
    term is a login page. *)
Theorem C8_first_matching_class_wins (supplier_id timestamp : string) (page : Page) :
  let title := str_lower (page_title page) in
  let source := str_lower (html_content page) in
  let login := has_term login_terms title \/ has_term login_terms source in
  let denied := has_term denied_terms source in
  let not_found :=
    contains "supplier not found" source = true
    \/ contains "no supplier" source = true in
  let result := scrape_volvo_scorecard supplier_id (Some (Fetched page)) timestamp in
  (login -> result = (None, Some (login_message supplier_id)))
  /\ (login -> denied -> result = (None, Some (login_message supplier_id)))
  /\ (~ login -> denied -> result = (None, Some (denied_message supplier_id)))
  /\ (~ login -> ~ denied -> not_found ->
        result = (None, Some (not_found_message supplier_id)))
  /\ (~ login -> ~ denied -> ~ not_found ->
        exists r, result = (Some r, None)
                  /\ res_html_content r = html_content page
                  /\ res_supplier_id r = supplier_id).
Proof.
  intros title source login denied not_found result.
  assert (Hlogin : login ->
    existsb (fun term => contains term title || contains term source) login_terms
    = true).
  { intros [(t & Ht & Hc)|(t & Ht & Hc)]; apply existsb_has_term; exists t;
      (split; [done|]); rewrite Hc; [done|apply orb_true_r]. }
  assert (Hnologin : ~ login ->
    existsb (fun term => contains term title || contains term source) login_terms
    = false).
  { intros Hn. apply not_true_is_false. intros T. apply Hn.
    apply existsb_has_term in T as (t & Ht & Hc).
    apply orb_prop in Hc as [Hc|Hc]; [left|right]; by exists t. }
  assert (Hdenied : denied ->
    existsb (fun term => contains term source) denied_terms = true).
  { intros D. by apply existsb_has_term. }
  assert (Hnf : ~ not_found ->
    contains "supplier not found" source || contains "no supplier" source = false).
  { intros Hn. apply not_true_is_false. intros T. apply Hn.
    by apply orb_prop in T. }
  subst result. unfold scrape_volvo_scorecard. fold title source.
  repeat split.
  - intros L. by rewrite (Hlogin L).
  - intros L _. by rewrite (Hlogin L).
  - intros L D. by rewrite (Hnologin L), (Hdenied D).
  - intros L D N. rewrite (Hnologin L), (has_term_false _ _ D).
    destruct N as [->| ->]; [done|by rewrite orb_true_r].
  - intros L D N. rewrite (Hnologin L), (has_term_false _ _ D), (Hnf N).
    eexists. split; [reflexivity|]. done.
Qed.
End Classification.

Section SupplierIds.
Import Collector.

Lemma elem_of_fold_app {A B : Type} (f : A -> list B) (l : list A)
  (acc : list B) (x : B) :
  x ∈ fold_left (fun acc a => acc ++ f a) l acc
  <-> x ∈ acc \/ exists a, a ∈ l /\ x ∈ f a.
Proof.
  revert acc. induction l as [|a l IH]; intros acc; simpl.
  - split; [auto|]. intros [?|(a & Ha & _)]; [done|]. by apply elem_of_nil in Ha.
  - rewrite IH, elem_of_app. split.
    + intros [[?|?]|(b & Hb & Hx)]; [by left| |].
      * right. exists a. split; [left|done].
      * right. exists b. split; [by right|done].
    + intros [?|(b & Hb & Hx)]; [by left; left|].
      apply elem_of_cons in Hb as [->|Hb]; [by left; right|].
      right. by exists b.
Qed.

Lemma elem_of_all_codes (data : Config) (c : Z) :
  c ∈ all_codes data <-> listed data c.
Proof.
  unfold all_codes, listed. rewrite elem_of_fold_app. split.
  - intros [H|(p & Hp & Hc)]; [by apply elem_of_nil in H|].
    destruct (parma_codes p) as [cs|] eqn:E; simpl in Hc.
    + by exists p, cs.
    + by apply elem_of_nil in Hc.
  - intros (p & cs & Hp & E & Hc). right. exists p. by rewrite E.
Qed.

Lemma sorted_set_Permutation (l : list Z) :
  sorted_set l ≡ₚ elements (list_to_set l : gset Z).
Proof. apply merge_sort_Permutation. Qed.

Lemma elem_of_sorted_set (l : list Z) (c : Z) : c ∈ sorted_set l <-> c ∈ l.
Proof.
  rewrite sorted_set_Permutation, elem_of_elements, elem_of_list_to_set. done.
Qed.

Lemma NoDup_sorted_set (l : list Z) : NoDup (sorted_set l).
Proof. rewrite sorted_set_Permutation. apply NoDup_elements. Qed.

Lemma StronglySorted_le_NoDup_lt (l : list Z) :
  StronglySorted Z.le l -> NoDup l -> StronglySorted Z.lt l.
Proof.
  induction 1 as [|x l Hs IH Hall]; intros Hnd; constructor.
  - apply IH. by apply NoDup_cons in Hnd as [_ ?].
  - apply NoDup_cons in Hnd as [Hx _].
    rewrite Forall_forall in Hall |- *. intros y Hy.
    specialize (Hall y Hy). assert (x <> y) by (intros ->; done). lia.
Qed.

Lemma sorted_set_ascending (l : list Z) : StronglySorted Z.lt (sorted_set l).
Proof.
  apply StronglySorted_le_NoDup_lt; [|apply NoDup_sorted_set].
  apply StronglySorted_merge_sort; apply _.
Qed.

End SupplierIds.

(* ===================================================================== *)
(** ** The theorems on the sample pages *)
(* ===================================================================== *)

Section Worked.
Import Py Re Datetime Extractor Collector.
Import DecimalRuntime.

Lemma returned_ok {A B : Type} (f : A -> B) (r : result A) (b : B) :
  returned f r = Some b -> exists a, r = Ok a /\ f a = b.
Proof. destruct r as [a|e]; simpl; [intros [= <-]; eauto|discriminate]. Qed.

Lemma raised_raise {A : Type} (r : result A) (e : exn) :
  raised r = Some e -> r = Raise e.
Proof. destruct r as [a|e']; simpl; [discriminate|by intros [= <-]]. Qed.



(** The two slips next to C1: a negation written 'Not Approved' is read
    as Approved (Approved is tested first), and a found Software segment
    without date makes the print raise. *)
Example sma_capital_negation_reads_approved :
  returned (fun m : gmap string string => m !! "smaStatus")
    (parse_quality_audits Samples.negated_panel)
  = Some (Some "Approved").
Proof. vm_compute. reflexivity. Qed.

Example software_without_date_raises :
  raised (parse_quality_audits Samples.undated_panel)
  = Some (KeyError "swDate").
Proof. vm_compute. reflexivity. Qed.






Lemma C6_witness_two_entries :
  exists data,
    parse_sections (RT:=decimal) Samples.now 0 Samples.scorecard = Ok data
    /\ length (audits data) = 2%nat
    /\ exists r,
         parse_supplier_html (RT:=decimal) Samples.now 0 Samples.scorecard = Ok r
         /\ audits r = audits data ++ replicate (6 - length (audits data)) placeholder
         /\ length (audits r) = 6%nat
         /\ placeholder = {| title := "N/A"; status := "N/A";
                             statusClass := "status-na"; date := "N/A" |}.
Proof.
  assert (F : returned (fun d => length (audits d))
                (parse_sections (RT:=decimal) Samples.now 0 Samples.scorecard)
              = Some 2%nat) by (vm_compute; reflexivity).
  destruct (returned_ok _ _ _ F) as (data & E & Hlen).
  exists data. split; [exact E|]. split; [exact Hlen|].
  apply (C6_audits_padded_to_six (RT:=decimal) Samples.now 0 Samples.scorecard
           data E).
  rewrite Hlen. lia.
Defined.



Lemma C8_witness_login_and_denied :
  scrape_volvo_scorecard "77"
    (Some (Fetched {| current_url := "https://vsib.srv.volvo.com/";
                      page_title := "Sign In";
                      html_content := "<html>Access Denied</html>" |}))
    "2026-11-03T12:00:00"
  = (None, Some "Login page detected for supplier 77 - authentication required").
Proof.
  apply (C8_first_matching_class_wins "77" "2026-11-03T12:00:00"
           {| current_url := "https://vsib.srv.volvo.com/";
              page_title := "Sign In";
              html_content := "<html>Access Denied</html>" |}).
  - left. exists "sign in". split; [vm_compute; tauto|vm_compute; reflexivity].
  - exists "access denied". split; [vm_compute; tauto|vm_compute; reflexivity].
Defined.

Lemma C9_witness_found_date :
  exists r,
    parse_supplier_html (RT:=decimal) Samples.now 0 Samples.scorecard = Ok r
    /\ metrics r !! "sw Date" = Some "N/A"
    /\ metrics r !! "swDate" = Some "2016-12-01".
Proof.
  assert (F : returned (fun r => metrics r !! "swDate")
                (parse_supplier_html (RT:=decimal) Samples.now 0 Samples.scorecard)
              = Some (Some "2016-12-01")) by (vm_compute; reflexivity).
  destruct (returned_ok _ _ _ F) as (r & E & Hd).
  exists r. split; [exact E|]. split; [|exact Hd].
  exact (proj1 (C9_sw_Date_key_always_NA (RT:=decimal) Samples.now 0
                  Samples.scorecard r E)).
Defined.

Lemma C10_sample_three_people :
  load_supplier_ids_from_toml
    (Parsed {| people := Some [ {| parma_codes := Some [3; 1; 2] |};
                                {| parma_codes := None |};
                                {| parma_codes := Some [2; 5; 1] |} ] |})
  = Some [1; 2; 3; 5].
Proof. vm_compute. reflexivity. Qed.
End Worked.

(* ===================================================================== *)
(** ** What a match consumes and captures *)
(* ===================================================================== *)

Section Shapes.
Import Py Re.

Lemma elem_of_rmatch_seq (ic : bool) (r1 r2 : regex) (s u : list ascii)
  (c : caps) :
  (u, c) ∈ rmatch ic (RSeq r1 r2) s <->
  exists u1 c1 c2, (u1, c1) ∈ rmatch ic r1 s /\ (u, c2) ∈ rmatch ic r2 u1
                   /\ c = c1 ++ c2.
Proof.
  cbn [rmatch]. rewrite list_elem_of_bind. split.
  - intros ([u1 c1] & Hp & H1).
    apply list_elem_of_bind in Hp as ([u2 c2] & Hp & H2).
    apply list_elem_of_singleton in Hp. injection Hp as -> ->.
    by exists u1, c1, c2.
  - intros (u1 & c1 & c2 & H1 & H2 & ->). exists (u1, c1). split; [|done].
    apply list_elem_of_bind. exists (u, c2). split; [|done].
    by apply list_elem_of_singleton.
Qed.

Lemma elem_of_rmatch_group (ic : bool) (i : nat) (r : regex) (s u : list ascii)
  (c : caps) :
  (u, c) ∈ rmatch ic (RGroup i r) s <->
  exists c', (u, c') ∈ rmatch ic r s /\ c = c' ++ [(i, consumed s u)].
Proof.
  cbn [rmatch]. rewrite list_elem_of_fmap. split.
  - intros ([u' c'] & E & Hq). injection E as -> ->. eauto.
  - intros (c' & Hq & ->). by exists (u, c').
Qed.

Lemma elem_of_star_greedy (ok : ascii -> bool) (s u : list ascii) :
  u ∈ star_greedy ok s -> exists l, s = l ++ u /\ Forall (fun a => ok a = true) l.
Proof.
  revert u. induction s as [|a s IH]; intros u; simpl.
  - intros ->%list_elem_of_singleton. by exists [].
  - destruct (ok a) eqn:E.
    + intros [H| ->%list_elem_of_singleton]%elem_of_app.
      * destruct (IH u H) as (l & -> & Hl). exists (a :: l). split; [done|].
        by constructor.
      * by exists [].
    + intros ->%list_elem_of_singleton. by exists [].
Qed.

(** One or more characters of a class: a non-empty run, no group. *)
Lemma rmatch_plus_run (ic : bool) (cl : cclass) (s u : list ascii) (c : caps) :
  (u, c) ∈ rmatch ic (plus cl) s ->
  exists l, s = l ++ u /\ l <> []
            /\ Forall (fun a => cls_ok ic cl a = true) l /\ c = [].
Proof.
  unfold plus. rewrite elem_of_rmatch_seq.
  intros (u1 & c1 & c2 & H1 & H2 & ->). cbn [rmatch] in H1, H2.
  destruct s as [|a s]; [by apply elem_of_nil in H1|].
  destruct (cls_ok ic cl a) eqn:E; [|by apply elem_of_nil in H1].
  apply list_elem_of_singleton in H1. injection H1 as -> ->.
  apply list_elem_of_fmap in H2 as (u' & E' & Hu). injection E' as -> ->.
  destruct (elem_of_star_greedy _ _ _ Hu) as (l & -> & Hl).
  exists (a :: l). repeat split; [done|by constructor].
Qed.

(** Exactly [n] characters of a class. *)
Lemma rmatch_times_run (ic : bool) (n : nat) (cl : cclass) (s u : list ascii)
  (c : caps) :
  (u, c) ∈ rmatch ic (times n cl) s ->
  exists l, s = l ++ u /\ length l = n
            /\ Forall (fun a => cls_ok ic cl a = true) l /\ c = [].
Proof.
  revert s u c. induction n as [|n IH]; intros s u c; cbn [times].
  - cbn [rmatch]. intros E%list_elem_of_singleton. injection E as -> ->.
    by exists [].
  - rewrite elem_of_rmatch_seq. intros (u1 & c1 & c2 & H1 & H2 & ->).
    cbn [rmatch] in H1.
    destruct s as [|a s]; [by apply elem_of_nil in H1|].
    destruct (cls_ok ic cl a) eqn:E; [|by apply elem_of_nil in H1].
    apply list_elem_of_singleton in H1. injection H1 as -> ->.
    destruct (IH _ _ _ H2) as (l & -> & <- & Hl & ->).
    exists (a :: l). repeat split. by constructor.
Qed.

Lemma starts_exact (l s : list ascii) :
  starts false l s = true -> s = l ++ drop (length l) s.
Proof.
  revert s. induction l as [|x l IH]; intros s; [done|].
  destruct s as [|a s]; simpl; [done|].
  intros [Hx Hl]%andb_prop. apply Ascii.eqb_eq in Hx as ->.
  by rewrite <- (IH s Hl).
Qed.

(** A literal without IGNORECASE consumes itself. *)
Lemma rmatch_lit_run (l s u : list ascii) (c : caps) :
  (u, c) ∈ rmatch false (lit_chars l) s -> s = l ++ u /\ c = [].
Proof.
  rewrite rmatch_lit. destruct (starts false l s) eqn:E.
  - intros E'%list_elem_of_singleton. injection E' as -> ->.
    split; [|done]. by apply starts_exact.
  - intros H. by apply elem_of_nil in H.
Qed.

(** [re.search] returns the groups of a match at some offset. *)
Lemma search_from_elem (ic : bool) (r : regex) (s : list ascii) (c : caps) :
  search_from ic r s = Some c ->
  exists k u, (u, c) ∈ rmatch ic r (drop k s).
Proof.
  induction s as [|a s IH]; simpl.
  - destruct (rmatch ic r []) as [|[u c'] l] eqn:E; [done|].
    intros [= <-]. exists 0%nat, u. cbn [drop]. rewrite E. left.
  - destruct (rmatch ic r (a :: s)) as [|[u c'] l] eqn:E.
    + intros H. destruct (IH H) as (k & u & Hk). by exists (S k), u.
    + intros [= <-]. exists 0%nat, u. cbn [drop]. rewrite E. left.
Qed.

(** *** The ISO date *)

Lemma iso_date_run (s u : list ascii) (c : caps) :
  (u, c) ∈ rmatch false iso_date s ->
  exists l, s = l ++ u /\ Datetime.iso_shape (text l) = true /\ c = [].
Proof.
  unfold iso_date. cbn [cat]. unfold lit.
  intros (u1 & c1 & d1 & H1 & Hq1 & ->)%elem_of_rmatch_seq.
  apply elem_of_rmatch_seq in Hq1 as (u2 & c2 & d2 & H2 & Hq2 & ->).
  apply elem_of_rmatch_seq in Hq2 as (u3 & c3 & d3 & H3 & Hq3 & ->).
  apply elem_of_rmatch_seq in Hq3 as (u4 & c4 & c5 & H4 & H5 & ->).
  apply rmatch_times_run in H1 as (l1 & -> & L1 & D1 & ->).
  apply rmatch_lit_run in H2 as (-> & ->).
  apply rmatch_times_run in H3 as (l3 & -> & L3 & D3 & ->).
  apply rmatch_lit_run in H4 as (-> & ->).
  apply rmatch_times_run in H5 as (l5 & -> & L5 & D5 & ->).
  exists (l1 ++ chars "-" ++ l3 ++ chars "-" ++ l5).
  split; [by rewrite <- !app_assoc|]. split; [|done].
  destruct l1 as [|a1 [|a2 [|a3 [|a4 [|? ?]]]]]; try discriminate L1.
  destruct l3 as [|b1 [|b2 [|? ?]]]; try discriminate L3.
  destruct l5 as [|c1 [|c2 [|? ?]]]; try discriminate L5.
  repeat match goal with
         | H : Forall _ (_ :: _) |- _ => apply Forall_cons in H as [? H]
         end.
  cbn [cls_ok] in *. unfold Datetime.iso_shape, text.
  rewrite String.list_ascii_of_string_of_list_ascii.
  cbn [app chars String.list_ascii_of_string forallb].
  repeat match goal with H : is_digit _ = true |- _ => rewrite H; clear H end.
  reflexivity.
Qed.

Lemma group_first (i : nat) (l : list ascii) (c : caps) :
  group i ((i, l) :: c) = text l.
Proof. unfold group. simpl. by rewrite Nat.eqb_refl. Qed.

Lemma isdigit_text (l : list ascii) :
  l <> [] -> Forall (fun a => is_digit a = true) l -> isdigit (text l) = true.
Proof.
  intros Hne Hl. destruct l as [|a l]; [done|].
  unfold isdigit. cbn [text String.string_of_list_ascii].
  change (all_chars is_digit (text (a :: l)) = true).
  clear Hne. induction Hl as [|b l' Hb Hl IH]; [done|].
  cbn [text String.string_of_list_ascii all_chars]. rewrite Hb. exact IH.
Qed.

(** *** The groups of the patterns of the extractor *)

(** (\d+)% : group 1 is a non-empty run of digits. *)
Lemma percent_group (s : string) (c : caps) :
  search false Extractor.re_percent s = Some c ->
  isdigit (group 1 c) = true.
Proof.
  unfold search. intros (k & u & H)%search_from_elem.
  unfold Extractor.re_percent in H. cbn [cat] in H.
  apply elem_of_rmatch_seq in H as (u1 & c1 & c2 & H1 & H2 & ->).
  apply elem_of_rmatch_group in H1 as (c' & H1 & ->).
  apply rmatch_plus_run in H1 as (l & -> & Hne & Hl & ->).
  rewrite consumed_app. cbn [app]. rewrite group_first.
  by apply isdigit_text.
Qed.

Lemma dated_group (pre : regex) (s : list ascii) (u : list ascii) (c : caps) :
  (forall s' u' c', (u', c') ∈ rmatch false pre s' -> c' = []) ->
  (u, c) ∈ rmatch false (RSeq pre (RGroup 1 iso_date)) s ->
  Datetime.iso_shape (group 1 c) = true.
Proof.
  intros Hpre (u1 & c1 & c2 & H1 & H2 & ->)%elem_of_rmatch_seq.
  rewrite (Hpre _ _ _ H1). cbn [app].
  apply elem_of_rmatch_group in H2 as (c' & H2 & ->).
  apply iso_date_run in H2 as (l & -> & Hl & ->).
  rewrite consumed_app. cbn [app]. by rewrite group_first.
Qed.

(** (\d{4}-\d{2}-\d{2}) *)
Lemma date_group (s : string) (c : caps) :
  search false Extractor.re_date s = Some c ->
  Datetime.iso_shape (group 1 c) = true.
Proof.
  unfold search. intros (k & u & H)%search_from_elem.
  unfold Extractor.re_date in H.
  apply elem_of_rmatch_group in H as (c' & H & ->).
  apply iso_date_run in H as (l & -> & Hl & ->).
  rewrite consumed_app. cbn [app]. by rewrite group_first.
Qed.

Lemma label_spaces_groupless (l : list ascii) (s u : list ascii) (c : caps) :
  (u, c) ∈ rmatch false (RSeq (lit_chars l) (star CSpace)) s -> c = [].
Proof.
  intros (u1 & c1 & c2 & H1 & H2 & ->)%elem_of_rmatch_seq.
  apply rmatch_lit_run in H1 as (_ & ->).
  unfold star in H2. cbn [rmatch] in H2.
  apply list_elem_of_fmap in H2 as (u' & E & _). by injection E as -> ->.
Qed.

Lemma rmatch_seq_assoc_elem (r1 r2 r3 : regex) (s u : list ascii) (c : caps) :
  (u, c) ∈ rmatch false (RSeq r1 (RSeq r2 r3)) s ->
  (u, c) ∈ rmatch false (RSeq (RSeq r1 r2) r3) s.
Proof.
  intros (u1 & c1 & c23 & H1 & H23 & ->)%elem_of_rmatch_seq.
  apply elem_of_rmatch_seq in H23 as (u2 & c2 & c3 & H2 & H3 & ->).
  apply elem_of_rmatch_seq. exists u2, (c1 ++ c2), c3.
  split; [|split; [done|by rewrite app_assoc]].
  apply elem_of_rmatch_seq. by exists u1, c1, c2.
Qed.

(** Expire:\s*(\d{4}-\d{2}-\d{2}) *)
Lemma expire_group (s : string) (c : caps) :
  search false Extractor.re_expire s = Some c ->
  Datetime.iso_shape (group 1 c) = true.
Proof.
  unfold search. intros (k & u & H)%search_from_elem.
  unfold Extractor.re_expire, lit in H. cbn [cat] in H.
  apply rmatch_seq_assoc_elem in H.
  eapply dated_group; [|exact H]. apply label_spaces_groupless.
Qed.

(** Evaluated:\s*(\d{4}-\d{2}-\d{2}) *)
Lemma evaluated_group (s : string) (c : caps) :
  search false Extractor.re_evaluated s = Some c ->
  Datetime.iso_shape (group 1 c) = true.
Proof.
  unfold search. intros (k & u & H)%search_from_elem.
  unfold Extractor.re_evaluated, lit in H. cbn [cat] in H.
  apply rmatch_seq_assoc_elem in H.
  eapply dated_group; [|exact H]. apply label_spaces_groupless.
Qed.
End Shapes.

(* ===================================================================== *)
(** ** The values parse_quality_audits writes *)
(* ===================================================================== *)

Section Written.
Import Py Re Datetime Extractor Outcome.

Ltac lookups :=
  repeat first
    [ rewrite lookup_insert_eq
    | rewrite lookup_insert_ne by done ].

Lemma sma_segment_cases (t : string) (m : gmap string string) :
  m !! "sma" = Some NA -> m !! "smaStatus" = Some NA -> m !! "smaDate" = Some NA ->
  exists m',
    sma_segment t m = Ok m'
    /\ ((search true re_sma t = None /\ m' = m)
        \/ exists c,
             search true re_sma t = Some c
             /\ m' !! "sma" = Some (percent_of (group 1 c))
             /\ m' !! "smaDate" = Some (date_of (group 1 c))
             /\ m' !! "smaStatus" = Some (default NA (written_status (group 1 c)))).
Proof.
  intros K1 K2 K3. unfold sma_segment.
  destruct (search true re_sma t) as [c|]; [|eauto].
  unfold percent_of, date_of, written_status, negated, print3, getitem.
  destruct (search false re_percent (group 1 c)) eqn:E1;
    destruct (contains "Approved" (group 1 c)) eqn:E2;
    destruct (contains "Not approved" (group 1 c)
              || contains "Not Approved" (group 1 c)) eqn:E3;
    destruct (search false re_date (group 1 c)) eqn:E4;
    lookups; rewrite ?K1, ?K2, ?K3; simpl; lookups;
    (eexists; split; [reflexivity|]); right; exists c; (split; [reflexivity|]);
    rewrite ?E1, ?E2, ?E3, ?E4; lookups; rewrite ?K1, ?K2, ?K3; done.
Qed.

Lemma sw_segment_cases (t : string) (m : gmap string string) :
  m !! "swIndex" = Some NA -> m !! "swStatus" = Some NA -> m !! "swDate" = None ->
  (search true re_sw t = None /\ sw_segment t m = Ok m)
  \/ (exists c, search true re_sw t = Some c
        /\ search false re_date (group 1 c) = None
        /\ sw_segment t m = Raise (KeyError "swDate"))
  \/ (exists c m',
        search true re_sw t = Some c
        /\ is_Some (search false re_date (group 1 c))
        /\ sw_segment t m = Ok m'
        /\ m' !! "swIndex" = Some (percent_of (group 1 c))
        /\ m' !! "swDate" = Some (date_of (group 1 c))
        /\ m' !! "swStatus" = Some (default NA (written_status (group 1 c)))).
Proof.
  intros K1 K2 K3. unfold sw_segment.
  destruct (search true re_sw t) as [c|]; [|by left].
  right.
  unfold percent_of, date_of, written_status, negated, print3, getitem.
  destruct (search false re_date (group 1 c)) as [d|] eqn:Ed.
  - right. exists c. rewrite Ed.
    destruct (search false re_percent (group 1 c)) eqn:E1;
      destruct (contains "Approved" (group 1 c)) eqn:E2;
      destruct (contains "Not approved" (group 1 c)
                || contains "Not Approved" (group 1 c)) eqn:E3;
      lookups; rewrite ?K1, ?K2; simpl; lookups;
      (eexists; split; [reflexivity|]); (split; [by eexists|]);
      (split; [reflexivity|]); lookups; rewrite ?K1, ?K2; done.
  - left. exists c. split; [done|]. split; [done|].
    destruct (search false re_percent (group 1 c)), (contains "Approved" (group 1 c)),
      (contains "Not approved" (group 1 c) || contains "Not Approved" (group 1 c));
      lookups; rewrite ?K1, ?K2, ?K3; simpl; lookups; rewrite ?K1, ?K2, ?K3; done.
Qed.

Lemma ee_segment_cases (t : string) (m : gmap string string) :
  m !! "eeIndex" = Some NA -> m !! "eeStatus" = Some NA -> m !! "eeDate" = Some NA ->
  exists m',
    ee_segment t m = Ok m'
    /\ ((search true re_ee t = None /\ m' = m)
        \/ exists c,
             search true re_ee t = Some c
             /\ m' !! "eeIndex" = Some (percent_of (group 1 c))
             /\ m' !! "eeDate" = Some (date_of (group 1 c))
             /\ m' !! "eeStatus" = Some (written_ee_status (group 1 c))).
Proof.
  intros K1 K2 K3. unfold ee_segment.
  destruct (search true re_ee t) as [c|]; [|eauto].
  unfold percent_of, date_of, written_ee_status, written_status, negated,
    print3, getitem.
  destruct (search false re_percent (group 1 c)) eqn:E1;
    destruct (contains "Approved with conditions" (group 1 c)) eqn:E2;
    destruct (contains "Approved" (group 1 c)) eqn:E3;
    destruct (contains "Not approved" (group 1 c)
              || contains "Not Approved" (group 1 c)) eqn:E4;
    destruct (contains "Restriction" (group 1 c)) eqn:E5;
    destruct (search false re_date (group 1 c)) eqn:E6;
    lookups; rewrite ?K1, ?K2, ?K3; simpl; lookups; rewrite ?K1, ?K2, ?K3; simpl;
    lookups;
    (eexists; split; [reflexivity|]); right; exists c; (split; [reflexivity|]);
    rewrite ?E1, ?E2, ?E3, ?E4, ?E5, ?E6;
    lookups; rewrite ?K1, ?K2, ?K3; done.
Qed.

Lemma percent_of_shape (seg : string) : percent_or_na (percent_of seg).
Proof.
  unfold percent_of, percent_or_na.
  destruct (search false re_percent seg) as [c|] eqn:E; [|by left].
  right. exists (group 1 c). split; [|done]. by eapply percent_group.
Qed.

Lemma date_of_shape (seg : string) : date_or_na (date_of seg).
Proof.
  unfold date_of, date_or_na.
  destruct (search false re_date seg) as [c|] eqn:E; [|by left].
  right. by eapply date_group.
Qed.

Lemma written_status_values (seg : string) :
  default NA (written_status seg) ∈ status_values.
Proof.
  unfold written_status, status_values.
  destruct (contains "Approved" seg), (negated seg); simpl;
    repeat first [left | right].
Qed.

Lemma written_ee_status_values (seg : string) :
  written_ee_status seg ∈ ee_status_values.
Proof.
  unfold written_ee_status, written_status, ee_status_values.
  destruct (contains "Approved with conditions" seg), (contains "Approved" seg),
    (negated seg), (contains "Restriction" seg); simpl;
    repeat first [left | right].
Qed.
End Written.

(* ===================================================================== *)
(** ** parse_quality_audits: what it returns, when it raises *)
(* ===================================================================== *)

Section QualityOutcome.
Import Py Re Datetime Extractor Outcome.

(** The three steps of parse_quality_audits on a panel text. *)
Lemma parse_quality_audits_steps (soup : Soup) (t : string) :
  audit_panel soup = Some t ->
  exists m1,
    sma_segment t default_quality_metrics = Ok m1
    /\ (forall k, k <> "sma" -> k <> "smaStatus" -> k <> "smaDate" ->
          m1 !! k = default_quality_metrics !! k)
    /\ (exists v, m1 !! "sma" = Some v /\ percent_or_na v)
    /\ (exists v, m1 !! "smaDate" = Some v /\ date_or_na v)
    /\ (exists v, m1 !! "smaStatus" = Some v /\ v ∈ status_values)
    /\ parse_quality_audits soup
       = (m2 ← sw_segment t m1; ee_segment t m2).
Proof.
  intros Hp.
  destruct (sma_segment_cases t default_quality_metrics) as (m1 & E1 & C1);
    try reflexivity.
  exists m1. split; [exact E1|].
  split; [intros; by eapply sma_segment_keeps|].
  unfold parse_quality_audits. rewrite Hp, E1.
  destruct C1 as [[_ ->]|(c & _ & -> & -> & ->)].
  - repeat split; try (eexists; split; [reflexivity|]);
      first [by left | repeat first [left | right]].
  - repeat split; try (eexists; split; [reflexivity|]);
      auto using percent_of_shape, date_of_shape, written_status_values.
Qed.

Lemma sw_keys_after_sma (t : string) (m1 : gmap string string) :
  (forall k, k <> "sma" -> k <> "smaStatus" -> k <> "smaDate" ->
     m1 !! k = default_quality_metrics !! k) ->
  m1 !! "swIndex" = Some NA /\ m1 !! "swStatus" = Some NA /\ m1 !! "swDate" = None
  /\ m1 !! "eeIndex" = Some NA /\ m1 !! "eeStatus" = Some NA
  /\ m1 !! "eeDate" = Some NA.
Proof. intros K. by rewrite !K. Qed.

(** parse_quality_audits raises exactly for a Software segment without
    date, and then the KeyError of the key 'swDate'. *)
Lemma parse_quality_audits_raises_iff (soup : Soup) :
  undated_software soup
  <-> parse_quality_audits soup = Raise (KeyError "swDate").
Proof.
  destruct (audit_panel soup) as [t|] eqn:Hp.
  2:{ split.
      - intros (t & c & Ht & _). rewrite Hp in Ht. discriminate.
      - unfold parse_quality_audits. by rewrite Hp. }
  destruct (parse_quality_audits_steps soup t Hp)
    as (m1 & E1 & K & _ & _ & _ & ->).
  destruct (sw_keys_after_sma t m1 K) as (S1 & S2 & S3 & X1 & X2 & X3).
  destruct (sw_segment_cases t m1 S1 S2 S3)
    as [(Hn & E2)|[(c & Hc & Hd & E2)|(c & m2 & Hc & Hd & E2 & _)]];
    rewrite E2; cbn [mbind result_bind].
  - split.
    + intros (t' & c & Ht & Hc & _). rewrite Hp in Ht. injection Ht as <-.
      rewrite Hn in Hc. discriminate.
    + intros H. exfalso. revert H. by apply ee_segment_returns.
  - split; [done|]. intros _. by exists t, c.
  - split.
    + intros (t' & c' & Ht & Hc' & Hd'). rewrite Hp in Ht. injection Ht as <-.
      rewrite Hc in Hc'. injection Hc' as <-. rewrite Hd' in Hd.
      by destruct Hd.
    + intros H. exfalso. revert H.
      assert (K2 : forall k, k <> "swIndex" -> k <> "swStatus" -> k <> "swDate" ->
                             m2 !! k = m1 !! k)
        by (intros; by eapply sw_segment_keeps).
      apply ee_segment_returns; by rewrite K2.
Qed.

(** The entries of the dict parse_quality_audits returns. *)
Lemma parse_quality_audits_values (soup : Soup) (qm : gmap string string) :
  parse_quality_audits soup = Ok qm ->
  forall k v, k ∈ quality_fields -> qm !! k = Some v -> field_ok k v.
Proof.
  intros H.
  assert (G : (exists v, qm !! "sma" = Some v /\ percent_or_na v)
    /\ (exists v, qm !! "smaDate" = Some v /\ date_or_na v)
    /\ (exists v, qm !! "smaStatus" = Some v /\ v ∈ status_values)
    /\ (exists v, qm !! "swIndex" = Some v /\ percent_or_na v)
    /\ (qm !! "swDate" = None \/ exists v, qm !! "swDate" = Some v /\ date_or_na v)
    /\ (exists v, qm !! "swStatus" = Some v /\ v ∈ status_values)
    /\ (exists v, qm !! "eeIndex" = Some v /\ percent_or_na v)
    /\ (exists v, qm !! "eeDate" = Some v /\ date_or_na v)
    /\ (exists v, qm !! "eeStatus" = Some v /\ v ∈ ee_status_values)).
  { destruct (audit_panel soup) as [t|] eqn:Hp.
    2:{ unfold parse_quality_audits in H. rewrite Hp in H. injection H as <-.
        repeat split; try (left; reflexivity);
          eexists; (split; [reflexivity|]);
          first [by left | repeat first [left | right]]. }
    destruct (parse_quality_audits_steps soup t Hp)
      as (m1 & E1 & K & P1 & D1 & T1 & E).
    rewrite E in H. clear E.
    destruct (sw_keys_after_sma t m1 K) as (S1 & S2 & S3 & X1 & X2 & X3).
    destruct (sw_segment_cases t m1 S1 S2 S3)
      as [(Hn & E2)|[(c & Hc & Hd & E2)|(c & m2 & Hc & Hd & E2 & P2 & D2 & T2)]];
      rewrite E2 in H; cbn [mbind result_bind] in H; [|done|].
    - destruct (ee_segment_cases t m1 X1 X2 X3) as (m3 & E3 & C3).
      rewrite E3 in H. injection H as <-.
      assert (K3 : forall k, k <> "eeIndex" -> k <> "eeStatus" -> k <> "eeDate" ->
                             m3 !! k = m1 !! k)
        by (intros; by eapply ee_segment_keeps).
      rewrite !K3 by done. rewrite S1, S2, S3.
      split; [exact P1|]. split; [exact D1|]. split; [exact T1|].
      split; [eexists; split; [reflexivity|by left]|].
      split; [by left|].
      split; [eexists; split; [reflexivity|repeat first [left | right]]|].
      destruct C3 as [[_ ->]|(c & _ & -> & -> & ->)].
      + rewrite X1, X2, X3.
        repeat split; eexists; (split; [reflexivity|]);
          first [by left | repeat first [left | right]].
      + repeat split; eexists; (split; [reflexivity|]);
          auto using percent_of_shape, date_of_shape, written_ee_status_values.
    - assert (K2 : forall k, k <> "swIndex" -> k <> "swStatus" -> k <> "swDate" ->
                             m2 !! k = m1 !! k)
        by (intros; by eapply sw_segment_keeps).
      destruct (ee_segment_cases t m2) as (m3 & E3 & C3); try by rewrite K2.
      rewrite E3 in H. injection H as <-.
      assert (K3 : forall k, k <> "eeIndex" -> k <> "eeStatus" -> k <> "eeDate" ->
                             m3 !! k = m2 !! k)
        by (intros; by eapply ee_segment_keeps).
      rewrite !K3 by done. rewrite !K2 by done. rewrite P2, D2, T2.
      split; [exact P1|]. split; [exact D1|]. split; [exact T1|].
      split; [eexists; split; [reflexivity|apply percent_of_shape]|].
      split; [right; eexists; split; [reflexivity|apply date_of_shape]|].
      split; [eexists; split; [reflexivity|apply written_status_values]|].
      destruct C3 as [[_ ->]|(c' & _ & -> & -> & ->)].
      + rewrite !K2 by done. rewrite X1, X2, X3.
        repeat split; eexists; (split; [reflexivity|]);
          first [by left | repeat first [left | right]].
      + repeat split; eexists; (split; [reflexivity|]);
          auto using percent_of_shape, date_of_shape, written_ee_status_values. }
  destruct G as ((v1 & G1 & F1) & (v2 & G2 & F2) & (v3 & G3 & F3) & (v4 & G4 & F4)
                 & G5 & (v6 & G6 & F6) & (v7 & G7 & F7) & (v8 & G8 & F8)
                 & (v9 & G9 & F9)).
  intros k v Hk Hv. unfold quality_fields in Hk.
  repeat (apply elem_of_cons in Hk as [->|Hk]); try (by apply elem_of_nil in Hk);
    unfold field_ok;
    (repeat split; intros Hin;
     try (repeat (apply elem_of_cons in Hin as [Hin|Hin]; try discriminate Hin);
          by apply elem_of_nil in Hin);
     try discriminate Hin);
    try congruence.
  destruct G5 as [G5|(v5 & G5 & F5)]; congruence.
Qed.
End QualityOutcome.

(* ===================================================================== *)
(** ** Exceptions and field values of a parse *)
(* ===================================================================== *)

Section ParseOutcome.
Import Py Re Datetime Extractor Outcome.
Context {RT : Runtime}.


Lemma record_quality_fields (now : datetime) (g : rng) (soup : Soup)
  (r : SupplierRecord RT) :
  parse_supplier_html now g soup = Ok r ->
  forall k, k ∈ quality_fields -> exists v, metrics r !! k = Some v /\ field_ok k v.
Proof.
  intros H k Hk.
  destruct (parse_supplier_html_metrics _ _ _ _ H) as (qm & base & Hq & -> & Hb).
  rewrite lookup_union.
  assert (Hbase : base !! k = Some NA).
  { rewrite Hb.
    - unfold quality_fields in Hk.
      repeat (apply elem_of_cons in Hk as [->|Hk]); try reflexivity.
      by apply elem_of_nil in Hk.
    - unfold csr_key. unfold quality_fields in Hk.
      repeat (apply elem_of_cons in Hk as [->|Hk]);
        try (intros [?|[?|?]]; discriminate).
      by apply elem_of_nil in Hk. }
  rewrite Hbase.
  destruct (qm !! k) as [v|] eqn:E.
  - exists v. split; [done|]. by eapply parse_quality_audits_values.
  - exists NA. split; [done|].
    unfold field_ok, percent_or_na, date_or_na, status_values, ee_status_values.
    repeat split; intros _; first [by left | repeat first [left | right]].
Qed.

End ParseOutcome.

Section ParseRaises.
Import Py Re Datetime Extractor Outcome.
Context {RT : Runtime}.

Lemma strptime_calendar (s : string) :
  iso_shape s = true ->
  if calendar_date s then exists d, strptime s = Ok d
  else strptime s = Raise (ValueError s).
Proof.
  intros Hs. unfold strptime, calendar_date. rewrite Hs.
  destruct (valid_date _ _ _); eauto.
Qed.

Lemma expiry_status_outcome (now : datetime) (t : string) :
  match bad_date t with
  | Some s => expiry_status now (search false re_expire t) = Raise (ValueError s)
  | None => exists st, expiry_status now (search false re_expire t) = Ok st
  end.
Proof.
  unfold bad_date, expiry_status.
  destruct (search false re_expire t) as [m|] eqn:E; [|eauto].
  pose proof (strptime_calendar _ (expire_group _ _ E)) as H.
  destruct (calendar_date (group 1 m)).
  - destruct H as [d ->]. simpl. destruct (dt_ltb d now); eauto.
  - by rewrite H.
Qed.

Lemma quality_cert_cell_outcome (now : datetime) (d : SupplierRecord RT) (t : string) :
  match (if contains "IATF" t || contains "ISO" t then bad_date t else None) with
  | Some s => quality_cert_cell now d t = Raise (ValueError s)
  | None => exists d', quality_cert_cell now d t = Ok d'
  end.
Proof.
  unfold quality_cert_cell. destruct (_ || _); [|eauto].
  pose proof (expiry_status_outcome now t) as H.
  destruct (bad_date t) as [s|].
  - by rewrite H.
  - destruct H as [[st c] ->]. simpl. eauto.
Qed.

Lemma env_cert_cell_outcome (now : datetime) (d : SupplierRecord RT) (t : string) :
  match (if contains "ISO 14001" t then bad_date t else None) with
  | Some s => env_cert_cell now d t = Raise (ValueError s)
  | None => exists d', env_cert_cell now d t = Ok d'
  end.
Proof.
  unfold env_cert_cell. destruct (contains _ _); [|eauto].
  pose proof (expiry_status_outcome now t) as H.
  destruct (bad_date t) as [s|].
  - by rewrite H.
  - destruct H as [[st c] ->]. simpl. eauto.
Qed.

Lemma for_each_outcome {S : Type} (body : S -> string -> result S)
  (kw : string -> bool) (l : list string) :
  (forall d t, match (if kw t then bad_date t else None) with
               | Some s => body d t = Raise (ValueError s)
               | None => exists d', body d t = Ok d'
               end) ->
  forall d, match head (omap bad_date (List.filter kw l)) with
            | Some s => for_each body l d = Raise (ValueError s)
            | None => exists d', for_each body l d = Ok d'
            end.
Proof.
  intros Hb. induction l as [|t l IH]; intros d; simpl; [eauto|].
  specialize (Hb d t). destruct (kw t); simpl.
  - destruct (bad_date t) as [s|]; simpl.
    + by rewrite Hb.
    + destruct Hb as [d' ->]. simpl. apply IH.
  - destruct Hb as [d' ->]. simpl. apply IH.
Qed.

Lemma head_omap_app {A B : Type} (f : A -> option B) (l1 l2 : list A) :
  head (omap f (l1 ++ l2))
  = match head (omap f l1) with
    | Some b => Some b
    | None => head (omap f l2)
    end.
Proof.
  rewrite omap_app. by destruct (omap f l1).
Qed.

End ParseRaises.

(* ===================================================================== *)
(** ** The sections of a parse, one after the other *)
(* ===================================================================== *)

Section Sections.
Import Py Re Datetime Extractor Outcome.
Context {RT : Runtime}.

Lemma parse_supplier_html_steps (now : datetime) (g : rng) (soup : Soup)
  (r : SupplierRecord RT) :
  parse_supplier_html now g soup = Ok r ->
  exists d1 d2 qm,
    for_each (quality_cert_cell now) (quality_cert_cells soup)
      (sem_audit soup (initial_data soup)) = Ok d1
    /\ for_each (env_cert_cell now) (env_cert_cells soup) d1 = Ok d2
    /\ parse_quality_audits soup = Ok qm
    /\ let d5 := after_cells soup d2 in
       let data := (fold_left performance_row (performance_rows soup)
                      (set_metrics d5 (qm ∪ metrics d5), g)).1 in
       r = set_audits data (fill_audits (audits data))
       /\ audits data = audits d5
       /\ metrics r = qm ∪ metrics d5.
Proof.
  unfold parse_supplier_html, parse_sections. intros H.
  destruct (for_each _ (quality_cert_cells soup) _) as [d1|] eqn:E1; [|done].
  simpl in H.
  destruct (for_each _ (env_cert_cells soup) _) as [d2|] eqn:E2; [|done].
  simpl in H.
  destruct (parse_quality_audits soup) as [qm|]; [|done]. simpl in H.
  injection H as <-. exists d1, d2, qm. repeat split; try done.
  - apply performance_rows_rest.
  - simpl. apply performance_rows_rest.
Qed.

Lemma fill_audits_spec (a : list AuditEntry) :
  fill_audits a = a ++ replicate (6 - length a) placeholder.
Proof.
  destruct (decide (length a < 6)%nat) as [Hlt|Hge].
  - apply fill_audits_pads. lia.
  - rewrite fill_audits_full by lia.
    replace (6 - length a)%nat with 0%nat by lia. simpl. by rewrite app_nil_r.
Qed.

(** *** The groups of the grade and of the date in brackets *)

Lemma consumed_cons (a : ascii) (rest : list ascii) :
  consumed (a :: rest) rest = [a].
Proof. exact (consumed_app [a] rest). Qed.

Lemma grade_group (s : string) (c : caps) :
  search false re_grade s = Some c ->
  group 1 c ∈ ["A"; "B"; "C"] /\ isdigit (group 2 c) = true.
Proof.
  unfold search. intros (k & u & H)%search_from_elem.
  unfold re_grade in H. cbn [cat] in H.
  apply elem_of_rmatch_seq in H as (u1 & c1 & c2 & H1 & H2 & ->).
  apply elem_of_rmatch_group in H1 as (c1' & H1 & ->).
  cbn [rmatch] in H1.
  destruct (drop k (chars s)) as [|a s'] eqn:Es; [by apply elem_of_nil in H1|].
  destruct (cls_ok false (CSet ["A"; "B"; "C"]%char) a) eqn:Ea;
    [|by apply elem_of_nil in H1].
  apply list_elem_of_singleton in H1. injection H1 as -> ->.
  apply elem_of_rmatch_seq in H2 as (u2 & c2a & c2b & Hsp & H3 & ->).
  apply rmatch_plus_run in Hsp as (l & -> & _ & _ & ->).
  apply elem_of_rmatch_seq in H3 as (u3 & c3 & c4 & Hd & Hl & ->).
  apply elem_of_rmatch_group in Hd as (c' & Hd & ->).
  apply rmatch_plus_run in Hd as (ld & -> & Hne & Hld & ->).
  unfold lit in Hl. apply rmatch_lit_run in Hl as (-> & ->).
  rewrite consumed_cons, consumed_app.
  unfold group. cbn [app List.find fst snd Nat.eqb]. split.
  - cbn [cls_ok existsb same_char] in Ea.
    destruct (Ascii.eqb "A" a) eqn:EA; [apply Ascii.eqb_eq in EA as <-; left|].
    destruct (Ascii.eqb "B" a) eqn:EB;
      [apply Ascii.eqb_eq in EB as <-; right; left|].
    destruct (Ascii.eqb "C" a) eqn:EC;
      [apply Ascii.eqb_eq in EC as <-; right; right; left|].
    discriminate Ea.
  - by apply isdigit_text.
Qed.

Lemma paren_date_group (s : string) (c : caps) :
  search false re_paren_date s = Some c -> iso_shape (group 1 c) = true.
Proof.
  unfold search. intros (k & u & H)%search_from_elem.
  unfold re_paren_date, lit in H. cbn [cat] in H.
  apply elem_of_rmatch_seq in H as (u1 & c1 & c2 & H1 & H2 & ->).
  apply rmatch_lit_run in H1 as (_ & ->).
  apply elem_of_rmatch_seq in H2 as (u2 & c2a & c2b & Hd & Hl & ->).
  apply elem_of_rmatch_group in Hd as (c' & Hd & ->).
  apply iso_date_run in Hd as (l & -> & Hl' & ->).
  apply rmatch_lit_run in Hl as (_ & ->).
  rewrite consumed_app. cbn [app]. by rewrite group_first.
Qed.

Lemma expire_date_shape (t : string) :
  date_or_na match search false re_expire t with
             | Some m => group 1 m
             | None => NA
             end.
Proof.
  destruct (search false re_expire t) eqn:E; [right|by left].
  by eapply expire_group.
Qed.

Lemma evaluated_date_shape (t : string) :
  date_or_na match search false re_evaluated t with
             | Some m => group 1 m
             | None => NA
             end.
Proof.
  destruct (search false re_evaluated t) eqn:E; [right|by left].
  by eapply evaluated_group.
Qed.

Lemma paren_date_shape (t : string) :
  date_or_na match search false re_paren_date t with
             | Some m => group 1 m
             | None => NA
             end.
Proof.
  destruct (search false re_paren_date t) eqn:E; [right|by left].
  by eapply paren_date_group.
Qed.

(** *** The entry of each section *)

Ltac in_list := repeat first [apply list_elem_of_here | apply list_elem_of_further].

Lemma append_audit_ok (d : SupplierRecord RT) (e : AuditEntry) :
  Forall entry_ok (audits d) -> entry_ok e ->
  Forall entry_ok (audits (append_audit d e)).
Proof.
  intros Hd He. simpl. apply Forall_app. split; [done|]. by constructor.
Qed.

Lemma sem_audit_ok (soup : Soup) (d : SupplierRecord RT) :
  Forall entry_ok (audits d) -> Forall entry_ok (audits (sem_audit soup d)).
Proof.
  intros Hd. unfold sem_audit. destruct (sem_panel soup) as [t|]; [|done].
  pose proof (percent_of_shape t) as Hp. pose proof (date_of_shape t) as Hdt.
  unfold percent_of in Hp. unfold date_of in Hdt.
  destruct (_ || _); [|destruct (contains "Approved" t)];
    (destruct (contains "StoppingParameter" t);
     apply append_audit_ok; [done| |done|]).
  - apply (sem_entry "Not Approved" _ " (Stopping)"); try done; in_list.
  - apply (sem_entry "Not Approved" _ ""); try done; in_list.
  - apply (sem_entry "Approved" _ " (Stopping)"); try done; in_list.
  - apply (sem_entry "Approved" _ ""); try done; in_list.
  - apply (sem_entry "Unknown" _ " (Stopping)"); try done; in_list.
  - apply (sem_entry "Unknown" _ ""); try done; in_list.
Qed.

Lemma quality_cert_cell_ok (now : datetime) (d d' : SupplierRecord RT) (t : string) :
  Forall entry_ok (audits d) -> quality_cert_cell now d t = Ok d' ->
  Forall entry_ok (audits d').
Proof.
  intros Hd. unfold quality_cert_cell. destruct (_ || _); [|by intros [= <-]].
  destruct (expiry_status _ _) as [[st c]|] eqn:E; [|done]. simpl.
  intros [= <-]. apply append_audit_ok; [done|].
  apply cert_entry; [in_list| |apply expire_date_shape].
  destruct (expiry_status_cases _ _ _ E) as [[= -> ->]|[= -> ->]]; in_list.
Qed.

Lemma env_cert_cell_ok (now : datetime) (d d' : SupplierRecord RT) (t : string) :
  Forall entry_ok (audits d) -> env_cert_cell now d t = Ok d' ->
  Forall entry_ok (audits d').
Proof.
  intros Hd. unfold env_cert_cell. destruct (contains _ _); [|by intros [= <-]].
  destruct (expiry_status _ _) as [[st c]|] eqn:E; [|done]. simpl.
  intros [= <-]. apply append_audit_ok; [done|].
  apply cert_entry; [in_list| |apply expire_date_shape].
  destruct (expiry_status_cases _ _ _ E) as [[= -> ->]|[= -> ->]]; in_list.
Qed.

Lemma logistic_cell_ok (d : SupplierRecord RT) (t : string) :
  Forall entry_ok (audits d) -> Forall entry_ok (audits (logistic_cell d t)).
Proof.
  intros Hd. unfold logistic_cell. destruct (_ && _); [|done].
  destruct (search false re_grade t) as [m|] eqn:E; [|done].
  destruct (grade_group _ _ E) as [Hg Hp].
  apply append_audit_ok; [done|].
  apply logistic_entry; [|done|apply paren_date_shape].
  repeat (apply elem_of_cons in Hg as [->|Hg]); [| | |by apply elem_of_nil in Hg];
    simpl; in_list.
Qed.

Lemma reach_cell_ok (d : SupplierRecord RT) (t : string) :
  Forall entry_ok (audits d) -> Forall entry_ok (audits (reach_cell d t)).
Proof.
  intros Hd. unfold reach_cell. destruct (contains _ _); [|done].
  apply append_audit_ok; [done|]. apply reach_entry, evaluated_date_shape.
Qed.

Lemma csr_cell_ok (d : SupplierRecord RT) (t : string) :
  Forall entry_ok (audits d) -> Forall entry_ok (audits (csr_cell d t)).
Proof.
  intros Hd. unfold csr_cell. destruct (search false re_percent t) as [m|]; [|done].
  pose proof (csr_entry (int_of_digits (group 1 m)) _ (evaluated_date_shape t)) as He.
  destruct (csr_class _) as [cls cst]. simpl.
  apply Forall_app. split; [done|]. by constructor.
Qed.

End Sections.

(* ===================================================================== *)
(** ** The order of the audits and the CSR entries of the metrics *)
(* ===================================================================== *)

Section Titles.
Import Py Re Datetime Extractor Outcome.
Context {RT : Runtime}.

Lemma fold_left_titles (f : SupplierRecord RT -> string -> SupplierRecord RT)
  (sel : string -> list string) (l : list string) (d : SupplierRecord RT) :
  (forall d t, titles (f d t) = titles d ++ sel t) ->
  titles (fold_left f l d) = titles d ++ (l ≫= sel).
Proof.
  intros Hf. revert d. induction l as [|t l IH]; intros d; cbn [fold_left].
  - by rewrite app_nil_r.
  - rewrite IH, Hf, bind_cons, <- app_assoc. done.
Qed.

Lemma for_each_titles (body : SupplierRecord RT -> string -> result (SupplierRecord RT))
  (sel : string -> list string) (l : list string) (d d' : SupplierRecord RT) :
  (forall d t d', body d t = Ok d' -> titles d' = titles d ++ sel t) ->
  for_each body l d = Ok d' -> titles d' = titles d ++ (l ≫= sel).
Proof.
  intros Hb. revert d. induction l as [|t l IH]; intros d; cbn [for_each].
  - intros [= <-]. by rewrite app_nil_r.
  - destruct (body d t) as [d1|] eqn:E; [|done]. cbn [mbind result_bind]. intros H.
    rewrite (IH _ H), (Hb _ _ _ E), bind_cons, <- app_assoc. done.
Qed.

Lemma titles_append (d : SupplierRecord RT) (e : AuditEntry) :
  titles (append_audit d e) = titles d ++ [title e].
Proof. unfold titles. simpl. by rewrite fmap_app. Qed.

Lemma sem_audit_titles (soup : Soup) (d : SupplierRecord RT) :
  titles (sem_audit soup d)
  = titles d ++ match sem_panel soup with Some _ => ["SEM"] | None => [] end.
Proof.
  unfold sem_audit. destruct (sem_panel soup) as [t|]; [|by rewrite app_nil_r].
  destruct (_ || _); [|destruct (contains "Approved" t)];
    by rewrite titles_append.
Qed.

Lemma quality_cert_cell_titles (now : datetime) (d : SupplierRecord RT) (t : string)
  (d' : SupplierRecord RT) :
  quality_cert_cell now d t = Ok d' ->
  titles d' = titles d
    ++ (if contains "IATF" t || contains "ISO" t then ["Quality Cert"] else []).
Proof.
  unfold quality_cert_cell. destruct (_ || _).
  - destruct (expiry_status _ _) as [[st c]|]; [|done]. simpl.
    intros [= <-]. by rewrite titles_append.
  - intros [= <-]. by rewrite app_nil_r.
Qed.

Lemma env_cert_cell_titles (now : datetime) (d : SupplierRecord RT) (t : string)
  (d' : SupplierRecord RT) :
  env_cert_cell now d t = Ok d' ->
  titles d' = titles d ++ (if contains "ISO 14001" t then ["ISO 14001"] else []).
Proof.
  unfold env_cert_cell. destruct (contains _ _).
  - destruct (expiry_status _ _) as [[st c]|]; [|done]. simpl.
    intros [= <-]. by rewrite titles_append.
  - intros [= <-]. by rewrite app_nil_r.
Qed.

(** The two tests before the search of the grade change nothing: the
    pattern is found neither in the empty text nor in N/A. *)
Lemma logistic_cell_titles (d : SupplierRecord RT) (t : string) :
  titles (logistic_cell d t)
  = titles d ++ (if found re_grade t then ["Logistic"] else []).
Proof.
  unfold logistic_cell, found.
  destruct (String.eqb t "") eqn:E1; simpl.
  { apply String.eqb_eq in E1 as ->. by rewrite app_nil_r. }
  destruct (String.eqb t NA) eqn:E2; simpl.
  { apply String.eqb_eq in E2 as ->. by rewrite app_nil_r. }
  destruct (search false re_grade t); [|by rewrite app_nil_r].
  by rewrite titles_append.
Qed.

Lemma reach_cell_titles (d : SupplierRecord RT) (t : string) :
  titles (reach_cell d t)
  = titles d ++ (if contains "Compliant" t then ["REACH"] else []).
Proof.
  unfold reach_cell. destruct (contains _ _); [|by rewrite app_nil_r].
  by rewrite titles_append.
Qed.

Lemma csr_cell_titles (d : SupplierRecord RT) (t : string) :
  titles (csr_cell d t)
  = titles d ++ (if found re_percent t then ["CSR"] else []).
Proof.
  unfold csr_cell, found.
  destruct (search false re_percent t); [|by rewrite app_nil_r].
  destruct (csr_class _) as [cls cst]. unfold titles. simpl.
  by rewrite fmap_app.
Qed.

Lemma section_titles_spec (now : datetime) (g : rng) (soup : Soup)
  (r : SupplierRecord RT) :
  parse_supplier_html now g soup = Ok r ->
  titles r = section_titles soup
             ++ replicate (6 - length (section_titles soup)) "N/A".
Proof.
  intros H.
  destruct (parse_supplier_html_steps _ _ _ _ H)
    as (d1 & d2 & qm & E1 & E2 & _ & Hr & Ha & _).
  assert (T : titles (after_cells soup d2) = section_titles soup).
  { unfold after_cells.
    rewrite (fold_left_titles _ _ _ _ csr_cell_titles).
    rewrite (fold_left_titles _ _ _ _ reach_cell_titles).
    rewrite (fold_left_titles _ _ _ _ logistic_cell_titles).
    rewrite (for_each_titles _ _ _ _ _ (env_cert_cell_titles now) E2).
    rewrite (for_each_titles _ _ _ _ _ (quality_cert_cell_titles now) E1).
    rewrite sem_audit_titles. unfold titles at 1.
    destruct (initial_data_fields soup) as (-> & _).
    unfold section_titles. cbn [fmap list_fmap app].
    by rewrite <- !app_assoc. }
  rewrite Hr. unfold titles in *. cbn [audits set_audits].
  rewrite Ha, fill_audits_spec, fmap_app, fmap_replicate, T.
  by rewrite <- T, length_fmap.
Qed.

End Titles.

(* ===================================================================== *)
(** ** The keys of the metrics and the CSR entries *)
(* ===================================================================== *)

Section MetricKeys.
Import Py Re Datetime Extractor Outcome.
Context {RT : Runtime}.

(** parse_quality_audits writes under the nine quality keys only. *)
Lemma parse_quality_audits_keeps (soup : Soup) (qm : gmap string string) (k : string) :
  parse_quality_audits soup = Ok qm -> k ∉ quality_fields ->
  qm !! k = default_quality_metrics !! k.
Proof.
  intros H Hk. unfold quality_fields in Hk.
  repeat (apply not_elem_of_cons in Hk as [? Hk]).
  unfold parse_quality_audits in H. destruct (audit_panel soup) as [t|].
  - destruct (sma_segment t _) as [m1|] eqn:E1; [|done]. simpl in H.
    destruct (sw_segment t m1) as [m2|] eqn:E2; [|done]. simpl in H.
    rewrite (ee_segment_keeps t k m2 qm) by done.
    rewrite (sw_segment_keeps t k m1 m2) by done.
    by rewrite (sma_segment_keeps t k default_quality_metrics m1).
  - by injection H as <-.
Qed.

Lemma csr_cell_written (d : SupplierRecord RT) (t : string) :
  match csr_written t with
  | Some (v, s, dt) =>
      metrics (csr_cell d t) !! "csr" = Some v
      /\ metrics (csr_cell d t) !! "csrStatus" = Some s
      /\ metrics (csr_cell d t) !! "csrDate" = Some dt
  | None => csr_cell d t = d
  end.
Proof.
  unfold csr_written, csr_cell.
  destruct (search false re_percent t) as [m|]; [|done].
  destruct (csr_class _) as [cls cst]. simpl.
  repeat first [rewrite lookup_insert_eq | rewrite lookup_insert_ne by done].
  done.
Qed.

(** The entries csr, csrStatus and csrDate after the CSR cells. *)
Lemma csr_cells_written (l : list string) (d : SupplierRecord RT) :
  let d' := fold_left csr_cell l d in
  (metrics d' !! "csr", metrics d' !! "csrStatus", metrics d' !! "csrDate")
  = match last (omap csr_written l) with
    | Some (v, s, dt) => (Some v, Some s, Some dt)
    | None => (metrics d !! "csr", metrics d !! "csrStatus", metrics d !! "csrDate")
    end.
Proof.
  revert d. induction l as [|t l IH]; intros d; [done|].
  cbn [fold_left omap list_omap]. cbv zeta in *. rewrite IH.
  pose proof (csr_cell_written d t) as W.
  destruct (csr_written t) as [[[v s] dt]|].
  - rewrite last_cons. destruct (last (omap csr_written l)) as [[[v' s'] dt']|]; [done|].
    by destruct W as (-> & -> & ->).
  - by rewrite W.
Qed.

Lemma before_csr_metrics (now : datetime) (soup : Soup) (d1 d2 : SupplierRecord RT) :
  for_each (quality_cert_cell now) (quality_cert_cells soup)
    (sem_audit soup (initial_data soup)) = Ok d1 ->
  for_each (env_cert_cell now) (env_cert_cells soup) d1 = Ok d2 ->
  metrics (fold_left reach_cell (reach_cells soup)
             (fold_left logistic_cell (logistic_cells soup) d2))
  = default_metrics.
Proof.
  intros E1 E2.
  assert (R0 : same_rest (initial_data soup) (sem_audit soup (initial_data soup)))
    by apply sem_audit_rest.
  assert (R1 : same_rest (initial_data soup) d1).
  { revert E1. apply for_each_preserves; [|exact R0].
    intros s x s' Hs Hx. eapply same_rest_trans; [exact Hs|].
    eapply quality_cert_cell_rest, Hx. }
  assert (R2 : same_rest (initial_data soup) d2).
  { revert E2. apply for_each_preserves; [|exact R1].
    intros s x s' Hs Hx. eapply same_rest_trans; [exact Hs|].
    eapply env_cert_cell_rest, Hx. }
  assert (R4 : same_rest (initial_data soup)
                 (fold_left reach_cell (reach_cells soup)
                    (fold_left logistic_cell (logistic_cells soup) d2))).
  { apply (fold_left_preserves (same_rest (initial_data soup))).
    { intros s x Hs. eapply same_rest_trans; [exact Hs|]. apply reach_cell_rest. }
    apply (fold_left_preserves (same_rest (initial_data soup))); [|exact R2].
    intros s x Hs. eapply same_rest_trans; [exact Hs|]. apply logistic_cell_rest. }
  destruct R4 as (-> & _). by destruct (initial_data_fields soup) as (_ & -> & _).
Qed.

Lemma record_csr_fields (now : datetime) (g : rng) (soup : Soup)
  (r : SupplierRecord RT) :
  parse_supplier_html now g soup = Ok r ->
  (metrics r !! "csr", metrics r !! "csrStatus", metrics r !! "csrDate")
  = match last (omap csr_written (csr_cells soup)) with
    | Some (v, s, dt) => (Some v, Some s, Some dt)
    | None => (Some NA, Some NA, Some NA)
    end.
Proof.
  intros H.
  destruct (parse_supplier_html_steps _ _ _ _ H)
    as (d1 & d2 & qm & E1 & E2 & Eq & _ & _ & ->).
  rewrite !lookup_union_r
    by (rewrite (parse_quality_audits_keeps _ _ _ Eq); [done|];
        unfold quality_fields; intros Hin;
        repeat (apply elem_of_cons in Hin as [Hin|Hin]; [discriminate Hin|]);
        by apply elem_of_nil in Hin).
  unfold after_cells.
  pose proof (csr_cells_written (csr_cells soup)
                (fold_left reach_cell (reach_cells soup)
                   (fold_left logistic_cell (logistic_cells soup) d2))) as C.
  cbv zeta in C. rewrite C, (before_csr_metrics _ _ _ _ E1 E2). done.
Qed.

Lemma csr_written_shape (t v s dt : string) :
  csr_written t = Some (v, s, dt) ->
  (exists n, v = str_of_N n +:+ "%" /\ s = snd (csr_class n))
  /\ s ∈ ["Approved"; "Pending"; "Not Approved"] /\ date_or_na dt.
Proof.
  unfold csr_written. destruct (search false re_percent t) as [m|]; [|done].
  intros [= <- <- <-]. split; [eauto|]. split; [|apply evaluated_date_shape].
  unfold csr_class. destruct (80 <=? _)%N; [left|].
  destruct (60 <=? _)%N; [right; left|right; right; left].
Qed.


Lemma default_metrics_other (k : string) :
  k ∉ metric_keys -> default_metrics !! k = None
                     /\ default_quality_metrics !! k = None.
Proof.
  intros Hk. unfold metric_keys in Hk.
  repeat (apply not_elem_of_cons in Hk as [? Hk]).
  unfold default_metrics, default_quality_metrics.
  by rewrite !lookup_insert_ne, lookup_empty by done.
Qed.

(** X7 -- The metrics of every returned record hold the same fifteen
    keys, whatever the page: the nine quality keys, 'sw Date', the three
    csr keys, saq and saqStatus.  No section writes saq or saqStatus: both
    are always N/A. *)
Theorem X7_metrics_keys_fixed (now : datetime) (g : rng) (soup : Soup)
  (r : SupplierRecord RT) :
  parse_supplier_html now g soup = Ok r ->
  (forall k, is_Some (metrics r !! k) <-> k ∈ metric_keys)
  /\ metrics r !! "saq" = Some "N/A"
  /\ metrics r !! "saqStatus" = Some "N/A".
Proof.
  intros H.
  pose proof (record_quality_fields _ _ _ _ H) as Q.
  pose proof (record_csr_fields _ _ _ _ H) as C.
  destruct (parse_supplier_html_metrics _ _ _ _ H) as (qm & base & Eq & Em & Hb).
  assert (Hs : metrics r !! "saq" = Some "N/A"
               /\ metrics r !! "saqStatus" = Some "N/A").
  { rewrite Em. rewrite !lookup_union_r
      by (rewrite (parse_quality_audits_keeps _ _ _ Eq); [done|];
          unfold quality_fields; intros Hin;
          repeat (apply elem_of_cons in Hin as [Hin|Hin]; [discriminate Hin|]);
          by apply elem_of_nil in Hin).
    rewrite !Hb by (unfold csr_key; intros [?|[?|?]]; discriminate). done. }
  split; [|exact Hs]. intros k. split.
  - intros Hk. destruct (decide (k ∈ metric_keys)) as [|Hn]; [done|].
    exfalso. destruct (default_metrics_other k Hn) as [D1 D2].
    rewrite Em, lookup_union_r in Hk.
    + rewrite Hb, D1 in Hk; [by destruct Hk|].
      unfold csr_key. intros Hc. apply Hn. unfold metric_keys.
      destruct Hc as [-> | [-> | ->]];
        repeat first [apply list_elem_of_here | apply list_elem_of_further].
    + rewrite (parse_quality_audits_keeps _ _ _ Eq); [done|].
      intros Hq. apply Hn. unfold quality_fields in Hq. unfold metric_keys.
      repeat (apply elem_of_cons in Hq as [->|Hq]);
        try (by apply elem_of_nil in Hq);
        repeat first [apply list_elem_of_here | apply list_elem_of_further].
  - intros Hk.
    assert (Hcsr : is_Some (metrics r !! "csr") /\ is_Some (metrics r !! "csrStatus")
                   /\ is_Some (metrics r !! "csrDate")).
    { destruct (last (omap csr_written (csr_cells soup))) as [[[v s] dt]|];
        injection C as -> -> ->; eauto. }
    destruct Hs as [S1 S2]. destruct Hcsr as (C1 & C2 & C3).
    assert (Hsw : metrics r !! "sw Date" = Some NA).
    { rewrite Em. apply lookup_union_Some_l.
      exact (parse_quality_audits_sw_Date soup qm Eq). }
    unfold metric_keys in Hk.
    repeat (apply elem_of_cons in Hk as [->|Hk]);
      try (by apply elem_of_nil in Hk);
      try (by rewrite ?S1, ?S2, ?Hsw); try done;
      match goal with
      | |- is_Some (metrics r !! ?k) =>
          destruct (Q k) as (v & -> & _); [|done]
      end;
      unfold quality_fields;
      repeat first [apply list_elem_of_here | apply list_elem_of_further].
Qed.
End MetricKeys.

(* ===================================================================== *)
(** ** The performance rows and the generator *)
(* ===================================================================== *)

Section Rows.
Import Py Re Datetime Extractor Outcome.
Context {RT : Runtime}.

(** The series do not depend on the state of the generator before the
    call: it is seeded first. *)
Lemma generate_series_seeded (g1 g2 : rng) (qa pa : string) :
  (generate_series g1 qa pa).1 = (generate_series g2 qa pa).1.
Proof.
  unfold generate_series.
  destruct (to_float qa) as [qv|]; [|done].
  destruct (to_float pa) as [pv|]; [|done].
  destruct (jitter 12 qv pv _ [] []) as [[qs ps] g'].
  destruct (if gt0 qv then set_last qs qv else Some qs); [|done].
  by destruct (if gt0 pv then set_last ps pv else Some ps).
Qed.

Lemma performance_row_seeded (d : SupplierRecord RT) (g1 g2 : rng) (row : Row) :
  (performance_row (d, g1) row).1 = (performance_row (d, g2) row).1.
Proof.
  unfold performance_row. destruct (15 <=? _)%nat; [|done].
  destruct (_ || _ || _); [done|]. destruct (_ || _); [|done].
  cbn [fst snd].
  pose proof (generate_series_seeded g1 g2 (nth 7 (cells row) "")
                (nth 3 (cells row) "")) as E.
  destruct (generate_series g1 _ _) as [o1 g1'].
  destruct (generate_series g2 _ _) as [o2 g2']. simpl in E. subst o2.
  by destruct o1 as [[q p]|].
Qed.

Lemma performance_rows_seeded (rows : list Row) (d : SupplierRecord RT)
  (g1 g2 : rng) :
  (fold_left performance_row rows (d, g1)).1
  = (fold_left performance_row rows (d, g2)).1.
Proof.
  revert d g1 g2. induction rows as [|row rows IH]; intros d g1 g2; [done|].
  cbn [fold_left]. pose proof (performance_row_seeded d g1 g2 row) as E.
  destruct (performance_row (d, g1) row) as [d1 g1'].
  destruct (performance_row (d, g2) row) as [d2 g2']. simpl in E. subst d2.
  apply IH.
Qed.

(** X8 -- What parse_supplier_html returns or raises does not depend on
    the state of the random generator when it is called: every supplier-
    total row seeds the generator before it draws, so the same page at
    the same time gives the same record, series included, in every
    run. *)
Theorem X8_parse_independent_of_generator (now : datetime) (g1 g2 : rng)
  (soup : Soup) :
  parse_supplier_html now g1 soup = parse_supplier_html now g2 soup.
Proof.
  unfold parse_supplier_html, parse_sections.
  destruct (for_each _ (quality_cert_cells soup) _) as [d1|]; [|done].
  cbn [mbind result_bind].
  destruct (for_each _ (env_cert_cells soup) d1) as [d2|]; [|done].
  cbn [mbind result_bind].
  destruct (parse_quality_audits soup) as [qm|]; [|done].
  cbn [mbind result_bind].
  by rewrite (performance_rows_seeded _ _ g1 g2).
Qed.

Lemma performance_row_usable (st : SupplierRecord RT * rng) (row : Row) :
  usable_row row = true ->
  exists q p,
    (forall g, (generate_series g (nth 7 (cells row) "") (nth 3 (cells row) "")).1
               = Some (q, p))
    /\ qpm (performance_row st row).1 = q
    /\ ppm (performance_row st row).1 = p.
Proof.
  unfold usable_row, supplier_total_row, performance_row.
  intros [[[[H15 Hs]%andb_prop Ht]%andb_prop Hq]%andb_prop Hp]%andb_prop.
  rewrite H15. apply negb_true_iff in Hs. rewrite Hs, Ht.
  apply bool_decide_eq_true in Hq as [qv Hq].
  apply bool_decide_eq_true in Hp as [pv Hp].
  destruct (generate_series_converted st.2 _ _ qv pv Hq Hp)
    as (qs & ps & E & _).
  exists {| months := MONTHS; values := qs |}, {| months := MONTHS; values := ps |}.
  split.
  - intros g. by rewrite (generate_series_seeded g st.2), E.
  - by rewrite E.
Qed.

End Rows.

(* ===================================================================== *)
(** ** The day of expiry *)
(* ===================================================================== *)

Section ExpiryDay.
Import Py Re Datetime Extractor Outcome.
Context {RT : Runtime}.

Lemma strptime_midnight (s : string) (d : datetime) :
  strptime s = Ok d -> micros d = 0.
Proof.
  unfold strptime. destruct (iso_shape s); [|done].
  destruct (valid_date _ _ _); [|done]. by intros [= <-].
Qed.

Lemma dt_ltb_same_day (a b : datetime) :
  year a = year b -> month a = month b -> day a = day b ->
  dt_ltb a b = (micros a <? micros b).
Proof.
  intros Hy Hm Hd. unfold dt_ltb. rewrite Hy, Hm, Hd.
  rewrite !Z.ltb_irrefl, !Z.eqb_refl. done.
Qed.

End ExpiryDay.

(* ===================================================================== *)
(** ** The identity of the supplier *)
(* ===================================================================== *)

Section Identity.
Import Py Re Datetime Extractor Outcome.
Context {RT : Runtime}.

(** *** split and strip *)

Lemma split_comma_spec (s l n : string) :
  split_comma s = Some (l, n) ->
  s = l +:+ "," +:+ n /\ ","%char ∉ chars l.
Proof.
  revert l. induction s as [|a s IH]; intros l; simpl; [done|].
  destruct (Ascii.eqb a ",") eqn:E.
  - apply Ascii.eqb_eq in E as ->. intros [= <- <-]. split; [done|].
    apply not_elem_of_nil.
  - destruct (split_comma s) as [[l' n']|]; [|done]. intros [= <- <-].
    destruct (IH l' eq_refl) as [-> Hl]. split; [done|].
    cbn [chars String.list_ascii_of_string]. apply not_elem_of_cons.
    split; [|exact Hl]. intros <-. by rewrite Ascii.eqb_refl in E.
Qed.

Lemma contains_char (c : ascii) (s : string) :
  contains (String c "") s = true -> c ∈ chars s.
Proof.
  induction s as [|a s IH]; simpl; [done|].
  intros [H|H]%orb_prop.
  - destruct (Ascii.ascii_dec c a) as [->|]; [left|discriminate].
  - right. by apply IH.
Qed.

Lemma lstrip_chars_suffix (l : list ascii) :
  exists sp, l = sp ++ lstrip_chars l.
Proof.
  induction l as [|a l [sp IH]]; simpl; [by exists []|].
  destruct (is_space a); [|by exists []].
  exists (a :: sp). simpl. by rewrite <- IH.
Qed.

Lemma lstrip_chars_head (l : list ascii) (a : ascii) (l' : list ascii) :
  lstrip_chars l = a :: l' -> is_space a = false.
Proof.
  induction l as [|b l IH]; simpl; [done|].
  destruct (is_space b) eqn:E; [exact IH|]. by intros [= <- _].
Qed.

Lemma chars_text (l : list ascii) : chars (text l) = l.
Proof. apply String.list_ascii_of_string_of_list_ascii. Qed.

Lemma chars_strip (s : string) :
  chars (strip s) = reverse (lstrip_chars (reverse (lstrip_chars (chars s)))).
Proof. unfold strip, reverse. by rewrite chars_text, !rev_alt. Qed.

Lemma strip_chars_subset (s : string) (a : ascii) :
  a ∈ chars (strip s) -> a ∈ chars s.
Proof.
  rewrite chars_strip. intros H. apply (proj1 (elem_of_reverse _ _)) in H.
  destruct (lstrip_chars_suffix (reverse (lstrip_chars (chars s)))) as [sp1 E1].
  assert (H1 : a ∈ reverse (lstrip_chars (chars s))).
  { rewrite E1. apply elem_of_app. by right. }
  apply (proj1 (elem_of_reverse _ _)) in H1.
  destruct (lstrip_chars_suffix (chars s)) as [sp2 E2].
  rewrite E2. apply elem_of_app. by right.
Qed.

Lemma strip_trimmed (s : string) : trimmed (strip s) = true.
Proof.
  unfold trimmed. rewrite chars_strip.
  set (x := lstrip_chars (chars s)).
  destruct (lstrip_chars (reverse x)) as [|b y] eqn:Ey; [done|].
  pose proof (lstrip_chars_head _ _ _ Ey) as Hb.
  destruct (lstrip_chars_suffix (reverse x)) as [sp Es]. rewrite Ey in Es.
  apply andb_true_intro. split.
  - (* the first character of the result is the first of [x] *)
    assert (Ex : x = reverse (b :: y) ++ reverse sp).
    { rewrite <- reverse_app, <- Es. by rewrite reverse_involutive. }
    destruct (reverse (b :: y)) as [|a z] eqn:Er.
    { apply (f_equal (@length ascii)) in Er. rewrite length_reverse in Er.
      discriminate Er. }
    subst x. simpl in Ex. rewrite (lstrip_chars_head _ _ _ Ex). done.
  - rewrite last_reverse. simpl. by rewrite Hb.
Qed.

(** *** The sections leave the identity alone *)

Lemma sem_audit_identity (soup : Soup) (d : SupplierRecord RT) :
  identity (sem_audit soup d) = identity d.
Proof.
  unfold sem_audit. destruct (sem_panel soup); [|done].
  destruct (_ || _); [done|]. by destruct (contains _ _).
Qed.

Lemma quality_cert_cell_identity now (d d' : SupplierRecord RT) (t : string) :
  quality_cert_cell now d t = Ok d' -> identity d' = identity d.
Proof.
  unfold quality_cert_cell. destruct (_ || _); [|by intros [= <-]].
  destruct (expiry_status _ _) as [[s c]|]; [|done]. simpl. by intros [= <-].
Qed.

Lemma env_cert_cell_identity now (d d' : SupplierRecord RT) (t : string) :
  env_cert_cell now d t = Ok d' -> identity d' = identity d.
Proof.
  unfold env_cert_cell. destruct (contains _ _); [|by intros [= <-]].
  destruct (expiry_status _ _) as [[s c]|]; [|done]. simpl. by intros [= <-].
Qed.

Lemma logistic_cell_identity (d : SupplierRecord RT) (t : string) :
  identity (logistic_cell d t) = identity d.
Proof.
  unfold logistic_cell. destruct (_ && _); [|done].
  by destruct (search _ _ _).
Qed.

Lemma reach_cell_identity (d : SupplierRecord RT) (t : string) :
  identity (reach_cell d t) = identity d.
Proof. unfold reach_cell. by destruct (contains _ _). Qed.

Lemma csr_cell_identity (d : SupplierRecord RT) (t : string) :
  identity (csr_cell d t) = identity d.
Proof.
  unfold csr_cell. destruct (search _ _ _); [|done].
  by destruct (csr_class _).
Qed.

Lemma performance_row_identity (st : SupplierRecord RT * rng) (row : Row) :
  identity (performance_row st row).1 = identity st.1.
Proof.
  unfold performance_row. destruct (15 <=? _)%nat; [|done].
  simpl. destruct (_ || _ || _); [done|]. destruct (_ || _); [|done].
  by destruct (generate_series _ _ _) as [[[q p]|] g].
Qed.

Lemma parse_supplier_html_identity (now : datetime) (g : rng) (soup : Soup)
  (r : SupplierRecord RT) :
  parse_supplier_html now g soup = Ok r ->
  identity r = identity (initial_data soup).
Proof.
  intros H.
  destruct (parse_supplier_html_steps _ _ _ _ H)
    as (d1 & d2 & qm & E1 & E2 & _ & Hr & _ & _).
  cbv zeta in Hr. rewrite Hr.
  change (identity (set_audits ?d ?a)) with (identity d).
  set (P := fun d : SupplierRecord RT => identity d = identity (initial_data soup)).
  change (P (fold_left performance_row (performance_rows soup)
               (set_metrics (after_cells soup d2)
                  (qm ∪ metrics (after_cells soup d2)), g)).1).
  apply (fold_left_preserves (fun st : SupplierRecord RT * rng => P st.1)).
  { intros st row Hst. unfold P. by rewrite performance_row_identity. }
  unfold P. cbn [fst].
  change (identity (set_metrics ?d ?a)) with (identity d).
  unfold after_cells.
  apply (fold_left_preserves P);
    [intros; unfold P; by rewrite csr_cell_identity|].
  apply (fold_left_preserves P);
    [intros; unfold P; by rewrite reach_cell_identity|].
  apply (fold_left_preserves P);
    [intros; unfold P; by rewrite logistic_cell_identity|].
  revert E2. apply (for_each_preserves P).
  { intros s x s' Hs Hx. unfold P. by rewrite (env_cert_cell_identity _ _ _ _ Hx). }
  revert E1. apply (for_each_preserves P).
  { intros s x s' Hs Hx. unfold P.
    by rewrite (quality_cert_cell_identity _ _ _ _ Hx). }
  unfold P. apply sem_audit_identity.
Qed.

End Identity.

(* ===================================================================== *)
(** ** The index of a run of the extractor *)
(* ===================================================================== *)

Section Index.
Import Py Re Datetime Extractor Outcome Report.
Context {RT : Runtime}.

Lemma parse_supplier_html_parmaId (now : datetime) (g : rng) (soup : Soup)
  (r : SupplierRecord RT) :
  parse_supplier_html now g soup = Ok r -> parmaId r = rec_id r.
Proof.
  intros H. pose proof (parse_supplier_html_identity _ _ _ _ H) as I.
  unfold identity in I. injection I as -> -> _ _ _ _ _ _ _.
  unfold initial_data. by destruct (split_comma _) as [[l n]|].
Qed.

Lemma generate_suppliers_index_from (l : list (SupplierRecord RT))
  (index : list IndexEntry) :
  fold_left (fun index supplier =>
               index ++ [{| entry_id := rec_id supplier;
                            entry_parmaId := parmaId supplier;
                            entry_name := name supplier |}]) l index
  = index ++ ((fun s => {| entry_id := rec_id s; entry_parmaId := parmaId s;
                           entry_name := name s |}) <$> l).
Proof.
  revert index. induction l as [|s l IH]; intros index; cbn [fold_left].
  - by rewrite app_nil_r.
  - rewrite IH, <- app_assoc. done.
Qed.

(** The records after the loop: those of the files that were read and
    whose parse returned, whatever the writes did. *)
Lemma main_files_records (output_dir : string) (can_open : string -> bool)
  (files : list (HtmlFile RT))
  (st : list (SupplierRecord RT) * list (string * SupplierRecord RT)) :
  (fold_left (main_file output_dir can_open) files st).1
  = st.1 ++ omap (fun f => soup ← page f;
                           returned id (parse_supplier_html (parse_time f)
                                          (generator f) soup)) files.
Proof.
  revert st. induction files as [|f files IH]; intros st; cbn [fold_left].
  - by rewrite app_nil_r.
  - rewrite IH. cbn [omap list_omap]. unfold main_file.
    destruct (page f) as [soup|]; cbn [mbind option_bind]; [|done].
    destruct (parse_supplier_html _ _ soup) as [r|e]; cbn [returned]; [|done].
    destruct (can_open _); cbn [fst]; by rewrite <- app_assoc.
Qed.

Lemma omap_filter {A B : Type} (p : A -> bool) (f : A -> option B) (l : list A) :
  omap f (List.filter p l) = omap (fun x => if p x then f x else None) l.
Proof.
  induction l as [|x l IH]; [done|]. cbn [List.filter omap list_omap].
  destruct (p x); cbn [omap list_omap]; by rewrite IH.
Qed.

Lemma parsed_records_parmaId (listing : list (HtmlFile RT)) :
  Forall (fun r => parmaId r = rec_id r) (parsed_records listing).
Proof.
  apply Forall_forall. intros r Hr. unfold parsed_records in Hr.
  apply list_elem_of_omap in Hr as (f & _ & Hf).
  destruct (endswith _ _); [|done].
  destruct (page f) as [soup|]; [|done]. cbn [mbind option_bind] in Hf.
  destruct (parse_supplier_html _ _ soup) as [r'|] eqn:E; [|done].
  injection Hf as <-. by eapply parse_supplier_html_parmaId.
Qed.

(** X12 -- The index of a run lists the records of the files of the input
    directory whose name ends in .html, that could be read and whose
    parse returned: one entry for each, in the order of the listing, with
    the id of the record as id and as parmaId, and its name.  A file
    whose parse raised is left out, a record whose own JSON file could
    not be written is still listed, and two files of the same supplier
    give two entries.  No index is written when there is no such record. *)
Theorem X12_index_lists_parsed_records (output_dir : string)
  (can_open : string -> bool) (listing : list (HtmlFile RT)) :
  index (main output_dir can_open listing)
  = match parsed_records listing with
    | [] => None
    | records =>
        Some ((fun r => {| entry_id := rec_id r; entry_parmaId := rec_id r;
                           entry_name := name r |}) <$> records)
    end.
Proof.
  pose proof (parsed_records_parmaId listing) as P.
  unfold parsed_records in *. rewrite <- omap_filter in *. unfold main.
  set (files := List.filter _ listing) in *.
  assert (E : (fold_left (main_file output_dir can_open) files ([], [])).1
              = omap (fun f => soup ← page f;
                               returned id (parse_supplier_html (parse_time f)
                                              (generator f) soup)) files)
    by apply main_files_records.
  destruct files as [|f files]; [done|].
  cbn [index]. rewrite E. clear E.
  set (records := omap _ (f :: files)) in *.
  destruct records as [|r records]; [done|].
  unfold generate_suppliers_index. rewrite generate_suppliers_index_from.
  cbn [app]. f_equal. apply Forall_fmap_ext_1.
  eapply Forall_impl; [exact P|]. intros s Hs. cbn beta. by rewrite Hs.
Qed.
End Index.

(* ===================================================================== *)
(** ** A batch of the collector *)
(* ===================================================================== *)

Section BatchRun.
Import Py Collector Batch.

(** The name of the saved file is not the empty string. *)
Lemma filename_truthy (data_dir rest : string) :
  String.eqb (data_dir +:+ "/" +:+ rest) "" = false.
Proof. by destruct data_dir. Qed.

(** What one turn of the loop adds. *)
Lemma batch_turn_spec (data_dir : string) (manual : bool) (st : Loop)
  (supplier_id : string) (v : Visit) :
  exists res,
    batch_results (batch_turn data_dir manual st (supplier_id, v))
    = batch_results st ++ [res]
    /\ successful_scrapes (batch_turn data_dir manual st (supplier_id, v))
       = (successful_scrapes st + (if is_success res then 1 else 0))%nat
    /\ failed_scrapes (batch_turn data_dir manual st (supplier_id, v))
       = (failed_scrapes st + (if is_success res then 0 else 1))%nat
    /\ error_log (batch_turn data_dir manual st (supplier_id, v))
       = error_log st ++ logged_error res
    /\ result_id res = supplier_id
    /\ is_success res = saved_turn manual v
    /\ match res with
       | Success _ filename title len keys ts =>
           filename = data_dir +:+ "/" +:+ supplier_id +:+ ".html"
           /\ (0 < len)%nat /\ (keys <= 5)%nat
           /\ exists page, fetch v = Fetched page
                /\ title = page_title page
                /\ len = String.length (html_content page)
                /\ ts = scrape_time v
       | Failure _ e ts =>
           ts = failure_time v /\ e <> ""
           /\ (e = "Unknown error" <-> empty_page_turn manual v = true)
       end.
Proof.
  unfold batch_turn, saved_turn, empty_page_turn, clean_page,
    scrape_volvo_scorecard, save_supplier_data, failed_turn, truthy,
    login_message, denied_message, not_found_message.
  cbv zeta.
  destruct (manual || browser_starts v); cbn [andb];
    [destruct (fetch v) as [page|e0]|].
  - destruct (existsb _ login_terms) eqn:E1; cbn [negb andb].
    { eexists (Failure _ _ _). cbn. repeat split; try lia; try done; try discriminate;
      try (simpl; by rewrite app_nil_r). }
    destruct (existsb _ denied_terms) eqn:E2; cbn [negb andb].
    { eexists (Failure _ _ _). cbn. repeat split; try lia; try done; try discriminate;
      try (simpl; by rewrite app_nil_r). }
    destruct (contains "supplier not found" _ || contains "no supplier" _) eqn:E3;
      cbn [negb andb].
    { eexists (Failure _ _ _). cbn. repeat split; try lia; try done; try discriminate;
      try (simpl; by rewrite app_nil_r). }
    cbn [res_html_content res_supplier_id res_page_title res_content_length
         res_key_elements_found res_timestamp].
    destruct (String.eqb (html_content page) "") eqn:E4; cbn [negb andb].
    { eexists (Failure _ _ _). cbn. repeat split; try lia; try done; try discriminate;
      try (simpl; by rewrite app_nil_r). }
    destruct (can_save v); cbn [negb andb].
    + rewrite filename_truthy. cbn [negb].
      eexists (Success _ _ _ _ _ _). cbn -[String.append].
      repeat split; try lia; try (by rewrite app_nil_r).
      * destruct (html_content page); [discriminate E4|simpl; lia].
      * exact (List.filter_length_le
                 (fun elem => contains elem (str_lower (html_content page)))
                 key_elements).
      * exists page. done.
    + eexists (Failure _ _ _). cbn. repeat split; try lia; try done; try discriminate;
      try (simpl; by rewrite app_nil_r).
  - eexists (Failure _ _ _). cbn. repeat split; try lia; try done; try discriminate;
      try (simpl; by rewrite app_nil_r).
  - eexists (Failure _ _ _). cbn. repeat split; try lia; try done; try discriminate;
      try (simpl; by rewrite app_nil_r).
Qed.

Lemma batch_loop_spec (data_dir : string) (manual : bool)
  (turns : list (string * Visit)) (st : Loop) :
  exists rs,
    batch_results (fold_left (batch_turn data_dir manual) turns st)
    = batch_results st ++ rs
    /\ successful_scrapes (fold_left (batch_turn data_dir manual) turns st)
       = (successful_scrapes st + length (List.filter is_success rs))%nat
    /\ failed_scrapes (fold_left (batch_turn data_dir manual) turns st)
       = (failed_scrapes st
          + length (List.filter (fun r => negb (is_success r)) rs))%nat
    /\ error_log (fold_left (batch_turn data_dir manual) turns st)
       = error_log st ++ (rs ≫= logged_error)
    /\ Forall2 (turn_entry data_dir manual) turns rs.
Proof.
  revert st. induction turns as [|[supplier_id v] turns IH]; intros st.
  - exists []. cbn. rewrite !app_nil_r. repeat split; try lia. constructor.
  - cbn [fold_left].
    destruct (batch_turn_spec data_dir manual st supplier_id v)
      as (res & Hr & Hs & Hf & Hl & Hid & Hok & Hres).
    destruct (IH (batch_turn data_dir manual st (supplier_id, v)))
      as (rs & Hr' & Hs' & Hf' & Hl' & Hall).
    exists (res :: rs). rewrite Hr', Hs', Hf', Hl', Hr, Hs, Hf, Hl.
    rewrite bind_cons, <- !app_assoc. cbn [List.filter app].
    repeat split.
    + destruct (is_success res); cbn [length]; lia.
    + destruct (is_success res); cbn [negb length]; lia.
    + constructor; [|exact Hall]. by split.
Qed.

(** X13 -- A batch gives one entry for each supplier id, in the order of
    the ids, whatever happens at the turns: no id is skipped and none is
    tried twice.  The two counters add up to the number of ids, and each
    equals the number of entries of its kind.  With manual login and no
    browser for it, nothing is tried and the result is empty. *)
Theorem X13_batch_one_entry_per_id (turns : list (string * Visit))
  (data_dir : string) (use_manual_login : bool) :
  let st := batch_loop data_dir use_manual_login turns in
  result_id <$> process_supplier_batch turns data_dir use_manual_login true
  = turns.*1
  /\ (successful_scrapes st + failed_scrapes st = length turns)%nat
  /\ successful_scrapes st = length (List.filter is_success (batch_results st))
  /\ failed_scrapes st
     = length (List.filter (fun r => negb (is_success r)) (batch_results st))
  /\ process_supplier_batch turns data_dir true false = [].
Proof.
  unfold process_supplier_batch, batch_loop. rewrite andb_false_r.
  destruct (batch_loop_spec data_dir use_manual_login turns
              {| successful_scrapes := 0; failed_scrapes := 0;
                 batch_results := []; error_log := [] |})
    as (rs & -> & -> & -> & _ & Hall).
  cbn [batch_results successful_scrapes failed_scrapes app Nat.add].
  assert (Hlen : length turns = length rs) by (by eapply Forall2_length).
  assert (Hsplit : (length (List.filter is_success rs)
                    + length (List.filter (fun r => negb (is_success r)) rs)
                    = length rs)%nat).
  { clear. induction rs as [|r rs IH]; [done|]. cbn [List.filter].
    destruct (is_success r); cbn [negb length]; lia. }
  repeat split; try lia.
  clear Hlen Hsplit. induction Hall as [|turn res turns rs Ht _ IH]; [done|].
  cbn [fmap list_fmap]. destruct Ht as (-> & _). by f_equal.
Qed.

(** X14 -- An entry of a batch is a success exactly when, at its turn, a
    browser was there, the page was fetched, none of the login, access-
    denied and not-found terms occurs in it, its source is not empty and
    the HTML file could be written.  A success names the file
    data_dir/id.html, a content length above zero and at most five key
    elements; a failure always carries an error text. *)
Theorem X14_batch_success_exactly_saved (turns : list (string * Visit))
  (data_dir : string) (use_manual_login : bool) :
  Forall2 (fun turn res =>
             is_success res = saved_turn use_manual_login turn.2
             /\ match res with
                | Success _ filename _ len keys _ =>
                    filename = data_dir +:+ "/" +:+ turn.1 +:+ ".html"
                    /\ (0 < len)%nat /\ (keys <= 5)%nat
                | Failure _ e _ => e <> ""
                end)
    turns (process_supplier_batch turns data_dir use_manual_login true).
Proof.
  unfold process_supplier_batch, batch_loop. rewrite andb_false_r.
  destruct (batch_loop_spec data_dir use_manual_login turns
              {| successful_scrapes := 0; failed_scrapes := 0;
                 batch_results := []; error_log := [] |})
    as (rs & -> & _ & _ & _ & Hall).
  cbn [batch_results app]. eapply Forall2_impl; [exact Hall|].
  intros turn res (_ & Hs & Hres). split; [exact Hs|].
  destruct res; [by destruct Hres as (? & ? & ? & _)|by destruct Hres as (_ & ? & _)].
Qed.

(** X15 -- Every failed entry whose error is not 'Unknown error' leaves
    its error text as one line of the error log, in the order of the
    entries, and nothing else is logged.  The error is 'Unknown error'
    exactly for a page that was fetched and passed every check but whose
    source is empty: such a failure is recorded without a line in the
    log. *)
Theorem X15_batch_error_log (turns : list (string * Visit))
  (data_dir : string) (use_manual_login : bool) :
  let st := batch_loop data_dir use_manual_login turns in
  error_log st = batch_results st ≫= logged_error
  /\ Forall2 (fun turn res =>
                (exists supplier_id ts, res = Failure supplier_id "Unknown error" ts)
                <-> empty_page_turn use_manual_login turn.2 = true)
       turns (batch_results st).
Proof.
  unfold batch_loop.
  destruct (batch_loop_spec data_dir use_manual_login turns
              {| successful_scrapes := 0; failed_scrapes := 0;
                 batch_results := []; error_log := [] |})
    as (rs & -> & _ & _ & -> & Hall).
  cbn [batch_results error_log app]. split; [done|].
  eapply Forall2_impl; [exact Hall|].
  intros [supplier_id v] res (_ & Hs & Hres). cbn [snd] in *. split.
  - intros (i & ts & ->). by apply Hres.
  - intros He. destruct res as [| i e ts].
    + cbn [is_success] in Hs. unfold saved_turn in Hs.
      unfold empty_page_turn in He.
      destruct (use_manual_login || browser_starts v); [|discriminate].
      destruct (fetch v) as [page|]; [|discriminate].
      destruct (clean_page page); [|discriminate].
      destruct (truthy (html_content page)); discriminate.
    + destruct Hres as (_ & _ & Hu). exists i, ts. f_equal. by apply Hu.
Qed.
End BatchRun.

(* ===================================================================== *)
(** ** The supplier ids of a run of the collector *)
(* ===================================================================== *)

Section CollectorRun.
Import Py Collector Batch CollectorMain.

Lemma StronglySorted_lt_unique (l1 l2 : list Z) :
  StronglySorted Z.lt l1 -> StronglySorted Z.lt l2 ->
  (forall c, c ∈ l1 <-> c ∈ l2) -> l1 = l2.
Proof.
  intros H1. revert l2. induction H1 as [|x l1 Hs1 IH Hx]; intros l2 H2 He.
  - destruct l2 as [|y l2]; [done|].
    exfalso. eapply not_elem_of_nil, He. left.
  - destruct H2 as [|y l2 Hs2 Hy].
    { exfalso. eapply not_elem_of_nil, He. left. }
    rewrite Forall_forall in Hx, Hy.
    assert (Exy : x = y).
    { assert (Hx2 : x ∈ y :: l2) by (apply He; left).
      assert (Hy1 : y ∈ x :: l1) by (apply He; left).
      apply elem_of_cons in Hx2 as [?|Hx2]; [done|].
      apply elem_of_cons in Hy1 as [?|Hy1]; [done|].
      specialize (Hx _ Hy1). specialize (Hy _ Hx2). lia. }
    subst y. f_equal. apply IH; [done|]. intros c. split; intros Hc.
    + assert (Hc' : c ∈ x :: l2) by (apply He; by right).
      apply elem_of_cons in Hc' as [->|?]; [|done].
      specialize (Hx _ Hc). lia.
    + assert (Hc' : c ∈ x :: l1) by (apply He; by right).
      apply elem_of_cons in Hc' as [->|?]; [|done].
      specialize (Hy _ Hc). lia.
Qed.

(** X16 -- Two configurations that list the same codes give the same
    result, whatever the people they are listed for, their order and
    their repetitions: the list of ids, and so the order of a batch, is
    fixed by the set of codes. *)
Theorem X16_supplier_ids_fixed_by_listed_codes (data1 data2 : Config) :
  (forall c, listed data1 c <-> listed data2 c) ->
  load_supplier_ids_from_toml (Parsed data1)
  = load_supplier_ids_from_toml (Parsed data2).
Proof.
  intros He. unfold load_supplier_ids_from_toml.
  assert (E : sorted_set (all_codes data1) = sorted_set (all_codes data2)).
  { apply StronglySorted_lt_unique; try apply sorted_set_ascending.
    intros c. rewrite !elem_of_sorted_set, !elem_of_all_codes. apply He. }
  by rewrite E.
Qed.

Lemma imap_ids (world : nat -> Visit) (ids : list Z) :
  (imap (fun i c => (str_of_Z c, world i)) ids).*1 = str_of_Z <$> ids.
Proof.
  revert world. induction ids as [|c ids IH]; intros world; [done|].
  rewrite imap_cons. cbn [fmap list_fmap fst]. f_equal.
  apply (IH (fun i => world (S i))).
Qed.

End CollectorRun.

(* ===================================================================== *)
(** ** The further theorems on sample pages *)
(* ===================================================================== *)

Section WorkedPages.
Import Py Re Datetime Extractor Collector Outcome Report Batch CollectorMain.
Import DecimalRuntime.





Lemma X7_witness_crowded_page :
  exists r,
    parse_supplier_html (RT:=decimal) Samples.now 0 Pages.crowded = Ok r
    /\ (forall k, is_Some (metrics r !! k) <-> k ∈ metric_keys)
    /\ metrics r !! "saq" = Some "N/A"
    /\ metrics r !! "saqStatus" = Some "N/A".
Proof.
  assert (F : returned (fun _ => tt)
                (parse_supplier_html (RT:=decimal) Samples.now 0 Pages.crowded)
              = Some tt) by (vm_compute; reflexivity).
  destruct (returned_ok _ _ _ F) as (r & E & _). exists r. split; [exact E|].
  exact (X7_metrics_keys_fixed (RT:=decimal) Samples.now 0 Pages.crowded r E).
Defined.




Lemma X16_witness_two_configurations :
  load_supplier_ids_from_toml
    (Parsed {| people := Some [ {| parma_codes := Some [3; 1; 2] |};
                                {| parma_codes := None |};
                                {| parma_codes := Some [2; 5; 1] |} ] |})
  = load_supplier_ids_from_toml
      (Parsed {| people := Some [ {| parma_codes := Some [5; 3; 2; 1] |} ] |}).
Proof.
  apply X16_supplier_ids_fixed_by_listed_codes.
  intros c. rewrite <- !elem_of_all_codes.
  change (c ∈ [3; 1; 2; 2; 5; 1] <-> c ∈ [5; 3; 2; 1]).
  rewrite !elem_of_cons, !elem_of_nil. tauto.
Defined.

(** The batch of four turns: a saved page, an empty page, a page that
    denies access, a page that cannot be saved. *)
Example batch_of_four_turns :
  process_supplier_batch Pages.turns "data" false true
  = [Success "101" "data/101.html" "Supplier Scorecard" 39 2 "2026-11-03T12:00:00";
     Failure "102" "Unknown error" "2026-11-03T12:00:05";
     Failure "103" "Access denied for supplier 103" "2026-11-03T12:00:05";
     Failure "104" "Failed to save file for supplier 104" "2026-11-03T12:00:05"]
  /\ error_log (batch_loop "data" false Pages.turns)
     = ["Access denied for supplier 103"; "Failed to save file for supplier 104"].
Proof. split; vm_compute; reflexivity. Qed.

(** A link text without comma: the name of the supplier is lost. *)
Example link_without_comma :
  returned (fun r => (rec_id r, name r, logo r))
    (parse_supplier_html (RT:=decimal) Samples.now 0 Pages.nameless)
  = Some ("N/A", "Unknown", "??").
Proof. vm_compute. reflexivity. Qed.

(** A Software segment without date stops the parse of an otherwise
    complete page. *)
Example undated_software_raises :
  first_bad_date Samples.undated_panel = None
  /\ raised (parse_supplier_html (RT:=decimal) Samples.now 0 Samples.undated_panel)
     = Some (KeyError "swDate").
Proof. split; vm_compute; reflexivity. Qed.
End WorkedPages.
